(** * Cerberus EchoSense: sensor fusion, signal windows and the broadcast hub

    A shallow embedding of [backend/ml_engine.py] and [backend/server.py],
    with the datagram handler of [backend/collect_csi_data.py] and the
    message format of [scripts/simulate_esp.py].

    - Python objects that are mutated through references ([DetectionResult]
      instances handed to [SensorFusionEngine.fuse]) live in an explicit
      store indexed by locations; a reference is a location.
    - [time.time()] is an input of every operation that reads the clock.
    - float64 arithmetic, [numpy.var] and the builtins [float] and [int]
      belong to the Python runtime, not to the repository; they are the
      operations of the class [Runtime], partial where the builtin can
      raise.  A reference instance over exact rationals makes every
      definition executable.
    - A datagram is a byte string.  A [str] is kept as its UTF-8 encoding:
      [bytes.decode()] gives back a well-formed datagram and raises on any
      other, and the [str] methods the handlers use are written on the
      encoding.
    - A coroutine runs from one [await] to the next; the server is a
      transition system whose events are the arrival of a datagram or of
      websocket traffic, a camera tick, and the start or the resumption of
      a broadcast. *)

From Stdlib Require Import ZArith QArith String Ascii List Bool Lia.
From Stdlib Require Import DecimalString.
From stdpp Require Import base option list gmap.
Import ListNotations.

(** ** The Python runtime *)

Class Runtime := {
  float : Type;
  (** a literal, float or int, where a float is expected *)
  of_Q : Q -> float;
  f_sub : float -> float -> float;
  f_mul : float -> float -> float;
  f_div : float -> float -> float;
  (** [a > b] *)
  f_gt : float -> float -> bool;
  (** [numpy.var] (population variance, [ddof = 0]) of floats *)
  np_var : list float -> float;
  (** [numpy.var] of a list of Python ints; [None] when it raises, as it
      does with [OverflowError] for an int that has no float *)
  np_var_int : list Z -> option float;
  (** [float(n)] for an int; [None] stands for [OverflowError] *)
  float_of_int : Z -> option float;
  (** [float(s)] for a [str]; [None] stands for [ValueError] *)
  py_float : string -> option float;
  (** [int(s)] for a [str]; [None] stands for [ValueError] *)
  py_int : string -> option Z;
  f_gt_asym : forall a b, f_gt a b = true -> f_gt b a = false
}.

(** ** Text

    [data.decode()] decodes UTF-8 strictly.  The well-formed sequences are
    those of the Unicode standard: no overlong form, no surrogate, nothing
    above U+10FFFF. *)

Definition in_range (lo hi : nat) (c : ascii) : bool :=
  let n := nat_of_ascii c in ((lo <=? n) && (n <=? hi))%nat.

Definition continuation (c : ascii) : bool := in_range 128 191 c.

(** The first two bytes of a three-byte sequence. *)
Definition lead3 (a b : ascii) : bool :=
  in_range 224 224 a && in_range 160 191 b
  || in_range 225 236 a && continuation b
  || in_range 237 237 a && in_range 128 159 b
  || in_range 238 239 a && continuation b.

(** The first two bytes of a four-byte sequence. *)
Definition lead4 (a b : ascii) : bool :=
  in_range 240 240 a && in_range 144 191 b
  || in_range 241 243 a && continuation b
  || in_range 244 244 a && in_range 128 143 b.

Fixpoint valid_utf8 (s : string) : bool :=
  match s with
  | EmptyString => true
  | String a s1 =>
      if in_range 0 127 a then valid_utf8 s1
      else
        match s1 with
        | String b s2 =>
            if in_range 194 223 a then continuation b && valid_utf8 s2
            else
              match s2 with
              | String c s3 =>
                  if lead3 a b then continuation c && valid_utf8 s3
                  else
                    match s3 with
                    | String d s4 =>
                        lead4 a b && continuation c && continuation d
                        && valid_utf8 s4
                    | EmptyString => false
                    end
              | EmptyString => false
              end
        | EmptyString => false
        end
  end.

(** [data.decode()]; [None] stands for [UnicodeDecodeError]. *)
Definition decode (data : string) : option string :=
  if valid_utf8 data then Some data else None.

(** ** [str] methods used by the handlers *)

(** [s.split(sep)] for a one-character ASCII separator: always at least
    one field.  A byte below 128 occurs in well-formed UTF-8 only as the
    character it is. *)
Fixpoint split (sep : ascii) (s : string) : list string :=
  match s with
  | EmptyString => [EmptyString]
  | String c s' =>
      if Ascii.eqb c sep then EmptyString :: split sep s'
      else match split sep s' with
           | p :: ps => String c p :: ps
           | [] => [String c EmptyString]
           end
  end.

(** The characters [str.strip()] removes are those of [str.isspace()]:
    U+0009 to U+000D, U+001C to U+0020, then U+0085 and U+00A0 (two bytes),
    then U+1680, U+2000 to U+200A, U+2028, U+2029, U+202F, U+205F and
    U+3000 (three bytes). *)
Definition is_space (c : ascii) : bool :=
  let n := nat_of_ascii c in
  ((9 <=? n) && (n <=? 13) || (28 <=? n) && (n <=? 32))%nat.

Definition is_space2 (a b : ascii) : bool :=
  in_range 194 194 a && (in_range 133 133 b || in_range 160 160 b).

Definition is_space3 (a b c : ascii) : bool :=
  in_range 225 225 a && in_range 154 154 b && in_range 128 128 c
  || in_range 226 226 a && in_range 128 128 b
     && (in_range 128 138 c || in_range 168 169 c || in_range 175 175 c)
  || in_range 226 226 a && in_range 129 129 b && in_range 159 159 c
  || in_range 227 227 a && in_range 128 128 b && in_range 128 128 c.

(** Dropping the white space at the front; [p2] and [p3] recognise the
    two-byte and the three-byte characters from the bytes in the order
    they are met. *)
Fixpoint lstrip_by (p2 : ascii -> ascii -> bool)
    (p3 : ascii -> ascii -> ascii -> bool) (s : string) : string :=
  match s with
  | String a s1 =>
      if is_space a then lstrip_by p2 p3 s1
      else
        match s1 with
        | String b s2 =>
            if p2 a b then lstrip_by p2 p3 s2
            else
              match s2 with
              | String c s3 => if p3 a b c then lstrip_by p2 p3 s3 else s
              | EmptyString => s
              end
        | EmptyString => s
        end
  | EmptyString => EmptyString
  end.

Definition lstrip (s : string) : string := lstrip_by is_space2 is_space3 s.

Fixpoint string_rev (s acc : string) : string :=
  match s with
  | EmptyString => acc
  | String c s' => string_rev s' (String c acc)
  end.

(** Dropping the white space at the end: from the last byte backwards. *)
Definition rstrip (s : string) : string :=
  string_rev
    (lstrip_by (fun b a => is_space2 a b) (fun c b a => is_space3 a b c)
       (string_rev s EmptyString))
    EmptyString.

(** [s.strip()] *)
Definition strip (s : string) : string := rstrip (lstrip s).

(** [s.startswith(p)] *)
Definition startswith (s p : string) : bool := String.prefix p s.

(** ** A reference runtime over exact rationals

    Floats are rationals kept in lowest terms, so that equal values are
    equal terms.  The reference parsers read plain decimal literals (an
    optional sign, digits, an optional fraction) and reject everything
    else.  An int has a float when it rounds to a finite one, that is
    below 2^1024 - 2^970 in absolute value. *)

Definition q_sum (l : list Q) : Q := fold_right Qplus 0%Q l.

Definition q_mean (l : list Q) : Q :=
  Qred (q_sum l / inject_Z (Z.of_nat (length l))).

Definition q_var (l : list Q) : Q :=
  let m := q_mean l in
  q_mean (map (fun x => ((x - m) * (x - m))%Q) l).

Definition q_gt (a b : Q) : bool := negb (Qle_bool a b).

Definition q_of_int (n : Z) : option Q :=
  if (Z.abs n <? 2 ^ 1024 - 2 ^ 970)%Z then Some (Qred (inject_Z n)) else None.

Definition q_var_int (l : list Z) : option Q := q_var <$> mapM q_of_int l.

Definition digit (c : ascii) : option Z :=
  let n := Z.of_nat (nat_of_ascii c) in
  if ((48 <=? n) && (n <=? 57))%Z then Some (n - 48)%Z else None.

Fixpoint digits (s : string) (acc : Z) : option Z :=
  match s with
  | EmptyString => Some acc
  | String c s' => d ← digit c; digits s' (10 * acc + d)%Z
  end.

Definition unsigned_int (s : string) : option Z :=
  match s with
  | EmptyString => None
  | _ => digits s 0%Z
  end.

Definition unsigned_decimal (s : string) : option Q :=
  match split "." s with
  | [i] => inject_Z <$> unsigned_int i
  | [i; f] =>
      match i, f with
      | EmptyString, EmptyString => None
      | _, _ =>
          iv ← digits i 0%Z; fv ← digits f 0%Z;
          let scale := (10 ^ Z.of_nat (String.length f))%Z in
          Some (Qred (Qmake (iv * scale + fv) (Z.to_pos scale)))
      end
  | _ => None
  end.

Definition signed {A : Type} (neg : A -> A) (p : string -> option A)
    (s : string) : option A :=
  match s with
  | String "-" s' => neg <$> p s'
  | String "+" s' => p s'
  | _ => p s
  end.

Lemma q_gt_asym (a b : Q) : q_gt a b = true -> q_gt b a = false.
Proof.
  unfold q_gt. intros H.
  apply negb_true_iff in H. apply negb_false_iff.
  apply Qle_bool_iff. apply Qlt_le_weak. apply Qnot_le_lt.
  intros Hle. apply Qle_bool_iff in Hle. congruence.
Qed.

Definition QRuntime : Runtime :=
  {| float := Q;
     of_Q := Qred;
     f_sub := fun a b => Qred (a - b);
     f_mul := fun a b => Qred (a * b);
     f_div := fun a b => Qred (a / b);
     f_gt := q_gt;
     np_var := q_var;
     np_var_int := q_var_int;
     float_of_int := q_of_int;
     py_float := signed Qopp unsigned_decimal;
     py_int := signed Z.opp unsigned_int;
     f_gt_asym := q_gt_asym |}.

Section Engine.
Context {RT : Runtime}.

(** [a < b] on floats is the comparison [b > a]. *)
Definition f_lt (a b : float) : bool := f_gt b a.

(** The builtin [min(a, b)]: the first argument unless the second is
    smaller. *)
Definition py_min (a b : float) : float := if f_lt b a then b else a.

(** ** Data model ([ml_engine.py], lines 17-58) *)

Inductive DetectionMode :=
  CAMERA_ONLY | ESP8266 | ESP32 | WIFI_ADAPTER | HYBRID.

Inductive TrackingSource :=
  CAMERA | WIFI_RSSI | WIFI_CSI | WIFI_MONITOR | FUSION | LOST.

Record Pose := {
  keypoints : list (float * float * float);
  is_animal : bool
}.

Record DetectionResult := mkDetectionResult {
  timestamp : float;
  source : TrackingSource;
  motion_detected : bool;
  confidence : float;
  bboxes : option (list (Z * Z * Z * Z));
  class_ids : option (list Z);
  class_names : option (list string);
  tracking_ids : option (list Z);
  poses : option (list (option Pose));
  rssi : option float;
  rssi_variance : option float;
  csi_data : option (list float);
  activity : string;
  activity_confidence : float;
  out_of_frame : bool;
  handoff_active : bool
}.

(** [DetectionResult(timestamp, source, motion_detected, confidence)] with
    every other field at its dataclass default. *)
Definition new_result (t : float) (src : TrackingSource) (m : bool)
    (c : float) : DetectionResult :=
  {| timestamp := t; source := src; motion_detected := m; confidence := c;
     bboxes := None; class_ids := None; class_names := None;
     tracking_ids := None; poses := None;
     rssi := None; rssi_variance := None; csi_data := None;
     activity := "UNKNOWN"; activity_confidence := of_Q 0;
     out_of_frame := false; handoff_active := false |}.

Definition set_source (s : TrackingSource) (d : DetectionResult) :=
  mkDetectionResult (timestamp d) s (motion_detected d) (confidence d)
    (bboxes d) (class_ids d) (class_names d) (tracking_ids d) (poses d)
    (rssi d) (rssi_variance d) (csi_data d) (activity d)
    (activity_confidence d) (out_of_frame d) (handoff_active d).

Definition set_out_of_frame (b : bool) (d : DetectionResult) :=
  mkDetectionResult (timestamp d) (source d) (motion_detected d)
    (confidence d) (bboxes d) (class_ids d) (class_names d)
    (tracking_ids d) (poses d) (rssi d) (rssi_variance d) (csi_data d)
    (activity d) (activity_confidence d) b (handoff_active d).

Definition set_handoff_active (b : bool) (d : DetectionResult) :=
  mkDetectionResult (timestamp d) (source d) (motion_detected d)
    (confidence d) (bboxes d) (class_ids d) (class_names d)
    (tracking_ids d) (poses d) (rssi d) (rssi_variance d) (csi_data d)
    (activity d) (activity_confidence d) (out_of_frame d) b.

Definition set_rssi (r v : option float) (d : DetectionResult) :=
  mkDetectionResult (timestamp d) (source d) (motion_detected d)
    (confidence d) (bboxes d) (class_ids d) (class_names d)
    (tracking_ids d) (poses d) r v (csi_data d)
    (activity d) (activity_confidence d) (out_of_frame d) (handoff_active d).

Definition set_csi_data (c : option (list float)) (d : DetectionResult) :=
  mkDetectionResult (timestamp d) (source d) (motion_detected d)
    (confidence d) (bboxes d) (class_ids d) (class_names d)
    (tracking_ids d) (poses d) (rssi d) (rssi_variance d) c
    (activity d) (activity_confidence d) (out_of_frame d) (handoff_active d).

Definition set_activity (a : string) (d : DetectionResult) :=
  mkDetectionResult (timestamp d) (source d) (motion_detected d)
    (confidence d) (bboxes d) (class_ids d) (class_names d)
    (tracking_ids d) (poses d) (rssi d) (rssi_variance d) (csi_data d)
    a (activity_confidence d) (out_of_frame d) (handoff_active d).

(** ** Signal windows

    The three adapters keep their window in a Python list and push with
    the same two statements:
    [w.append(x)]; [if len(w) > capacity: w.pop(0)]. *)

Definition window_push {A : Type} (capacity : Z) (w : list A) (x : A)
    : list A :=
  let w := w ++ [x] in
  if (capacity <? Z.of_nat (length w))%Z then tail w else w.

(** Pushing a whole sequence of samples, oldest first. *)
Definition window_push_all {A : Type} (capacity : Z) (w : list A)
    (xs : list A) : list A :=
  fold_left (window_push capacity) xs w.

(** ** Coarse-signal adapter ([ESP8266RSSIModule], lines 264-293) *)

Record RssiConfig := {
  rssi_window_size : Z;
  variance_threshold : float
}.

Record ESP8266RSSIModule := {
  rssi_config : RssiConfig;
  rssi_window : list Z
}.

(** [process_rssi(rssi)] at clock reading [now]: the module afterwards,
    and the event returned, or [None] when the call raises.  The window is
    updated before anything can raise: [np.var(self.window)] and
    [float(rssi)] raise [OverflowError] for an int that has no float. *)
Definition process_rssi (self : ESP8266RSSIModule) (now : float) (rssi : Z)
    : ESP8266RSSIModule * option DetectionResult :=
  let window :=
    window_push (rssi_window_size (rssi_config self)) (rssi_window self) rssi in
  let self := {| rssi_config := rssi_config self; rssi_window := window |} in
  if (length window <? 5)%nat then
    (self,
     raw ← float_of_int rssi;
     Some (set_rssi (Some raw) None (new_result now WIFI_RSSI false (of_Q 0))))
  else
    (self,
     variance ← np_var_int window;
     let motion := f_gt variance (variance_threshold (rssi_config self)) in
     let confidence := py_min (f_div variance (of_Q 20)) (of_Q 1) in
     raw ← float_of_int rssi;
     Some (set_activity (if motion then "WALKING" else "STILL")
             (set_rssi (Some raw) (Some variance)
                (new_result now WIFI_RSSI motion confidence)))).

(** Successive calls of [process_rssi], one per pair of a clock reading
    and a sample, by a caller that catches what a call raises; the
    outcomes are collected in order. *)
Fixpoint process_rssi_all (self : ESP8266RSSIModule)
    (samples : list (float * Z))
    : ESP8266RSSIModule * list (option DetectionResult) :=
  match samples with
  | [] => (self, [])
  | (now, rssi) :: rest =>
      let '(self, r) := process_rssi self now rssi in
      let '(self, rs) := process_rssi_all self rest in
      (self, r :: rs)
  end.

(** ** Fine-signal adapter ([ESP32CSIModule], lines 295-333)

    [ml_model] is loaded by the constructor and never read by
    [process_csi]; it is left out. *)

Record CsiConfig := {
  csi_window_size : Z;
  motion_threshold : float
}.

Record ESP32CSIModule := {
  csi_config : CsiConfig;
  csi_window : list (list float)
}.

Definition process_csi (self : ESP32CSIModule) (now : float)
    (csi : list float) : ESP32CSIModule * DetectionResult :=
  let window :=
    window_push (csi_window_size (csi_config self)) (csi_window self) csi in
  let self := {| csi_config := csi_config self; csi_window := window |} in
  let variance := np_var csi in
  let motion := f_gt variance (motion_threshold (csi_config self)) in
  let confidence := py_min (f_div variance (of_Q 1)) (of_Q 1) in
  (self,
   set_activity (if motion then "MOTION" else "CLEAR")
     (set_csi_data (Some csi)
        (new_result now WIFI_CSI motion confidence))).

(** ** Raw-packet adapter ([WiFiMonitorModule], lines 335-350)

    The packet is a dict; only its ["rssi"] entry is read, an int, with
    -100 as the default of [data.get].  The event is [None] when
    [np.var(self.packets)] raises. *)

Record WiFiMonitorModule := {
  packet_window : Z;
  packets : list Z
}.

Definition process_packet (self : WiFiMonitorModule) (now : float)
    (data_rssi : option Z) : WiFiMonitorModule * option DetectionResult :=
  let window :=
    window_push (packet_window self) (packets self)
      (default (-100)%Z data_rssi) in
  let self := {| packet_window := packet_window self; packets := window |} in
  (self,
   variance ← (if (5 <? length window)%nat then np_var_int window
               else Some (of_Q 0));
   let motion := f_gt variance (of_Q 10) in
   Some (new_result now WIFI_MONITOR motion (of_Q (1 # 2)))).

(** ** The object store

    A [DetectionResult] reference is a location of the store.  [fuse]
    writes fields of the objects it is handed, so what its caller sees
    afterwards is read from the store. *)

Abbreviation loc := positive.
Abbreviation store := (gmap positive DetectionResult).

(** The constructor call [DetectionResult(...)]: a new object at a
    location no existing reference points to. *)
Definition alloc (d : DetectionResult) (h : store) : loc * store :=
  let l := fresh (dom h) in (l, <[l := d]> h).

(** ** Fusion engine ([SensorFusionEngine], lines 352-376) *)

Record FusionConfig := {
  handoff_delay_ms : float
}.

Record SensorFusionEngine := {
  fusion_config : FusionConfig;
  handoff_start : option float
}.

Definition set_handoff_start (t : option float) (self : SensorFusionEngine) :=
  {| fusion_config := fusion_config self; handoff_start := t |}.

(** [(now - self.handoff_start) * 1000] *)
Definition elapsed_ms (now start : float) : float :=
  f_mul (f_sub now start) (of_Q 1000).

(** [if self.handoff_start is None: self.handoff_start = now], read
    back. *)
Definition start_at (self : SensorFusionEngine) (now : float) : float :=
  default now (handoff_start self).

(** The three assignments of the handoff branch:
    [res.handoff_active = True]; [res.out_of_frame = True];
    [res.source = TrackingSource.FUSION]. *)
Definition handed_off (W : DetectionResult) : DetectionResult :=
  set_source FUSION (set_out_of_frame true (set_handoff_active true W)).

(** The last statement of [fuse]:
    [return cam or wifi or DetectionResult(now, TrackingSource.LOST, False, 0.0)].
    A dataclass instance is always truthy, so [or] only tests for [None]. *)
Definition fuse_default (self : SensorFusionEngine) (now : float)
    (cam wifi : option loc) (h : store)
    : loc * SensorFusionEngine * store :=
  match cam, wifi with
  | Some c, _ => (c, self, h)
  | None, Some w => (w, self, h)
  | None, None =>
      let '(l, h) := alloc (new_result now LOST false (of_Q 0)) h in
      (l, self, h)
  end.

(** [fuse(cam, wifi)] at clock reading [now].  The result is the returned
    reference, the engine afterwards and the store afterwards; [None] only
    when an argument is a dangling location, which no Python reference
    is. *)
Definition fuse (self : SensorFusionEngine) (now : float)
    (cam wifi : option loc) (h : store)
    : option (loc * SensorFusionEngine * store) :=
  match cam with
  | Some c =>
      V ← h !! c;
      if motion_detected V then
        Some (c, set_handoff_start None self, <[c := set_source FUSION V]> h)
      else
        let start := start_at self now in
        let self := set_handoff_start (Some start) self in
        if f_gt (elapsed_ms now start) (handoff_delay_ms (fusion_config self))
        then
          match wifi with
          | Some w =>
              W ← h !! w;
              if motion_detected W then
                Some (w, self, <[w := handed_off W]> h)
              else Some (fuse_default self now cam wifi h)
          | None => Some (fuse_default self now cam wifi h)
          end
        else Some (fuse_default self now cam wifi h)
  | None => Some (fuse_default self now cam wifi h)
  end.

(** A run of fusion cycles: each cycle is the clock reading and the two
    references passed to [fuse]; the references returned are collected. *)
Definition cycle : Type := float * option loc * option loc.

(** The references of a cycle point to objects of the store, as every
    Python reference does. *)
Definition allocated (h : store) (cyc : cycle) : Prop :=
  (forall c, cyc.1.2 = Some c -> is_Some (h !! c)) /\
  (forall w, cyc.2 = Some w -> is_Some (h !! w)).

(** A cycle that has a vision event. *)
Definition vision_cycle (p : float * loc * option loc) : cycle :=
  (p.1.1, Some p.1.2, p.2).

(** What [fuse] may do to an object between two points of a run: the tag
    and the two flags, once set, stay set; the evidence fields are never
    written. *)
Definition kept (d d' : DetectionResult) : Prop :=
  (source d = FUSION -> source d' = FUSION) /\
  (handoff_active d = true -> handoff_active d' = true) /\
  (out_of_frame d = true -> out_of_frame d' = true) /\
  timestamp d' = timestamp d /\
  motion_detected d' = motion_detected d /\
  confidence d' = confidence d.

Fixpoint run_fusion (self : SensorFusionEngine) (h : store)
    (cycles : list cycle)
    : option (list loc * SensorFusionEngine * store) :=
  match cycles with
  | [] => Some ([], self, h)
  | (now, cam, wifi) :: rest =>
      '(r, self, h) ← fuse self now cam wifi h;
      '(rs, self, h) ← run_fusion self h rest;
      Some (r :: rs, self, h)
  end.

(** ** The engine facade ([MLEngine], lines 378-406)

    The camera module wraps the external detector; only its presence is
    kept.  [MLEngine] has no attribute [_last_wifi_result]. *)

Record Config := {
  hardware_mode : DetectionMode;
  camera_enabled : bool;
  esp8266_enabled : bool;
  esp32_enabled : bool;
  wifi_adapter_enabled : bool;
  detection_rssi : RssiConfig;
  detection_csi : CsiConfig;
  detection_packet_window : Z;
  config_fusion : FusionConfig
}.

Record MLEngine := {
  mode : DetectionMode;
  camera : bool;
  esp8266 : option ESP8266RSSIModule;
  esp32 : option ESP32CSIModule;
  wifi_mon : option WiFiMonitorModule;
  fusion : option SensorFusionEngine
}.

Definition MLEngine_init (config : Config) : MLEngine :=
  {| mode := hardware_mode config;
     camera := camera_enabled config;
     esp8266 :=
       if esp8266_enabled config
       then Some {| rssi_config := detection_rssi config; rssi_window := [] |}
       else None;
     esp32 :=
       if esp32_enabled config
       then Some {| csi_config := detection_csi config; csi_window := [] |}
       else None;
     wifi_mon :=
       if wifi_adapter_enabled config
       then Some {| packet_window := detection_packet_window config;
                    packets := [] |}
       else None;
     fusion :=
       match hardware_mode config with
       | HYBRID => Some {| fusion_config := config_fusion config;
                           handoff_start := None |}
       | _ => None
       end |}.

Definition set_esp8266 (m : option ESP8266RSSIModule) (e : MLEngine) :=
  {| mode := mode e; camera := camera e; esp8266 := m; esp32 := esp32 e;
     wifi_mon := wifi_mon e; fusion := fusion e |}.

Definition set_esp32 (m : option ESP32CSIModule) (e : MLEngine) :=
  {| mode := mode e; camera := camera e; esp8266 := esp8266 e; esp32 := m;
     wifi_mon := wifi_mon e; fusion := fusion e |}.

Definition set_fusion (f : option SensorFusionEngine) (e : MLEngine) :=
  {| mode := mode e; camera := camera e; esp8266 := esp8266 e;
     esp32 := esp32 e; wifi_mon := wifi_mon e; fusion := f |}.

(** The outcome of a facade call: [None] when the call raises, otherwise
    what it returns, which is Python's [None] without the module. *)
Definition process_esp8266_rssi (self : MLEngine) (now : float) (rssi : Z)
    : MLEngine * option (option DetectionResult) :=
  match esp8266 self with
  | Some m =>
      let '(m, r) := process_rssi m now rssi in
      (set_esp8266 (Some m) self, Some <$> r)
  | None => (self, Some None)
  end.

Definition process_esp32_csi (self : MLEngine) (now : float)
    (csi : list float) : MLEngine * option DetectionResult :=
  match esp32 self with
  | Some m =>
      let '(m, r) := process_csi m now csi in
      (set_esp32 (Some m) self, Some r)
  | None => (self, None)
  end.

(** [get_fused_result]: the reference returned, whether [fuse] produced
    it, the engine and the store afterwards. *)
Definition get_fused_result (self : MLEngine) (now : float)
    (cam wifi : option loc) (h : store)
    : option (option loc * bool * MLEngine * store) :=
  match fusion self with
  | Some f =>
      '(r, f, h) ← fuse f now cam wifi h;
      Some (Some r, true, set_fusion (Some f) self, h)
  | None =>
      Some (match cam with Some c => Some c | None => wifi end, false, self, h)
  end.

(** ** Wire frames ([serialize_detection_result], lines 212-239)

    A text frame is kept as the dictionary handed to [json.dumps]. *)

Definition source_value (s : TrackingSource) : string :=
  match s with
  | CAMERA => "camera" | WIFI_RSSI => "wifi_rssi" | WIFI_CSI => "wifi_csi"
  | WIFI_MONITOR => "wifi_monitor" | FUSION => "fusion" | LOST => "lost"
  end.

Record DetectionDict := {
  j_timestamp : float;
  j_source : string;
  j_motion : bool;
  j_confidence : float;
  j_bboxes : list (Z * Z * Z * Z);
  j_class_ids : list Z;
  j_class_names : list string;
  j_tracking_ids : list Z;
  j_poses : list (option Pose);
  j_rssi : option float;
  j_rssi_var : option float;
  j_csi : list float;
  j_activity : string;
  j_activity_conf : float;
  j_out_of_frame : bool;
  j_handoff_active : bool
}.

Definition serialize_detection_result (result : DetectionResult)
    : DetectionDict :=
  {| j_timestamp := timestamp result;
     j_source := source_value (source result);
     j_motion := motion_detected result;
     j_confidence := confidence result;
     j_bboxes := default [] (bboxes result);
     j_class_ids := default [] (class_ids result);
     j_class_names := default [] (class_names result);
     j_tracking_ids := default [] (tracking_ids result);
     j_poses := default [] (poses result);
     j_rssi := rssi result;
     j_rssi_var := rssi_variance result;
     j_csi := default [] (csi_data result);
     j_activity := activity result;
     j_activity_conf := activity_confidence result;
     j_out_of_frame := out_of_frame result;
     j_handoff_active := handoff_active result |}.

Inductive Frame :=
  | StatusFrame (mode : DetectionMode) (camera esp8266 esp32 wifi : bool)
  | DetectionFrame (d : DetectionDict).

(** ** Server state ([server.py], lines 47-50)

    A websocket is named by its connection number.  [tasks] holds the
    arguments of the [broadcast_detection] coroutines created by
    [asyncio.create_task] and not yet started, oldest first; [broadcasts]
    holds the calls of [broadcast_detection] that are suspended in the
    [await] of their delivery loop. *)

Abbreviation ws := nat.

(** A suspended call of [broadcast_detection]: whether the camera loop
    awaits it (otherwise it is a task), its local [message] and
    [dead_clients], and the index held by the iterator of
    [for client in websocket_clients]. *)
Record Broadcast := {
  b_inline : bool;
  b_message : DetectionDict;
  b_position : nat;
  b_dead : list ws
}.

Record Server := {
  CONFIG : Config;
  websocket_clients : list ws;
  ml_engine : option MLEngine;
  latest_detection : option loc;
  objects : store;
  tasks : list (option loc);
  broadcasts : list Broadcast
}.

Definition set_clients (c : list ws) (s : Server) :=
  {| CONFIG := CONFIG s; websocket_clients := c; ml_engine := ml_engine s;
     latest_detection := latest_detection s; objects := objects s;
     tasks := tasks s; broadcasts := broadcasts s |}.

Definition set_engine (e : option MLEngine) (s : Server) :=
  {| CONFIG := CONFIG s; websocket_clients := websocket_clients s;
     ml_engine := e; latest_detection := latest_detection s;
     objects := objects s; tasks := tasks s; broadcasts := broadcasts s |}.

Definition set_latest (l : option loc) (s : Server) :=
  {| CONFIG := CONFIG s; websocket_clients := websocket_clients s;
     ml_engine := ml_engine s; latest_detection := l;
     objects := objects s; tasks := tasks s; broadcasts := broadcasts s |}.

Definition set_objects (h : store) (s : Server) :=
  {| CONFIG := CONFIG s; websocket_clients := websocket_clients s;
     ml_engine := ml_engine s; latest_detection := latest_detection s;
     objects := h; tasks := tasks s; broadcasts := broadcasts s |}.

Definition set_tasks (t : list (option loc)) (s : Server) :=
  {| CONFIG := CONFIG s; websocket_clients := websocket_clients s;
     ml_engine := ml_engine s; latest_detection := latest_detection s;
     objects := objects s; tasks := t; broadcasts := broadcasts s |}.

Definition set_broadcasts (b : list Broadcast) (s : Server) :=
  {| CONFIG := CONFIG s; websocket_clients := websocket_clients s;
     ml_engine := ml_engine s; latest_detection := latest_detection s;
     objects := objects s; tasks := tasks s; broadcasts := b |}.

(** What a handler does that is visible from outside the state: a frame
    written to a websocket, and a reference returned by [fuse]. *)
Inductive Obs :=
  | Sent (w : ws) (f : Frame)
  | Fused (l : loc).

(** ** Broadcast ([broadcast_detection], lines 192-210) *)

(** [l.remove(x)]: the first occurrence is dropped; [None] stands for
    [ValueError]. *)
Fixpoint py_remove (x : ws) (l : list ws) : option (list ws) :=
  match l with
  | [] => None
  | y :: l' => if Nat.eqb x y then Some l' else cons y <$> py_remove x l'
  end.

(** The removal loop; a [ValueError] abandons it. *)
Fixpoint remove_dead (dead : list ws) (clients : list ws) : list ws :=
  match dead with
  | [] => clients
  | client :: rest =>
      match py_remove client clients with
      | Some clients => remove_dead rest clients
      | None => clients
      end
  end.

(** One turn of the delivery loop, from the point where the iterator is
    asked for the next client up to the same point one iteration later, or
    to the end of the call.  The iterator reads the global list as it is
    now, at its own index.  With a client, the frame is written and the
    coroutine is suspended in
    [await client.send_text(json.dumps(message))]; [ok] is the outcome of
    that statement, [false] when it raises, and then the client is
    appended to [dead_clients].  Without one the loop ends and the removal
    loop runs, which has no [await]. *)
Definition broadcast_turn (ok : bool) (b : Broadcast) (s : Server)
    : Server * list Obs * option Broadcast :=
  match websocket_clients s !! b_position b with
  | Some client =>
      (s,
       if ok then [Sent client (DetectionFrame (b_message b))] else [],
       Some {| b_inline := b_inline b; b_message := b_message b;
               b_position := S (b_position b);
               b_dead := if ok then b_dead b else b_dead b ++ [client] |})
  | None =>
      (set_clients (remove_dead (b_dead b) (websocket_clients s)) s, [], None)
  end.

(** A call of [broadcast_detection], up to its first [await] or to its
    end.  With [result = None] the serializer raises on the first
    attribute access, after [latest_detection] has been assigned. *)
Definition broadcast_detection (inline ok : bool) (result : option loc)
    (s : Server) : Server * list Obs :=
  let s := set_latest result s in
  match result ≫= (fun l => objects s !! l) with
  | None => (s, [])
  | Some r =>
      let b := {| b_inline := inline;
                  b_message := serialize_detection_result r;
                  b_position := 0; b_dead := [] |} in
      let '(s, obs, b) := broadcast_turn ok b s in
      (set_broadcasts (broadcasts s ++ option_list b) s, obs)
  end.

(** The suspended broadcast number [i] is resumed and runs to its next
    [await] or to its end. *)
Definition broadcast_resume (i : nat) (ok : bool) (s : Server)
    : Server * list Obs :=
  match broadcasts s !! i with
  | Some b =>
      let '(s, obs, b') := broadcast_turn ok b s in
      (set_broadcasts
         (match b' with
          | Some b' => <[i := b']> (broadcasts s)
          | None => delete i (broadcasts s)
          end) s,
       obs)
  | None => (s, [])
  end.

(** The frames written to one websocket, in the order written. *)
Fixpoint deliveries (w : ws) (obs : list Obs) : list Frame :=
  match obs with
  | [] => []
  | Sent w' f :: obs =>
      if Nat.eqb w w' then f :: deliveries w obs else deliveries w obs
  | Fused _ :: obs => deliveries w obs
  end.

(** The references returned by [fuse] according to a list of
    observations. *)
Fixpoint fused (obs : list Obs) : list loc :=
  match obs with
  | [] => []
  | Fused l :: obs => l :: fused obs
  | Sent _ _ :: obs => fused obs
  end.

(** [asyncio.create_task(broadcast_detection(result))] *)
Definition create_broadcast_task (result : option loc) (s : Server) :=
  set_tasks (tasks s ++ [result]) s.

(** The constructor call behind an adapter's return value. *)
Definition alloc_result (r : option DetectionResult) (s : Server)
    : option loc * Server :=
  match r with
  | Some d => let '(l, h) := alloc d (objects s) in (Some l, set_objects h s)
  | None => (None, s)
  end.

(** ** Datagram handlers (lines 100-140)

    [data.decode()] stands before the [try]: when it raises, the exception
    leaves the handler and nothing has been done.  What the adapter raises
    is caught and logged, after the adapter has updated its window. *)

Definition esp8266_datagram_received (s : Server) (now : float)
    (data : string) : Server :=
  match decode data with
  | Some text =>
      let message := strip text in
      if startswith message "RSS:" then
        match py_int (nth 1 (split ":" message) EmptyString) with
        | Some rssi_val =>
            match ml_engine s with
            | Some engine =>
                let '(engine, outcome) :=
                  process_esp8266_rssi engine now rssi_val in
                let s := set_engine (Some engine) s in
                match outcome with
                | Some result =>
                    let '(result, s) := alloc_result result s in
                    create_broadcast_task result s
                | None => s
                end
            | None => s
            end
        | None => s
        end
      else s
  | None => s
  end.

(** [[float(x) for x in xs]]: the first [ValueError] ends the
    comprehension. *)
Fixpoint floats_of (xs : list string) : option (list float) :=
  match xs with
  | [] => Some []
  | x :: xs => v ← py_float x; vs ← floats_of xs; Some (v :: vs)
  end.

(** [parts[1:65]] *)
Definition slice_1_65 (parts : list string) : list string :=
  take 64 (drop 1 parts).

Definition esp32_datagram_received (s : Server) (now : float)
    (data : string) : Server :=
  match decode data with
  | Some text =>
      let message := strip text in
      let parts := split "," message in
      if (64 <=? length parts)%nat then
        match floats_of (slice_1_65 parts) with
        | Some csi_data =>
            match ml_engine s with
            | Some engine =>
                let '(engine, result) :=
                  process_esp32_csi engine now csi_data in
                let '(result, s) :=
                  alloc_result result (set_engine (Some engine) s) in
                create_broadcast_task result s
            | None => s
            end
        | None => s
        end
      else s
  | None => s
  end.

(** ** Camera loop body (lines 170-188)

    [frame] is what [process_camera_frame()] returned, [now] the clock
    reading inside [fuse], [ok] the outcome of the first write of the
    broadcast, which the loop awaits.  The engine gives no result only for
    a dangling reference, which does not occur. *)
Definition camera_processing_step (s : Server) (now : float)
    (frame : option DetectionResult) (ok : bool) : Server * list Obs :=
  match ml_engine s with
  | Some engine =>
      if camera engine then
        match frame with
        | Some r =>
            let '(result, h) := alloc r (objects s) in
            match hardware_mode (CONFIG s) with
            | HYBRID =>
                (* getattr(ml_engine, '_last_wifi_result', None) *)
                let wifi_result : option loc := None in
                match get_fused_result engine now (Some result) wifi_result h with
                | Some (result, fused, engine, h) =>
                    let s := set_latest result
                               (set_objects h (set_engine (Some engine) s)) in
                    let '(s, obs) := broadcast_detection true ok result s in
                    (s, (if fused then from_option (fun l => [Fused l]) [] result
                         else []) ++ obs)
                | None => (s, [])
                end
            | _ =>
                let s := set_latest (Some result) (set_objects h s) in
                broadcast_detection true ok (Some result) s
            end
        | None => (s, [])
        end
      else (s, [])
  | None => (s, [])
  end.

(** ** Websocket endpoint (lines 243-274)

    The outcome of one [await websocket.send_text(...)] in the endpoint:
    the frame is written, or the call raises [WebSocketDisconnect], which
    the endpoint catches, or it raises something else, which ends the
    endpoint's coroutine. *)

Inductive WriteOutcome := Written | Disconnected | Raised.

(** The [except WebSocketDisconnect] branch; a [ValueError] of [remove]
    ends the coroutine with the registry as it was. *)
Definition websocket_disconnect (s : Server) (websocket : ws) : Server :=
  match py_remove websocket (websocket_clients s) with
  | Some clients => set_clients clients s
  | None => s
  end.

(** Accepting a connection: the status frame is written outside the
    [try]. *)
Definition websocket_connect (s : Server) (websocket : ws)
    (outcome : WriteOutcome) : Server * list Obs :=
  let s := set_clients (websocket_clients s ++ [websocket]) s in
  let c := CONFIG s in
  match outcome with
  | Written =>
      (s, [Sent websocket
             (StatusFrame (hardware_mode c) (camera_enabled c)
                (esp8266_enabled c) (esp32_enabled c)
                (wifi_adapter_enabled c))])
  | _ => (s, [])
  end.

(** One turn of the receive loop, for the text [data]. *)
Definition websocket_receive_text (s : Server) (websocket : ws)
    (data : string) (outcome : WriteOutcome) : Server * list Obs :=
  if String.eqb data "get_latest" then
    match latest_detection s ≫= (fun l => objects s !! l) with
    | Some r =>
        match outcome with
        | Written =>
            (s, [Sent websocket
                   (DetectionFrame (serialize_detection_result r))])
        | Disconnected => (websocket_disconnect s websocket, [])
        | Raised => (s, [])
        end
    | None => (s, [])
    end
  else (s, []).

(** ** The event loop

    [startup_event] starts a datagram listener or the camera loop only when
    the source is enabled in [CONFIG].  The loop runs one coroutine at a
    time, from one [await] to the next: a task created by
    [asyncio.create_task] starts when the loop gets to it, oldest first; a
    suspended broadcast is resumed when its write has completed, in any
    order with respect to the others and to what arrives meanwhile.  The
    camera loop awaits its own broadcast, so it has no tick while that one
    is suspended. *)

Definition startup (config : Config) (engine_ok : bool) : Server :=
  {| CONFIG := config; websocket_clients := [];
     ml_engine := if engine_ok then Some (MLEngine_init config) else None;
     latest_detection := None; objects := ∅; tasks := []; broadcasts := [] |}.

Inductive Event :=
  | UdpESP8266 (now : float) (data : string)
  | UdpESP32 (now : float) (data : string)
  | RunTask (ok : bool)
  | Resume (i : nat) (ok : bool)
  | CameraTick (now : float) (frame : option DetectionResult) (ok : bool)
  | WsConnect (w : ws) (outcome : WriteOutcome)
  | WsText (w : ws) (data : string) (outcome : WriteOutcome)
  | WsDisconnect (w : ws).

Definition step (s : Server) (e : Event) : Server * list Obs :=
  match e with
  | UdpESP8266 now data =>
      if esp8266_enabled (CONFIG s)
      then (esp8266_datagram_received s now data, []) else (s, [])
  | UdpESP32 now data =>
      if esp32_enabled (CONFIG s)
      then (esp32_datagram_received s now data, []) else (s, [])
  | RunTask ok =>
      match tasks s with
      | result :: rest => broadcast_detection false ok result (set_tasks rest s)
      | [] => (s, [])
      end
  | Resume i ok => broadcast_resume i ok s
  | CameraTick now frame ok =>
      if camera_enabled (CONFIG s) && negb (existsb b_inline (broadcasts s))
      then camera_processing_step s now frame ok else (s, [])
  | WsConnect w outcome => websocket_connect s w outcome
  | WsText w data outcome => websocket_receive_text s w data outcome
  | WsDisconnect w => (websocket_disconnect s w, [])
  end.

Fixpoint run (s : Server) (es : list Event) : Server * list Obs :=
  match es with
  | [] => (s, [])
  | e :: es =>
      let '(s, o) := step s e in
      let '(s, os) := run s es in
      (s, o ++ os)
  end.

End Engine.

(** * Properties *)

Section Windows.
Context {A : Type}.
Implicit Types (w xs : list A) (x : A) (capacity : Z).

Lemma window_push_unfold capacity w x :
  window_push capacity w x =
  if (capacity <? Z.of_nat (length w) + 1)%Z then tail (w ++ [x]) else w ++ [x].
Proof.
  unfold window_push. rewrite length_app. simpl.
  replace (Z.of_nat (length w + 1)) with (Z.of_nat (length w) + 1)%Z by lia.
  reflexivity.
Qed.

Lemma tail_snoc_length w x : length (tail (w ++ [x])) = length w.
Proof. destruct w; simpl; [reflexivity|]. rewrite length_app. simpl. lia. Qed.

Lemma window_push_length capacity w x :
  (0 <= capacity)%Z ->
  (Z.of_nat (length w) <= capacity)%Z ->
  (Z.of_nat (length (window_push capacity w x)) <= capacity)%Z.
Proof.
  intros Hc Hw. rewrite window_push_unfold.
  destruct (Z.ltb_spec capacity (Z.of_nat (length w) + 1)).
  - rewrite tail_snoc_length. lia.
  - rewrite length_app. simpl. lia.
Qed.


Lemma window_push_room capacity w x :
  (Z.of_nat (length w) < capacity)%Z ->
  window_push capacity w x = w ++ [x].
Proof.
  intros Hw. rewrite window_push_unfold.
  destruct (Z.ltb_spec capacity (Z.of_nat (length w) + 1)); [lia|reflexivity].
Qed.

Lemma window_push_all_snoc capacity w xs x :
  window_push_all capacity w (xs ++ [x]) =
  window_push capacity (window_push_all capacity w xs) x.
Proof. unfold window_push_all. rewrite fold_left_app. reflexivity. Qed.

Lemma window_push_all_length capacity w xs :
  (0 <= capacity)%Z ->
  (Z.of_nat (length w) <= capacity)%Z ->
  (Z.of_nat (length (window_push_all capacity w xs)) <= capacity)%Z.
Proof.
  intros Hc. revert w. induction xs as [|x xs IH]; intros w Hw; simpl.
  - exact Hw.
  - apply IH. apply window_push_length; assumption.
Qed.

(** The window is always the most recent [capacity] samples. *)
Lemma window_push_all_drop capacity w xs :
  (0 <= capacity)%Z ->
  (Z.of_nat (length w) <= capacity)%Z ->
  window_push_all capacity w xs =
  drop (length (w ++ xs) - Z.to_nat capacity) (w ++ xs).
Proof.
  intros Hc Hw. induction xs as [|x xs IH] using rev_ind.
  - simpl. rewrite app_nil_r.
    replace (length w - Z.to_nat capacity) with 0 by lia. reflexivity.
  - rewrite window_push_all_snoc.
    pose proof (window_push_all_length capacity w xs Hc Hw) as Hlen.
    rewrite IH in Hlen |- *. rewrite length_drop in Hlen.
    set (l := w ++ xs) in *.
    replace (w ++ xs ++ [x]) with (l ++ [x]) by (subst l; rewrite app_assoc; reflexivity).
    rewrite window_push_unfold, length_drop, length_app. simpl.
    destruct (Z.ltb_spec capacity
                (Z.of_nat (length l - (length l - Z.to_nat capacity)) + 1)).
    + rewrite <- drop_app_le by lia.
      replace (length l + 1 - Z.to_nat capacity)
        with (S (length l - Z.to_nat capacity)) by lia.
      generalize (length l - Z.to_nat capacity) (l ++ [x]).
      intros n l'. revert n. induction l' as [|a l' IHl]; intros [|n]; simpl;
        try reflexivity.
      apply IHl.
    + replace (length l - Z.to_nat capacity) with 0 by lia.
      replace (length l + 1 - Z.to_nat capacity) with 0 by lia.
      reflexivity.
Qed.

End Windows.

Section Adapters.
Context {RT : Runtime}.

Lemma process_rssi_window self now rssi :
  rssi_window (fst (process_rssi self now rssi)) =
  window_push (rssi_window_size (rssi_config self)) (rssi_window self) rssi.
Proof. unfold process_rssi. destruct (_ <? 5)%nat; reflexivity. Qed.

Lemma process_rssi_config self now rssi :
  rssi_config (fst (process_rssi self now rssi)) = rssi_config self.
Proof. unfold process_rssi. destruct (_ <? 5)%nat; reflexivity. Qed.

Lemma process_rssi_all_config self samples :
  rssi_config (fst (process_rssi_all self samples)) = rssi_config self.
Proof.
  revert self. induction samples as [|[now x] rest IH]; intros self; simpl.
  - reflexivity.
  - pose proof (process_rssi_config self now x) as Hc.
    destruct (process_rssi self now x) as [self1 r]. simpl in Hc.
    specialize (IH self1). destruct (process_rssi_all self1 rest) as [self2 rs].
    simpl in *. congruence.
Qed.

Lemma process_rssi_all_window self samples :
  rssi_window (fst (process_rssi_all self samples)) =
  window_push_all (rssi_window_size (rssi_config self)) (rssi_window self)
    (map snd samples).
Proof.
  revert self. induction samples as [|[now x] rest IH]; intros self; simpl.
  - reflexivity.
  - pose proof (process_rssi_window self now x) as Hw.
    pose proof (process_rssi_config self now x) as Hc.
    destruct (process_rssi self now x) as [self1 r]. simpl in Hw, Hc.
    specialize (IH self1). destruct (process_rssi_all self1 rest) as [self2 rs].
    simpl in *. rewrite IH, Hw, Hc. reflexivity.
Qed.


Lemma process_rssi_warmup self now rssi :
  (length (window_push (rssi_window_size (rssi_config self))
             (rssi_window self) rssi) < 5)%nat ->
  snd (process_rssi self now rssi) =
  (raw ← float_of_int rssi;
   Some (set_rssi (Some raw) None (new_result now WIFI_RSSI false (of_Q 0)))).
Proof.
  intros Hlen. unfold process_rssi.
  destruct (Nat.ltb_spec
              (length (window_push (rssi_window_size (rssi_config self))
                         (rssi_window self) rssi)) 5); [reflexivity|lia].
Qed.

Lemma process_rssi_ready self now rssi :
  let window := window_push (rssi_window_size (rssi_config self))
                  (rssi_window self) rssi in
  (5 <= length window)%nat ->
  snd (process_rssi self now rssi) =
  (variance ← np_var_int window;
   let motion := f_gt variance (variance_threshold (rssi_config self)) in
   raw ← float_of_int rssi;
   Some (set_activity (if motion then "WALKING" else "STILL")
           (set_rssi (Some raw) (Some variance)
              (new_result now WIFI_RSSI motion
                 (py_min (f_div variance (of_Q 20)) (of_Q 1)))))).
Proof.
  intros window Hlen. unfold process_rssi.
  fold window.
  destruct (Nat.ltb_spec (length window) 5); [lia|reflexivity].
Qed.

(** [min(a, b)] is [b] when [a > b] and [a] otherwise, and never above
    [b]. *)
Lemma py_min_eq (a b : float) : py_min a b = if f_gt a b then b else a.
Proof. reflexivity. Qed.

Lemma py_min_bound (a b : float) : f_gt (py_min a b) b = false.
Proof.
  unfold py_min, f_lt. destruct (f_gt a b) eqn:Hab; [|exact Hab].
  destruct (f_gt b b) eqn:Hbb; [|reflexivity].
  pose proof (f_gt_asym b b Hbb). congruence.
Qed.

(** What an event of the coarse-signal adapter is made from. *)
Lemma process_rssi_Some self now (x : Z) e :
  snd (process_rssi self now x) = Some e ->
  let window := window_push (rssi_window_size (rssi_config self))
                  (rssi_window self) x in
  exists raw,
    float_of_int x = Some raw /\ rssi e = Some raw /\
    timestamp e = now /\ source e = WIFI_RSSI /\
    out_of_frame e = false /\ handoff_active e = false /\
    ((length window < 5)%nat /\
     motion_detected e = false /\ confidence e = of_Q 0 /\
     rssi_variance e = None /\ activity e = "UNKNOWN"%string
     \/
     (5 <= length window)%nat /\
     exists variance,
       np_var_int window = Some variance /\
       rssi_variance e = Some variance /\
       motion_detected e = f_gt variance (variance_threshold (rssi_config self)) /\
       confidence e = py_min (f_div variance (of_Q 20)) (of_Q 1) /\
       activity e = (if motion_detected e then "WALKING" else "STILL")%string).
Proof.
  intros He window.
  destruct (Nat.lt_ge_cases (length window) 5) as [Hlt|Hge].
  - rewrite process_rssi_warmup in He by exact Hlt.
    destruct (float_of_int x) as [raw|]; simpl in He; [|discriminate].
    injection He as <-. exists raw. simpl. repeat split. left. repeat split.
    exact Hlt.
  - rewrite process_rssi_ready in He by exact Hge. fold window in He.
    destruct (np_var_int window) as [variance|]; simpl in He; [|discriminate].
    destruct (float_of_int x) as [raw|]; simpl in He; [|discriminate].
    injection He as <-. exists raw. simpl. repeat split. right.
    split; [exact Hge|]. exists variance. repeat split.
Qed.


(** C6.  After the push, a window of fewer than five samples gives the
    event [DetectionResult(now, WIFI_RSSI, False, 0.0, rssi=float(rssi))]:
    no motion, confidence 0.0, the raw value and nothing else.  With five
    or more, motion is [variance > variance_threshold] for the variance of
    the window, confidence is [variance / 20.0] capped at 1.0, the
    activity is WALKING on motion and STILL otherwise, and the raw value
    and the variance are carried; in particular a variance below the
    threshold gives no motion.  The call returns this event whenever
    [np.var] of the window and [float] of the sample exist; otherwise it
    raises, with the window already updated. *)
Theorem process_rssi_event (self : ESP8266RSSIModule) (now : float) (sample : Z) :
  let window := window_push (rssi_window_size (rssi_config self))
                  (rssi_window self) sample in
  let threshold := variance_threshold (rssi_config self) in
  let r := snd (process_rssi self now sample) in
  rssi_window (fst (process_rssi self now sample)) = window /\
  ((length window < 5)%nat ->
     (forall raw, float_of_int sample = Some raw ->
        r = Some (set_rssi (Some raw) None
                    (new_result now WIFI_RSSI false (of_Q 0))) /\
        exists e, r = Some e /\
          motion_detected e = false /\ confidence e = of_Q 0 /\
          rssi e = Some raw /\ rssi_variance e = None /\
          activity e = "UNKNOWN"%string /\ source e = WIFI_RSSI) /\
     (float_of_int sample = None -> r = None)) /\
  ((5 <= length window)%nat ->
     (forall variance raw,
        np_var_int window = Some variance -> float_of_int sample = Some raw ->
        exists e, r = Some e /\
          motion_detected e = f_gt variance threshold /\
          confidence e =
            (if f_gt (f_div variance (of_Q 20)) (of_Q 1) then of_Q 1
             else f_div variance (of_Q 20)) /\
          f_gt (confidence e) (of_Q 1) = false /\
          activity e =
            (if f_gt variance threshold then "WALKING" else "STILL")%string /\
          rssi e = Some raw /\ rssi_variance e = Some variance /\
          source e = WIFI_RSSI /\
          (f_lt variance threshold = true -> motion_detected e = false)) /\
     (np_var_int window = None \/ float_of_int sample = None -> r = None)).
Proof.
  intros window threshold r. split; [apply process_rssi_window|].
  split.
  - intros Hlen. subst r. rewrite process_rssi_warmup by exact Hlen. split.
    + intros raw ->. simpl. split; [reflexivity|].
      eexists. split; [reflexivity|]. repeat split.
    + intros ->. reflexivity.
  - intros Hlen. subst r. rewrite process_rssi_ready by exact Hlen.
    fold window threshold. split.
    + intros variance raw -> ->. simpl.
      eexists. split; [reflexivity|]. simpl.
      split; [reflexivity|]. split; [apply py_min_eq|].
      split; [apply py_min_bound|]. repeat split.
      unfold f_lt. intros Hlt. apply f_gt_asym. exact Hlt.
    + intros [-> | Hraw]; [reflexivity|].
      destruct (np_var_int window); simpl; [|reflexivity].
      rewrite Hraw. reflexivity.
Qed.

(** C8.  The event of the fine-signal adapter is computed from the current
    vector alone: motion is [np.var(csi_data) > motion_threshold],
    confidence is [variance / 1.0] capped at 1.0 (the quotient itself
    unless it is above 1.0), the activity is MOTION on motion and CLEAR
    otherwise; two calls with the same configuration and the same vector
    agree on the three, whatever their windows hold. *)
Theorem process_csi_ignores_window (cfg : CsiConfig)
    (w1 w2 : list (list float)) (now1 now2 : float) (csi : list float) :
  let variance := np_var csi in
  let r1 := snd (process_csi {| csi_config := cfg; csi_window := w1 |} now1 csi) in
  let r2 := snd (process_csi {| csi_config := cfg; csi_window := w2 |} now2 csi) in
  motion_detected r1 = f_gt variance (motion_threshold cfg) /\
  confidence r1 =
    (if f_gt (f_div variance (of_Q 1)) (of_Q 1) then of_Q 1
     else f_div variance (of_Q 1)) /\
  f_gt (confidence r1) (of_Q 1) = false /\
  activity r1 =
    (if f_gt variance (motion_threshold cfg) then "MOTION" else "CLEAR")%string /\
  motion_detected r2 = motion_detected r1 /\
  confidence r2 = confidence r1 /\
  activity r2 = activity r1.
Proof.
  intros variance r1 r2. subst r1 r2. unfold process_csi. simpl.
  split; [reflexivity|]. split; [apply py_min_eq|].
  split; [apply py_min_bound|]. repeat split.
Qed.

End Adapters.

Abbreviation store := (gmap positive DetectionResult).

Section Fusion.
Context {RT : Runtime}.
Implicit Types (self : SensorFusionEngine) (h : store) (now : float)
  (V W d : DetectionResult) (c w l : positive).

Lemma fuse_vision self now c wifi h V :
  h !! c = Some V -> motion_detected V = true ->
  fuse self now (Some c) wifi h =
  Some (c, set_handoff_start None self, <[c := set_source FUSION V]> h).
Proof. intros Hc Hm. unfold fuse. rewrite Hc. simpl. rewrite Hm. reflexivity. Qed.

Lemma fuse_wait self now c wifi h V :
  h !! c = Some V -> motion_detected V = false ->
  f_gt (elapsed_ms now (start_at self now))
       (handoff_delay_ms (fusion_config self)) = false ->
  fuse self now (Some c) wifi h =
  Some (c, set_handoff_start (Some (start_at self now)) self, h).
Proof.
  intros Hc Hm Hd. unfold fuse. rewrite Hc. simpl. rewrite Hm.
  rewrite Hd. reflexivity.
Qed.

Lemma fuse_handoff self now c w h V W :
  h !! c = Some V -> motion_detected V = false ->
  h !! w = Some W -> motion_detected W = true ->
  f_gt (elapsed_ms now (start_at self now))
       (handoff_delay_ms (fusion_config self)) = true ->
  fuse self now (Some c) (Some w) h =
  Some (w, set_handoff_start (Some (start_at self now)) self,
        <[w := handed_off W]> h).
Proof.
  intros Hc Hm Hw HmW Hd. unfold fuse. rewrite Hc. simpl. rewrite Hm.
  rewrite Hd, Hw. simpl. rewrite HmW. reflexivity.
Qed.

Lemma fuse_no_wifi self now c h V :
  h !! c = Some V -> motion_detected V = false ->
  fuse self now (Some c) None h =
  Some (c, set_handoff_start (Some (start_at self now)) self, h).
Proof.
  intros Hc Hm. unfold fuse. rewrite Hc. simpl. rewrite Hm.
  destruct (f_gt _ _); reflexivity.
Qed.

Lemma fuse_wifi_still self now c w h V W :
  h !! c = Some V -> motion_detected V = false ->
  h !! w = Some W -> motion_detected W = false ->
  fuse self now (Some c) (Some w) h =
  Some (c, set_handoff_start (Some (start_at self now)) self, h).
Proof.
  intros Hc Hm Hw HmW. unfold fuse. rewrite Hc. simpl. rewrite Hm.
  destruct (f_gt _ _); [|reflexivity]. rewrite Hw. simpl. rewrite HmW.
  reflexivity.
Qed.

Lemma fuse_wifi_only self now w h :
  fuse self now None (Some w) h = Some (w, self, h).
Proof. reflexivity. Qed.

Lemma fuse_lost self now h :
  fuse self now None None h =
  Some (fresh (dom h), self,
        <[fresh (dom h) := new_result now LOST false (of_Q 0)]> h).
Proof. reflexivity. Qed.

Lemma fresh_not_allocated h : h !! fresh (dom h) = None.
Proof. apply not_elem_of_dom. apply is_fresh. Qed.

(** C2.  Whatever the engine state (so after any earlier cycles) and
    whatever the WiFi argument, a cycle whose vision event reports motion
    returns the vision reference itself and leaves [handoff_start] at
    [None].  The object it points to now has the source FUSION and every
    other field as the vision event had it; no other object is touched. *)
Theorem fuse_reacquisition self now c (wifi : option positive) h V :
  h !! c = Some V ->
  motion_detected V = true ->
  exists self' h',
    fuse self now (Some c) wifi h = Some (c, self', h') /\
    handoff_start self' = None /\
    fusion_config self' = fusion_config self /\
    h' = <[c := set_source FUSION V]> h /\
    h' !! c = Some (set_source FUSION V) /\
    (forall l, l <> c -> h' !! l = h !! l) /\
    (exists d,
        h' !! c = Some d /\
        source d = FUSION /\
        timestamp d = timestamp V /\
        motion_detected d = true /\
        confidence d = confidence V /\
        bboxes d = bboxes V /\ class_ids d = class_ids V /\
        class_names d = class_names V /\ tracking_ids d = tracking_ids V /\
        poses d = poses V /\
        rssi d = rssi V /\ rssi_variance d = rssi_variance V /\
        csi_data d = csi_data V /\
        activity d = activity V /\
        activity_confidence d = activity_confidence V /\
        out_of_frame d = out_of_frame V /\
        handoff_active d = handoff_active V).
Proof.
  intros Hc Hm. eexists _, _. split; [apply (fuse_vision _ _ _ _ _ V Hc Hm)|].
  split; [reflexivity|]. split; [reflexivity|]. split; [reflexivity|].
  split; [apply lookup_insert_eq|]. split.
  - intros l Hl. apply lookup_insert_ne. congruence.
  - exists (set_source FUSION V). split; [apply lookup_insert_eq|].
    simpl. rewrite Hm. repeat split.
Qed.

(** C3.  When neither rule returns, [fuse] returns the vision reference
    if there is one, with the store unchanged: the delay has not been
    exceeded, or there is no WiFi event, or the WiFi event reports no
    motion.  Without a vision event it returns the WiFi reference if there
    is one, engine and store unchanged; with neither it returns a new LOST
    event with no motion and confidence 0.0, every existing object
    unchanged. *)
Theorem fuse_fallback self now h :
  (forall c (wifi : option positive) V,
      h !! c = Some V -> motion_detected V = false ->
      f_gt (elapsed_ms now (start_at self now))
           (handoff_delay_ms (fusion_config self)) = false ->
      fuse self now (Some c) wifi h =
      Some (c, set_handoff_start (Some (start_at self now)) self, h)) /\
  (forall c V,
      h !! c = Some V -> motion_detected V = false ->
      fuse self now (Some c) None h =
      Some (c, set_handoff_start (Some (start_at self now)) self, h)) /\
  (forall c w V W,
      h !! c = Some V -> motion_detected V = false ->
      h !! w = Some W -> motion_detected W = false ->
      fuse self now (Some c) (Some w) h =
      Some (c, set_handoff_start (Some (start_at self now)) self, h)) /\
  (forall w, fuse self now None (Some w) h = Some (w, self, h)) /\
  (exists l d,
      fuse self now None None h = Some (l, self, <[l := d]> h) /\
      h !! l = None /\
      d = new_result now LOST false (of_Q 0) /\
      source d = LOST /\ motion_detected d = false /\ confidence d = of_Q 0).
Proof.
  split; [|split; [|split; [|split]]].
  - intros c wifi V. apply fuse_wait.
  - intros c V. apply fuse_no_wifi.
  - intros c w V W. apply fuse_wifi_still.
  - intros w. apply fuse_wifi_only.
  - exists (fresh (dom h)), (new_result now LOST false (of_Q 0)).
    split; [apply fuse_lost|]. split; [apply fresh_not_allocated|].
    repeat split.
Qed.

Lemma set_handoff_start_id self T :
  handoff_start self = Some T -> set_handoff_start (Some T) self = self.
Proof. destruct self as [cfg hs]. simpl. intros ->. reflexivity. Qed.

Lemma run_fusion_waiting self h T
    (pre : list (float * positive * option positive)) (rest : list cycle) :
  handoff_start self = Some T ->
  Forall (fun p =>
            (exists Vi, h !! p.1.2 = Some Vi /\ motion_detected Vi = false) /\
            f_gt (elapsed_ms p.1.1 T) (handoff_delay_ms (fusion_config self)) = false)
         pre ->
  run_fusion self h (map vision_cycle pre ++ rest) =
  '(rs, self', h') ← run_fusion self h rest;
  Some (map (fun p => p.1.2) pre ++ rs, self', h').
Proof.
  intros HT Hpre. induction Hpre as [|[[t ci] wi] pre [[Vi [Hci Hmi]] Hd] _ IH].
  - simpl. destruct (run_fusion self h rest) as [[[rs s'] h']|]; reflexivity.
  - simpl in Hci, Hd. cbn [map app vision_cycle run_fusion fst snd].
    rewrite (fuse_wait self t ci wi h Vi Hci Hmi)
      by (unfold start_at; rewrite HT; exact Hd).
    unfold start_at. rewrite HT. simpl default.
    rewrite (set_handoff_start_id self T HT). simpl.
    rewrite IH.
    destruct (run_fusion self h rest) as [[[rs s'] h']|]; reflexivity.
Qed.

(** C1, as the code has it.  [T] is the start of the pending handoff: the
    stored [handoff_start], or the clock reading of the first no-motion
    cycle when none is stored.  Through every cycle in which the vision
    event reports no motion and [(now - T) * 1000 > handoff_delay_ms] is
    false, [fuse] returns that cycle's vision reference and writes
    nothing; at the first cycle in which the comparison is true, with a
    WiFi event that reports motion, it returns the WiFi reference, the
    object re-tagged FUSION with [handoff_active] and [out_of_frame] set;
    [handoff_start] is [T] throughout. *)
Theorem fuse_handoff_timing self h
    (pre : list (float * positive * option positive)) now c w V W :
  let delay := handoff_delay_ms (fusion_config self) in
  let T := start_at self (hd now (map (fun p => p.1.1) pre)) in
  Forall (fun p =>
            (exists Vi, h !! p.1.2 = Some Vi /\ motion_detected Vi = false) /\
            f_gt (elapsed_ms p.1.1 T) delay = false) pre ->
  h !! c = Some V -> motion_detected V = false ->
  h !! w = Some W -> motion_detected W = true ->
  f_gt (elapsed_ms now T) delay = true ->
  run_fusion self h (map vision_cycle pre ++ [(now, Some c, Some w)]) =
  Some (map (fun p => p.1.2) pre ++ [w],
        set_handoff_start (Some T) self,
        <[w := handed_off W]> h) /\
  source (handed_off W) = FUSION /\
  handoff_active (handed_off W) = true /\
  out_of_frame (handed_off W) = true.
Proof.
  intros delay T Hpre Hc Hm Hw HmW Hd. split; [|repeat split].
  destruct pre as [|[[t0 c0] w0] pre].
  - cbn [map app hd run_fusion] in *. subst T.
    rewrite (fuse_handoff self now c w h V W Hc Hm Hw HmW Hd). reflexivity.
  - simpl hd in T. inversion Hpre as [|p pre' [[V0 [Hc0 Hm0]] Hd0] Hrest]; subst.
    simpl in Hc0, Hd0.
    cbn [map app vision_cycle run_fusion fst snd].
    rewrite (fuse_wait self t0 c0 w0 h V0 Hc0 Hm0 Hd0). fold T. simpl.
    set (self1 := set_handoff_start (Some T) self).
    assert (HT : handoff_start self1 = Some T) by reflexivity.
    rewrite (run_fusion_waiting self1 h T pre _ HT Hrest).
    cbn [run_fusion].
    rewrite (fuse_handoff self1 now c w h V W Hc Hm Hw HmW)
      by (unfold start_at; rewrite HT; exact Hd).
    reflexivity.
Qed.

(** [fuse] only sets the tag and the flags. *)
Lemma kept_refl d : kept d d.
Proof. unfold kept. tauto. Qed.

Lemma kept_trans d1 d2 d3 : kept d1 d2 -> kept d2 d3 -> kept d1 d3.
Proof. unfold kept. intuition congruence. Qed.

Lemma kept_set_source d : kept d (set_source FUSION d).
Proof. unfold kept. simpl. tauto. Qed.

Lemma kept_handed_off d : kept d (handed_off d).
Proof. unfold kept. simpl. tauto. Qed.

Lemma fuse_default_kept self now cam wifi h r self' h' l d :
  fuse_default self now cam wifi h = (r, self', h') ->
  h !! l = Some d -> h' !! l = Some d.
Proof.
  unfold fuse_default, alloc. intros Hf Hl.
  destruct cam as [c|]; [|destruct wifi as [w|]]; inversion Hf; subst; auto.
  rewrite lookup_insert_ne; [exact Hl|].
  intros Heq. rewrite <- Heq, fresh_not_allocated in Hl. discriminate.
Qed.

Lemma fuse_kept self now cam wifi h r self' h' l d :
  fuse self now cam wifi h = Some (r, self', h') ->
  h !! l = Some d ->
  exists d', h' !! l = Some d' /\ kept d d'.
Proof.
  unfold fuse. intros Hf Hl.
  assert (Hdef : forall s0, Some (fuse_default s0 now cam wifi h) = Some (r, self', h') ->
                 exists d', h' !! l = Some d' /\ kept d d').
  { intros s0 H0. inversion H0 as [H1]. exists d. split; [|apply kept_refl].
    eapply fuse_default_kept; eassumption. }
  destruct cam as [c|]; [|eauto].
  destruct (h !! c) as [V|] eqn:Hc; simpl in Hf; [|discriminate].
  destruct (motion_detected V).
  { injection Hf as Hr Hs Hh. subst r self' h'.
    destruct (decide (l = c)) as [->|Hne].
    - rewrite lookup_insert_eq. rewrite Hc in Hl. inversion Hl; subst.
      eexists; split; [reflexivity|apply kept_set_source].
    - rewrite lookup_insert_ne by congruence. exists d. split; [exact Hl|apply kept_refl]. }
  destruct (f_gt _ _); [|eauto].
  destruct wifi as [w|]; [|eauto].
  destruct (h !! w) as [W|] eqn:Hw; simpl in Hf; [|discriminate].
  destruct (motion_detected W); [|eauto].
  injection Hf as Hr Hs Hh. subst r self' h'.
  destruct (decide (l = w)) as [->|Hne].
  - rewrite lookup_insert_eq. rewrite Hw in Hl. inversion Hl; subst.
    eexists; split; [reflexivity|apply kept_handed_off].
  - rewrite lookup_insert_ne by congruence. exists d. split; [exact Hl|apply kept_refl].
Qed.

Lemma run_fusion_kept cycles : forall self h rs self' h' l d,
  run_fusion self h cycles = Some (rs, self', h') ->
  h !! l = Some d ->
  exists d', h' !! l = Some d' /\ kept d d'.
Proof.
  induction cycles as [|[[now cam] wifi] cycles IH]; intros self h rs self' h' l d Hr Hl.
  - inversion Hr; subst. exists d. split; [exact Hl|apply kept_refl].
  - simpl in Hr.
    destruct (fuse self now cam wifi h) as [[[r1 s1] h1]|] eqn:Hf; simpl in Hr;
      [|discriminate].
    destruct (run_fusion s1 h1 cycles) as [[[rs2 s2] h2]|] eqn:Hr2; simpl in Hr;
      [|discriminate].
    inversion Hr; subst.
    destruct (fuse_kept _ _ _ _ _ _ _ _ l d Hf Hl) as [d1 [Hl1 Hk1]].
    destruct (IH _ _ _ _ _ l d1 Hr2 Hl1) as [d2 [Hl2 Hk2]].
    exists d2. split; [exact Hl2|]. eapply kept_trans; eassumption.
Qed.

(** [fuse] returns whenever its references are live, and so does a run. *)
Lemma fuse_total self now cam wifi h :
  allocated h (now, cam, wifi) -> is_Some (fuse self now cam wifi h).
Proof.
  intros [Hcam Hwifi]. simpl in Hcam, Hwifi. unfold fuse.
  destruct cam as [c|]; [|eauto].
  destruct (Hcam c eq_refl) as [V ->]. simpl.
  destruct (motion_detected V); [eauto|].
  destruct (f_gt _ _); [|eauto].
  destruct wifi as [w|]; [|eauto].
  destruct (Hwifi w eq_refl) as [W ->]. simpl.
  destruct (motion_detected W); eauto.
Qed.

Lemma fuse_allocated self now cam wifi h r self' h' cyc :
  fuse self now cam wifi h = Some (r, self', h') ->
  allocated h cyc -> allocated h' cyc.
Proof.
  intros Hf [H1 H2]. split.
  - intros c Hc. destruct (H1 c Hc) as [d Hd].
    destruct (fuse_kept _ _ _ _ _ _ _ _ c d Hf Hd) as [d' [Hd' _]]. eauto.
  - intros w Hw. destruct (H2 w Hw) as [d Hd].
    destruct (fuse_kept _ _ _ _ _ _ _ _ w d Hf Hd) as [d' [Hd' _]]. eauto.
Qed.

Lemma run_fusion_total cycles : forall self h,
  Forall (allocated h) cycles -> is_Some (run_fusion self h cycles).
Proof.
  induction cycles as [|[[now cam] wifi] cycles IH]; intros self h Hall; simpl.
  - eauto.
  - inversion Hall as [|cyc rest Hcyc Hrest]; subst.
    destruct (fuse_total self now cam wifi h Hcyc) as [[[r1 s1] h1] Hf].
    rewrite Hf. simpl.
    destruct (IH s1 h1) as [[[rs s2] h2] Hr].
    + eapply Forall_impl; [exact Hrest|]. intros cyc Hc.
      eapply fuse_allocated; eassumption.
    + rewrite Hr. simpl. eauto.
Qed.

(** C10.  [fuse] returns one of its arguments, the object written in
    place and no copy made.  In the vision branch the reference returned
    is the vision reference and the caller's object now reads FUSION; in
    the handoff branch it is the WiFi reference and the caller's object
    now reads FUSION with [handoff_active] and [out_of_frame] set.  In both
    cases no object is created, further fusion cycles over live references
    always complete, and after any further fusion cycles, with any
    arguments, the same object still carries what was written. *)
Theorem fuse_writes_in_place self now h :
  (forall cycles self0 h0,
      Forall (allocated h0) cycles -> is_Some (run_fusion self0 h0 cycles)) /\
  (forall c (wifi : option positive) V,
      h !! c = Some V -> motion_detected V = true ->
      exists self' h',
        fuse self now (Some c) wifi h = Some (c, self', h') /\
        h' !! c = Some (set_source FUSION V) /\
        dom h' = dom h /\
        forall cycles rs self'' h'',
          run_fusion self' h' cycles = Some (rs, self'', h'') ->
          exists d, h'' !! c = Some d /\ source d = FUSION) /\
  (forall c w V W,
      h !! c = Some V -> motion_detected V = false ->
      h !! w = Some W -> motion_detected W = true ->
      f_gt (elapsed_ms now (start_at self now))
           (handoff_delay_ms (fusion_config self)) = true ->
      exists self' h',
        fuse self now (Some c) (Some w) h = Some (w, self', h') /\
        h' !! w = Some (handed_off W) /\
        dom h' = dom h /\
        forall cycles rs self'' h'',
          run_fusion self' h' cycles = Some (rs, self'', h'') ->
          exists d, h'' !! w = Some d /\
                    source d = FUSION /\
                    handoff_active d = true /\
                    out_of_frame d = true).
Proof.
  split; [intros cycles self0 h0; apply run_fusion_total|].
  split.
  - intros c wifi V Hc Hm. eexists _, _.
    split; [apply (fuse_vision _ _ _ _ _ V Hc Hm)|].
    split; [apply lookup_insert_eq|].
    split.
    + apply dom_insert_lookup_L. rewrite Hc. eauto.
    + intros cycles rs s2 h2 Hr.
      destruct (run_fusion_kept cycles _ _ _ _ _ c (set_source FUSION V) Hr)
        as [d [Hd Hk]]; [apply lookup_insert_eq|].
      exists d. split; [exact Hd|]. apply Hk. reflexivity.
  - intros c w V W Hc Hm Hw HmW Hd. eexists _, _.
    split; [apply (fuse_handoff _ _ _ _ _ V W Hc Hm Hw HmW Hd)|].
    split; [apply lookup_insert_eq|].
    split.
    + apply dom_insert_lookup_L. rewrite Hw. eauto.
    + intros cycles rs s2 h2 Hr.
      destruct (run_fusion_kept cycles _ _ _ _ _ w (handed_off W) Hr)
        as [d [Hl Hk]]; [apply lookup_insert_eq|].
      exists d. split; [exact Hl|]. destruct Hk as (Hs & Ha & Ho & _).
      repeat split; [apply Hs|apply Ha|apply Ho]; reflexivity.
Qed.

End Fusion.

Section Hub.
Context {RT : Runtime}.
Implicit Types (s : Server) (clients dead : list nat) (b : Broadcast).

Lemma py_remove_skip (x : nat) (pre l : list nat) :
  ~ In x pre -> py_remove x (pre ++ x :: l) = Some (pre ++ l).
Proof.
  induction pre as [|y pre IH]; intros Hx; simpl.
  - rewrite Nat.eqb_refl. reflexivity.
  - destruct (Nat.eqb_spec x y) as [->|Hne].
    + exfalso. apply Hx. left. reflexivity.
    + rewrite IH; [reflexivity|]. intros Hin. apply Hx. right. exact Hin.
Qed.

Lemma deliveries_app w (o1 o2 : list Obs) :
  deliveries w (o1 ++ o2) = deliveries w o1 ++ deliveries w o2.
Proof.
  induction o1 as [|[w' f|l] o1 IH]; simpl; [reflexivity| |exact IH].
  destruct (Nat.eqb w w'); simpl; rewrite IH; reflexivity.
Qed.

Lemma process_rssi_source (m : ESP8266RSSIModule) now (n : Z) r :
  snd (process_rssi m now n) = Some r -> source r = WIFI_RSSI.
Proof.
  intros Hr. destruct (process_rssi_Some m now n r Hr) as (raw & _ & _ & _ & H & _).
  exact H.
Qed.

(** A turn of the delivery loop touches the registry only, and only at
    the end of the loop. *)
Lemma broadcast_turn_frame ok b s :
  let s' := (broadcast_turn ok b s).1.1 in
  CONFIG s' = CONFIG s /\ ml_engine s' = ml_engine s /\
  latest_detection s' = latest_detection s /\ objects s' = objects s /\
  tasks s' = tasks s /\ broadcasts s' = broadcasts s /\
  fused (broadcast_turn ok b s).1.2 = [].
Proof.
  unfold broadcast_turn. destruct (websocket_clients s !! b_position b);
    simpl; [destruct ok|]; repeat split.
Qed.

Lemma broadcast_detection_latest inline ok (result : option positive) s :
  latest_detection (fst (broadcast_detection inline ok result s)) = result.
Proof.
  unfold broadcast_detection.
  destruct (result ≫= _) as [r|]; [|reflexivity].
  match goal with
  | |- context [broadcast_turn ok ?b ?st] =>
      pose proof (broadcast_turn_frame ok b st) as H;
      destruct (broadcast_turn ok b st) as [[s1 o1] b1]
  end.
  simpl in *. destruct H as (_ & _ & H & _). exact H.
Qed.

Lemma broadcast_detection_objects inline ok (result : option positive) s :
  objects (fst (broadcast_detection inline ok result s)) = objects s.
Proof.
  unfold broadcast_detection.
  destruct (result ≫= _) as [r|]; [|reflexivity].
  match goal with
  | |- context [broadcast_turn ok ?b ?st] =>
      pose proof (broadcast_turn_frame ok b st) as H;
      destruct (broadcast_turn ok b st) as [[s1 o1] b1]
  end.
  simpl in *. destruct H as (_ & _ & _ & H & _). exact H.
Qed.

Lemma broadcast_detection_fused inline ok (result : option positive) s :
  fused (snd (broadcast_detection inline ok result s)) = [].
Proof.
  unfold broadcast_detection.
  destruct (result ≫= _) as [r|]; [|reflexivity].
  match goal with
  | |- context [broadcast_turn ok ?b ?st] =>
      pose proof (broadcast_turn_frame ok b st) as H;
      destruct (broadcast_turn ok b st) as [[s1 o1] b1]
  end.
  simpl in *. destruct H as (_ & _ & _ & _ & _ & _ & H). exact H.
Qed.

Lemma broadcast_resume_latest i ok s :
  latest_detection (fst (broadcast_resume i ok s)) = latest_detection s.
Proof.
  unfold broadcast_resume. destruct (broadcasts s !! i) as [b|]; [|reflexivity].
  pose proof (broadcast_turn_frame ok b s) as H.
  destruct (broadcast_turn ok b s) as [[s1 o1] b1].
  simpl in *. destruct H as (_ & _ & H & _). exact H.
Qed.

(** C4, as the code has it.  On [get_latest] the server writes to the
    asking client the frame of [latest_detection], if there is one and the
    write goes through, and nothing otherwise; [latest_detection] is the
    argument of the last [broadcast_detection] call that has started, and
    resuming a broadcast does not change it.  A coarse-signal datagram
    that the adapter makes an event of stores the adapter's own event,
    tagged WIFI_RSSI, with no fusion cycle run; a camera frame in hybrid
    mode stores the reference returned by [fuse]; a camera frame in any
    other mode stores the vision event as it is. *)
Theorem get_latest_resends_last_broadcast s :
  (forall w,
      websocket_receive_text s w "get_latest" Written =
      (s, match latest_detection s ≫= (fun l => objects s !! l) with
          | Some r => [Sent w (DetectionFrame (serialize_detection_result r))]
          | None => []
          end)) /\
  (forall w outcome,
      outcome <> Written ->
      snd (websocket_receive_text s w "get_latest" outcome) = []) /\
  (forall inline ok (result : option positive),
      latest_detection (fst (broadcast_detection inline ok result s)) = result) /\
  (forall i ok,
      latest_detection (fst (broadcast_resume i ok s)) = latest_detection s) /\
  (forall now data text n engine m r ok,
      esp8266_enabled (CONFIG s) = true ->
      ml_engine s = Some engine -> esp8266 engine = Some m ->
      tasks s = [] ->
      decode data = Some text ->
      startswith (strip text) "RSS:" = true ->
      py_int (nth 1 (split ":" (strip text)) EmptyString) = Some n ->
      snd (process_rssi m now n) = Some r ->
      let s' := fst (run s [UdpESP8266 now data; RunTask ok]) in
      let obs := snd (run s [UdpESP8266 now data; RunTask ok]) in
      let l := fresh (dom (objects s)) in
      latest_detection s' = Some l /\
      objects s' !! l = Some r /\
      source r = WIFI_RSSI /\
      fused obs = []) /\
  (forall now r engine f ok,
      camera_enabled (CONFIG s) = true ->
      existsb b_inline (broadcasts s) = false ->
      hardware_mode (CONFIG s) = HYBRID ->
      ml_engine s = Some engine -> camera engine = true ->
      fusion engine = Some f ->
      let s' := fst (step s (CameraTick now (Some r) ok)) in
      let obs := snd (step s (CameraTick now (Some r) ok)) in
      let l := fresh (dom (objects s)) in
      latest_detection s' = Some l /\
      fused obs = [l] /\
      objects s' !! l =
        Some (if motion_detected r then set_source FUSION r else r)) /\
  (forall now r engine ok,
      camera_enabled (CONFIG s) = true ->
      existsb b_inline (broadcasts s) = false ->
      hardware_mode (CONFIG s) <> HYBRID ->
      ml_engine s = Some engine -> camera engine = true ->
      let s' := fst (step s (CameraTick now (Some r) ok)) in
      let obs := snd (step s (CameraTick now (Some r) ok)) in
      let l := fresh (dom (objects s)) in
      latest_detection s' = Some l /\
      fused obs = [] /\
      objects s' !! l = Some r).
Proof.
  split; [|split; [|split; [|split; [|split; [|split]]]]].
  - intros w. unfold websocket_receive_text. simpl.
    destruct (latest_detection s ≫= _); reflexivity.
  - intros w outcome Ho. unfold websocket_receive_text. simpl.
    destruct (latest_detection s ≫= _); [|reflexivity].
    destruct outcome; [congruence|reflexivity|reflexivity].
  - intros inline ok result. apply broadcast_detection_latest.
  - intros i ok. apply broadcast_resume_latest.
  - intros now data text n engine m r ok Hen Heng Hm Ht Hdec Hpre Hint Hr s' obs l.
    subst s' obs. cbn [run step]. rewrite Hen.
    unfold esp8266_datagram_received. rewrite Hdec, Hpre, Hint, Heng.
    unfold process_esp8266_rssi. rewrite Hm.
    pose proof (process_rssi_source m now n r Hr) as Hsrc.
    destruct (process_rssi m now n) as [m' r']. simpl in Hr. subst r'.
    cbn [fmap option_fmap option_map alloc_result alloc objects set_engine
         create_broadcast_task set_objects tasks set_tasks CONFIG
         websocket_clients ml_engine latest_detection].
    rewrite Ht. cbn [app].
    match goal with
    | |- context [broadcast_detection false ok (Some ?x) ?st] =>
        pose proof (broadcast_detection_latest false ok (Some x) st) as Hl;
        pose proof (broadcast_detection_objects false ok (Some x) st) as Ho;
        pose proof (broadcast_detection_fused false ok (Some x) st) as Hf;
        destruct (broadcast_detection false ok (Some x) st) as [s2 o2]
    end.
    simpl in Hl, Ho, Hf |- *. fold l in Hl, Ho.
    rewrite Hl, Ho, app_nil_r, Hf. fold l.
    split; [reflexivity|]. split; [apply lookup_insert_eq|]. split; [exact Hsrc|reflexivity].
  - intros now r engine f ok Hcam Hidle Hmode Heng Hc Hf s' obs l.
    subst s' obs. cbn [step]. rewrite Hcam, Hidle. cbn [negb andb].
    unfold camera_processing_step. rewrite Heng, Hc.
    cbn [alloc]. fold l. rewrite Hmode.
    unfold get_fused_result. rewrite Hf.
    assert (Hl : (<[l := r]> (objects s)) !! l = Some r) by apply lookup_insert_eq.
    destruct (motion_detected r) eqn:Hm.
    + rewrite (fuse_vision f now l None _ r Hl Hm). cbn [mbind option_bind].
      match goal with
      | |- context [broadcast_detection true ok (Some ?x) ?st] =>
          pose proof (broadcast_detection_latest true ok (Some x) st) as Hl1;
          pose proof (broadcast_detection_objects true ok (Some x) st) as Ho1;
          pose proof (broadcast_detection_fused true ok (Some x) st) as Hf1;
          destruct (broadcast_detection true ok (Some x) st) as [s2 o2]
      end.
      simpl in Hl1, Ho1, Hf1 |- *. rewrite Hl1, Ho1, Hf1.
      split; [reflexivity|]. split; [reflexivity|]. apply lookup_insert_eq.
    + rewrite (fuse_no_wifi f now l _ r Hl Hm). cbn [mbind option_bind].
      match goal with
      | |- context [broadcast_detection true ok (Some ?x) ?st] =>
          pose proof (broadcast_detection_latest true ok (Some x) st) as Hl1;
          pose proof (broadcast_detection_objects true ok (Some x) st) as Ho1;
          pose proof (broadcast_detection_fused true ok (Some x) st) as Hf1;
          destruct (broadcast_detection true ok (Some x) st) as [s2 o2]
      end.
      simpl in Hl1, Ho1, Hf1 |- *. rewrite Hl1, Ho1, Hf1.
      split; [reflexivity|]. split; [reflexivity|]. exact Hl.
  - intros now r engine ok Hcam Hidle Hmode Heng Hc s' obs l.
    subst s' obs. cbn [step]. rewrite Hcam, Hidle. cbn [negb andb].
    unfold camera_processing_step. rewrite Heng, Hc.
    cbn [alloc]. fold l.
    destruct (hardware_mode (CONFIG s)); try congruence;
      match goal with
      | |- context [broadcast_detection true ok (Some ?x) ?st] =>
          pose proof (broadcast_detection_latest true ok (Some x) st) as Hl1;
          pose proof (broadcast_detection_objects true ok (Some x) st) as Ho1;
          pose proof (broadcast_detection_fused true ok (Some x) st) as Hf1;
          destruct (broadcast_detection true ok (Some x) st) as [s2 o2]
      end;
      simpl in Hl1, Ho1, Hf1 |- *; rewrite Hl1, Ho1, Hf1;
      (split; [reflexivity|]); (split; [reflexivity|]); apply lookup_insert_eq.
Qed.

(** The part of the fine-signal handler that does discard. *)
Lemma floats_of_None (xs : list string) :
  floats_of xs = None <-> Exists (fun x => py_float x = None) xs.
Proof.
  induction xs as [|x xs IH]; simpl.
  - split; [discriminate|]. intros H. inversion H.
  - destruct (py_float x) as [v|] eqn:Hx; simpl.
    + destruct (floats_of xs) as [vs|]; simpl.
      * split; [discriminate|]. intros H. inversion H; subst; [congruence|].
        apply IH in H1. discriminate.
      * split; [|reflexivity]. intros _. apply Exists_cons_tl. apply IH. reflexivity.
    + split; [|reflexivity]. intros _. apply Exists_cons_hd. exact Hx.
Qed.

Lemma esp32_datagram_undecodable s now data :
  decode data = None -> esp32_datagram_received s now data = s.
Proof. intros H. unfold esp32_datagram_received. rewrite H. reflexivity. Qed.

Lemma esp32_datagram_too_short s now data text :
  decode data = Some text ->
  (length (split "," (strip text)) < 64)%nat ->
  esp32_datagram_received s now data = s.
Proof.
  intros Hdec Hlen. unfold esp32_datagram_received. rewrite Hdec.
  destruct (Nat.leb_spec 64 (length (split "," (strip text)))); [lia|reflexivity].
Qed.

Lemma esp32_datagram_not_numeric s now data text :
  decode data = Some text ->
  Exists (fun x => py_float x = None) (slice_1_65 (split "," (strip text))) ->
  esp32_datagram_received s now data = s.
Proof.
  intros Hdec Hbad. apply floats_of_None in Hbad. unfold esp32_datagram_received.
  rewrite Hdec, Hbad. destruct (_ <=? _)%nat; reflexivity.
Qed.

End Hub.

(** * Concrete runs on the reference runtime *)

Definition qf (x : Q) : @float QRuntime := Qred x.

(** The defaults written by the setup wizard, hybrid mode, camera and both
    ESP sources enabled. *)
Definition cfg0 : @Config QRuntime :=
  {| hardware_mode := HYBRID; camera_enabled := true; esp8266_enabled := true;
     esp32_enabled := true; wifi_adapter_enabled := false;
     detection_rssi := {| rssi_window_size := 50; variance_threshold := qf 5 |};
     detection_csi := {| csi_window_size := 100; motion_threshold := qf (3 # 10) |};
     detection_packet_window := 200;
     config_fusion := {| handoff_delay_ms := qf 500 |} |}.

Definition T0 : @float QRuntime := qf 1700000000.

(** A vision event without detections, one with a detection, and a
    coarse-signal event that reports motion. *)
Definition V_still : @DetectionResult QRuntime :=
  {| timestamp := T0; source := CAMERA; motion_detected := false;
     confidence := qf 0;
     bboxes := Some []; class_ids := Some []; class_names := Some [];
     tracking_ids := Some []; poses := Some [];
     rssi := None; rssi_variance := None; csi_data := None;
     activity := "UNKNOWN"; activity_confidence := qf 0;
     out_of_frame := false; handoff_active := false |}.

Definition V_motion : @DetectionResult QRuntime :=
  {| timestamp := T0; source := CAMERA; motion_detected := true;
     confidence := qf (9 # 10);
     bboxes := Some [(10, 20, 110, 220)%Z]; class_ids := Some [0%Z];
     class_names := Some ["person"%string]; tracking_ids := Some [0%Z];
     poses := Some [None];
     rssi := None; rssi_variance := None; csi_data := None;
     activity := "UNKNOWN"; activity_confidence := qf 0;
     out_of_frame := false; handoff_active := false |}.

Definition W_motion : @DetectionResult QRuntime :=
  set_activity "WALKING"
    (set_rssi (Some (qf (-48))) (Some (qf 30))
       (new_result T0 WIFI_RSSI true (qf 1))).

Definition h_still : gmap positive (@DetectionResult QRuntime) :=
  <[2%positive := W_motion]> (<[1%positive := V_still]> ∅).

Definition h_motion : gmap positive (@DetectionResult QRuntime) :=
  <[2%positive := W_motion]> (<[1%positive := V_motion]> ∅).

Definition engine_idle : @SensorFusionEngine QRuntime :=
  {| fusion_config := config_fusion cfg0; handoff_start := None |}.

Definition engine_pending : @SensorFusionEngine QRuntime :=
  {| fusion_config := config_fusion cfg0; handoff_start := Some T0 |}.

(** A fine-signal datagram of 64 fields: a timestamp and 63 amplitudes. *)
Definition csi_datagram_64 : string :=
  String.concat "," ("1700000000"%string :: repeat "1"%string 63).

(** The waiting part of a handoff: two cycles at [T0] and [T0 + 0.5 s]. *)
Definition waiting_cycles : list (@float QRuntime * positive * option positive) :=
  [(T0, 1%positive, Some 2%positive);
   (qf (3400000001 # 2), 1%positive, Some 2%positive)].

(** A registry of three clients and two stored events. *)
Definition hub0 : @Server QRuntime :=
  {| CONFIG := cfg0; websocket_clients := [1; 2; 3];
     ml_engine := Some (MLEngine_init cfg0);
     latest_detection := None; objects := h_still; tasks := [];
     broadcasts := [] |}.

(** The warm-up event of the coarse-signal adapter for a sample. *)
Definition warm_up (now : @float QRuntime) (sample : Z) : @DetectionResult QRuntime :=
  set_rssi (Some (qf (inject_Z sample))) None
    (new_result now WIFI_RSSI false (qf 0)).

(** Two clients connect and two coarse-signal datagrams arrive.  Both
    broadcasts start before either has finished, and the write to client 1
    fails in both: the first broadcast goes on to client 2, ends and
    removes client 1 while the second is suspended in its write to
    client 1; the second then finds no client at index 1. *)
Definition overlapping_publishes : list (@Event QRuntime) :=
  [WsConnect 1 Written; WsConnect 2 Written;
   UdpESP8266 T0 "RSS:-50"; UdpESP8266 T0 "RSS:-51";
   RunTask false; RunTask false;
   Resume 0 true; Resume 0 true; Resume 0 true].

(** A fine-signal vector of variance 4 and one of variance 1/4. *)
Definition csi_wide : list (@float QRuntime) := [qf 0; qf 4].
Definition csi_narrow : list (@float QRuntime) := [qf 0; qf 1].

(** A coarse-signal module with four samples in its window. *)
Definition rssi_module4 : @ESP8266RSSIModule QRuntime :=
  {| rssi_config := detection_rssi cfg0;
     rssi_window := [-50; -50; -51; -50]%Z |}.

(** ** Witnesses and counterexamples *)

(** C1, as stated, fails when the elapsed time equals the delay: with
    [handoff_start] at 1700000000.0, the clock at 1700000000.5 and
    [handoff_delay_ms = 500], the elapsed time is 500 ms, the vision event
    reports no motion and the WiFi event reports motion, yet [fuse]
    returns the vision reference and writes nothing. *)
Lemma handoff_not_taken_at_exact_delay :
  let now := qf (3400000001 # 2) in
  h_still !! 1%positive = Some V_still /\ motion_detected V_still = false /\
  h_still !! 2%positive = Some W_motion /\ motion_detected W_motion = true /\
  handoff_start engine_pending = Some T0 /\
  elapsed_ms now T0 = handoff_delay_ms (fusion_config engine_pending) /\
  fuse engine_pending now (Some 1%positive) (Some 2%positive) h_still =
    Some (1%positive, engine_pending, h_still).
Proof. repeat split. Qed.

Lemma fuse_handoff_timing_witness :
  run_fusion engine_idle h_still
    (map vision_cycle waiting_cycles ++
     [(qf (8500000003 # 5), Some 1%positive, Some 2%positive)]) =
  Some (map (fun p => p.1.2) waiting_cycles ++ [2%positive],
        set_handoff_start (Some T0) engine_idle,
        <[2%positive := handed_off W_motion]> h_still) /\
  source (handed_off W_motion) = FUSION /\
  handoff_active (handed_off W_motion) = true /\
  out_of_frame (handed_off W_motion) = true.
Proof.
  apply (fuse_handoff_timing (RT := QRuntime) engine_idle h_still
           waiting_cycles (qf (8500000003 # 5)) 1%positive 2%positive
           V_still W_motion).
  - repeat constructor; try (exists V_still; split; reflexivity).
  - reflexivity.
  - reflexivity.
  - reflexivity.
  - reflexivity.
  - reflexivity.
Defined.

Lemma fuse_reacquisition_witness :
  exists self' h',
    fuse engine_pending T0 (Some 1%positive) (Some 2%positive) h_motion =
      Some (1%positive, self', h') /\
    handoff_start self' = None /\
    (exists d, h' !! 1%positive = Some d /\ source d = FUSION /\
               confidence d = qf (9 # 10) /\
               bboxes d = Some [(10, 20, 110, 220)%Z]) /\
    h' !! 2%positive = Some W_motion.
Proof.
  destruct (fuse_reacquisition (RT := QRuntime) engine_pending T0 1%positive
              (Some 2%positive) h_motion V_motion eq_refl eq_refl)
    as (self' & h' & Hf & Hs & _ & _ & _ & Hother & d & Hd & Hsrc & _ & _ & Hc
        & Hb & _).
  exists self', h'. split; [exact Hf|]. split; [exact Hs|]. split.
  - exists d. split; [exact Hd|]. split; [exact Hsrc|].
    split; [exact Hc|exact Hb].
  - rewrite Hother by discriminate. reflexivity.
Defined.

Lemma fuse_fallback_witness :
  fuse engine_pending (qf (3400000001 # 2)) (Some 1%positive)
    (Some 2%positive) h_still =
  Some (1%positive,
        set_handoff_start
          (Some (start_at engine_pending (qf (3400000001 # 2)))) engine_pending,
        h_still).
Proof.
  apply (proj1 (fuse_fallback (RT := QRuntime) engine_pending
                  (qf (3400000001 # 2)) h_still)
           1%positive (Some 2%positive) V_still);
    reflexivity.
Defined.

Lemma fuse_writes_in_place_witness :
  exists self' h',
    fuse engine_pending (qf (8500000003 # 5)) (Some 1%positive)
      (Some 2%positive) h_still = Some (2%positive, self', h') /\
    h' !! 2%positive = Some (handed_off W_motion) /\
    dom h' = dom h_still /\
    forall cycles rs self'' h'',
      run_fusion self' h' cycles = Some (rs, self'', h'') ->
      exists d, h'' !! 2%positive = Some d /\
                source d = FUSION /\
                handoff_active d = true /\
                out_of_frame d = true.
Proof.
  apply (proj2 (proj2 (fuse_writes_in_place (RT := QRuntime) engine_pending
                         (qf (8500000003 # 5)) h_still))
           1%positive 2%positive V_still W_motion);
    reflexivity.
Defined.


Lemma process_rssi_event_witness :
  exists e,
    snd (process_rssi rssi_module4 T0 (-50)) = Some e /\
    motion_detected e = false /\
    confidence e = qf (1 # 125) /\
    activity e = "STILL"%string /\
    rssi e = Some (qf (-50)) /\
    rssi_variance e = Some (qf (4 # 25)) /\
    source e = WIFI_RSSI.
Proof.
  pose proof (proj2 (proj2 (process_rssi_event (RT := QRuntime)
                              rssi_module4 T0 (-50)))) as H.
  cbv zeta in H. specialize (H ltac:(vm_compute; lia)).
  destruct (proj1 H (qf (4 # 25)) (qf (-50))
              ltac:(vm_compute; reflexivity) ltac:(vm_compute; reflexivity))
    as (e & He & Hm & Hc & _ & Ha & Hr & Hv & Hs & _).
  exists e. split; [exact He|]. split; [exact Hm|]. split; [exact Hc|].
  split; [exact Ha|]. split; [exact Hr|]. split; [exact Hv|exact Hs].
Defined.

Lemma process_csi_ignores_window_witness :
  let m := {| csi_config := detection_csi cfg0; csi_window := [] |} in
  np_var csi_wide = qf 4 /\
  confidence (snd (process_csi m T0 csi_wide)) = qf 1 /\
  np_var csi_narrow = qf (1 # 4) /\
  confidence (snd (process_csi m T0 csi_narrow)) = qf (1 # 4) /\
  motion_detected (snd (process_csi m T0 csi_narrow)) = false.
Proof.
  intros m.
  destruct (process_csi_ignores_window (RT := QRuntime) (detection_csi cfg0)
              [] [] T0 T0 csi_wide) as (_ & Hc1 & _).
  destruct (process_csi_ignores_window (RT := QRuntime) (detection_csi cfg0)
              [] [] T0 T0 csi_narrow) as (Hm2 & Hc2 & _).
  split; [reflexivity|]. split; [exact Hc1|]. split; [reflexivity|].
  split; [exact Hc2|exact Hm2].
Defined.

(** C9: overlapping publishes skip a live client.  In the run above
    client 2 is registered throughout and every write to it succeeds, yet
    it receives the first event only: the second broadcast ends without
    having written to it.  The removal loop of the second broadcast then
    raises [ValueError], client 1 being gone already. *)
Theorem broadcast_skips_live_client :
  let status :=
    StatusFrame HYBRID true true true false in
  let before := run (startup cfg0 true) (take 8 overlapping_publishes) in
  let after := run (startup cfg0 true) overlapping_publishes in
  objects (fst after) !! 1%positive = Some (warm_up T0 (-50)) /\
  objects (fst after) !! 2%positive = Some (warm_up T0 (-51)) /\
  websocket_clients (fst before) = [2] /\
  broadcasts (fst before) =
    [{| b_inline := false;
        b_message := serialize_detection_result (warm_up T0 (-51));
        b_position := 1; b_dead := [1] |}] /\
  py_remove 1 [2] = None /\
  deliveries 1 (snd after) = [status] /\
  deliveries 2 (snd after) =
    [status; DetectionFrame (serialize_detection_result (warm_up T0 (-50)))] /\
  websocket_clients (fst after) = [2] /\
  latest_detection (fst after) = Some 2%positive /\
  tasks (fst after) = [] /\
  broadcasts (fst after) = [].
Proof. repeat split. Qed.

(** C4, as stated, fails for an event that arrives by datagram: after one
    coarse-signal datagram and the start of its broadcast, in hybrid mode,
    [latest_detection] is set, no fusion cycle has run, and [get_latest]
    is answered with the adapter's own WIFI_RSSI event. *)
Lemma get_latest_resends_raw_adapter_event :
  let r := run (startup cfg0 true)
             [WsConnect 1 Written; UdpESP8266 T0 "RSS:-50"; RunTask true] in
  snd (process_rssi
         {| rssi_config := detection_rssi cfg0; rssi_window := [] |}
         T0 (-50)) = Some (warm_up T0 (-50)) /\
  latest_detection (fst r) = Some 1%positive /\
  objects (fst r) !! 1%positive = Some (warm_up T0 (-50)) /\
  fused (snd r) = [] /\
  snd (websocket_receive_text (fst r) 1 "get_latest" Written) =
    [Sent 1 (DetectionFrame (serialize_detection_result (warm_up T0 (-50))))] /\
  j_source (serialize_detection_result (warm_up T0 (-50))) = "wifi_rssi"%string.
Proof. repeat split. Qed.

Lemma get_latest_resends_last_broadcast_witness :
  let s := startup cfg0 true in
  let r := run s [UdpESP8266 T0 "RSS:-50"; RunTask true] in
  latest_detection (fst r) = Some 1%positive /\
  objects (fst r) !! 1%positive = Some (warm_up T0 (-50)) /\
  source (warm_up T0 (-50)) = WIFI_RSSI /\
  fused (snd r) = [].
Proof.
  intros s r.
  exact (proj1 (proj2 (proj2 (proj2 (proj2
           (get_latest_resends_last_broadcast (RT := QRuntime) s)))))
           T0 "RSS:-50"%string "RSS:-50"%string (-50)%Z (MLEngine_init cfg0)
           {| rssi_config := detection_rssi cfg0; rssi_window := [] |}
           (warm_up T0 (-50)) true
           eq_refl eq_refl eq_refl eq_refl eq_refl eq_refl eq_refl eq_refl).
Defined.

(** C7: a datagram of 64 fields is not discarded.  The handler parses the
    63 amplitudes after the timestamp, pushes them into the adapter's
    window as one sample, and schedules the broadcast of the event made
    from them. *)
Theorem esp32_datagram_64_fields_forwarded :
  let s := startup cfg0 true in
  let s' := esp32_datagram_received s T0 csi_datagram_64 in
  decode csi_datagram_64 = Some csi_datagram_64 /\
  length (split "," (strip csi_datagram_64)) = 64 /\
  csi_window <$> (ml_engine s ≫= esp32) = Some [] /\
  tasks s = [] /\
  csi_window <$> (ml_engine s' ≫= esp32) = Some [repeat (qf 1) 63] /\
  tasks s' = [Some 1%positive] /\
  (csi_data <$> objects s' !! 1%positive) = Some (Some (repeat (qf 1) 63)) /\
  s' <> s.
Proof.
  repeat split. intros H. apply (f_equal tasks) in H. discriminate H.
Qed.

(** * Further parts of the engine and the server *)

(** ** Centroid tracking ([CameraVisionModule._assign_tracking_id],
    [ml_engine.py] lines 231-254)

    [tracked_objects] is a dict from tracking id to centroid and last-seen
    time; it is kept as the list of its items in insertion order, which is
    the order the loop visits them in.  Box coordinates are pixel integers,
    so [dist] is the square root of an integer; [dist < 100] and
    [dist < min_dist] compare square roots of integers below 10000 (or
    with infinity) and are decided on the squared distances. *)

Section Tracking.
Context {RT : Runtime}.

Record Tracked := {
  centroid : Z * Z;
  last_seen : float
}.

Record Tracker := {
  tracking_id_counter : Z;
  tracked_objects : list (Z * Tracked)
}.

(** [(tracked['centroid'][0] - cx)**2 + (tracked['centroid'][1] - cy)**2] *)
Definition dist2 (tracked : Tracked) (cx cy : Z) : Z :=
  ((fst (centroid tracked) - cx) ^ 2 + (snd (centroid tracked) - cy) ^ 2)%Z.

(** [dist < min_dist], with [None] for [float('inf')]. *)
Definition below (d : Z) (min_dist : option Z) : bool :=
  match min_dist with
  | None => true
  | Some m => (d <? m)%Z
  end.

(** The loop over [self.tracked_objects.items()]; the result is
    [closest_id]. *)
Fixpoint closest (objs : list (Z * Tracked)) (cx cy : Z)
    (min_dist closest_id : option Z) : option Z :=
  match objs with
  | [] => closest_id
  | (tid, tracked) :: rest =>
      let d := dist2 tracked cx cy in
      if below d min_dist && (d <? 10000)%Z
      then closest rest cx cy (Some d) (Some tid)
      else closest rest cx cy min_dist closest_id
  end.

(** [d[k] = v]: an existing key keeps its place, a new key goes last. *)
Fixpoint dict_set (k : Z) (v : Tracked) (d : list (Z * Tracked))
    : list (Z * Tracked) :=
  match d with
  | [] => [(k, v)]
  | (k', v') :: rest =>
      if (k =? k')%Z then (k, v) :: rest else (k', v') :: dict_set k v rest
  end.

(** [d[k]], when present. *)
Fixpoint dict_get (k : Z) (d : list (Z * Tracked)) : option Tracked :=
  match d with
  | [] => None
  | (k', v') :: rest => if (k =? k')%Z then Some v' else dict_get k rest
  end.

Definition centroid_of (bbox : Z * Z * Z * Z) : Z * Z :=
  let '(x1, y1, x2, y2) := bbox in (((x1 + x2) / 2)%Z, ((y1 + y2) / 2)%Z).

Definition assign_tracking_id (self : Tracker) (now : float)
    (bbox : Z * Z * Z * Z) : Tracker * Z :=
  let c := centroid_of bbox in
  let seen := {| centroid := c; last_seen := now |} in
  match closest (tracked_objects self) (fst c) (snd c) None None with
  | Some closest_id =>
      ({| tracking_id_counter := tracking_id_counter self;
          tracked_objects := dict_set closest_id seen (tracked_objects self) |},
       closest_id)
  | None =>
      let new_id := tracking_id_counter self in
      ({| tracking_id_counter := (new_id + 1)%Z;
          tracked_objects := dict_set new_id seen (tracked_objects self) |},
       new_id)
  end.

(** Successive calls, one per pair of a clock reading and a box. *)
Fixpoint assign_all (self : Tracker) (boxes : list (float * (Z * Z * Z * Z)))
    : Tracker * list Z :=
  match boxes with
  | [] => (self, [])
  | (now, bbox) :: rest =>
      let '(self, i) := assign_tracking_id self now bbox in
      let '(self, ids) := assign_all self rest in
      (self, i :: ids)
  end.

(** The tracker as the constructor leaves it. *)
Definition Tracker_init : Tracker :=
  {| tracking_id_counter := 0; tracked_objects := [] |}.

End Tracking.

Section TrackingFacts.
Context {RT : Runtime}.
Implicit Types (objs pre post : list (Z * Tracked)) (t : Tracked).

Lemma dist2_nonneg t cx cy : (0 <= dist2 t cx cy)%Z.
Proof. unfold dist2. nia. Qed.

(** What the loop returns, from any point of the iteration: either what it
    had, no later item being nearer, or the first of the nearest later
    items. *)
Lemma closest_from objs cx cy : forall (m i : option Z),
  match m with Some mv => (mv < 10000)%Z | None => True end ->
  (closest objs cx cy m i = i /\
   Forall (fun e => below (dist2 e.2 cx cy) m && (dist2 e.2 cx cy <? 10000)%Z = false)
          objs) \/
  (exists pre tid t post,
      objs = pre ++ (tid, t) :: post /\
      closest objs cx cy m i = Some tid /\
      below (dist2 t cx cy) m = true /\
      (dist2 t cx cy < 10000)%Z /\
      Forall (fun e => (dist2 t cx cy < dist2 e.2 cx cy)%Z) pre /\
      Forall (fun e => (dist2 t cx cy <= dist2 e.2 cx cy)%Z) post).
Proof.
  induction objs as [|[tid tr] rest IH]; intros m i Hm; simpl.
  - left. split; [reflexivity|constructor].
  - set (d := dist2 tr cx cy).
    destruct (below d m && (d <? 10000)%Z) eqn:Hcond.
    + apply andb_true_iff in Hcond as [Hb Hd]. apply Z.ltb_lt in Hd.
      destruct (IH (Some d) (Some tid) Hd) as [[Hr Hall]|Hex].
      * right. exists [], tid, tr, rest. simpl.
        split; [reflexivity|]. split; [exact Hr|]. split; [exact Hb|].
        split; [exact Hd|]. split; [constructor|].
        eapply Forall_impl; [exact Hall|]. intros e He. simpl in He.
        apply andb_false_iff in He as [He|He].
        -- apply Z.ltb_ge in He. exact He.
        -- apply Z.ltb_ge in He. fold d. lia.
      * destruct Hex as (pre & tid' & t & post & Heq & Hr & Hb' & Hd' & Hpre & Hpost).
        right. exists ((tid, tr) :: pre), tid', t, post.
        split; [rewrite Heq; reflexivity|]. split; [exact Hr|].
        simpl in Hb'. apply Z.ltb_lt in Hb'.
        split.
        { destruct m as [mv|]; simpl in *; [|reflexivity].
          apply Z.ltb_lt in Hb. apply Z.ltb_lt. lia. }
        split; [exact Hd'|]. split; [|exact Hpost].
        constructor; [simpl; fold d; lia|exact Hpre].
    + destruct (IH m i Hm) as [[Hr Hall]|Hex].
      * left. split; [exact Hr|]. constructor; [exact Hcond|exact Hall].
      * destruct Hex as (pre & tid' & t & post & Heq & Hr & Hb' & Hd' & Hpre & Hpost).
        right. exists ((tid, tr) :: pre), tid', t, post.
        split; [rewrite Heq; reflexivity|]. split; [exact Hr|].
        split; [exact Hb'|]. split; [exact Hd'|]. split; [|exact Hpost].
        constructor; [|exact Hpre]. simpl. fold d.
        apply andb_false_iff in Hcond as [Hc|Hc].
        -- destruct m as [mv|]; simpl in *; [|discriminate].
           apply Z.ltb_ge in Hc. apply Z.ltb_lt in Hb'. lia.
        -- apply Z.ltb_ge in Hc. lia.
Qed.

Lemma closest_spec objs cx cy :
  (closest objs cx cy None None = None /\
   Forall (fun e => (10000 <= dist2 e.2 cx cy)%Z) objs) \/
  (exists pre tid t post,
      objs = pre ++ (tid, t) :: post /\
      closest objs cx cy None None = Some tid /\
      (dist2 t cx cy < 10000)%Z /\
      Forall (fun e => (dist2 t cx cy < dist2 e.2 cx cy)%Z) pre /\
      Forall (fun e => (dist2 t cx cy <= dist2 e.2 cx cy)%Z) post).
Proof.
  destruct (closest_from objs cx cy None None I) as [[Hr Hall]|Hex].
  - left. split; [exact Hr|]. eapply Forall_impl; [exact Hall|].
    intros e He. simpl in He. apply Z.ltb_ge in He. exact He.
  - right. destruct Hex as (pre & tid & t & post & H1 & H2 & _ & H3 & H4 & H5).
    exists pre, tid, t, post. auto.
Qed.

(** The first of the nearest items within range is the one returned. *)
Lemma closest_complete pre tid t post cx cy :
  (dist2 t cx cy < 10000)%Z ->
  Forall (fun e => (dist2 t cx cy < dist2 e.2 cx cy)%Z) pre ->
  Forall (fun e => (dist2 t cx cy <= dist2 e.2 cx cy)%Z) post ->
  closest (pre ++ (tid, t) :: post) cx cy None None = Some tid.
Proof.
  intros Hd Hpre Hpost.
  destruct (closest_spec (pre ++ (tid, t) :: post) cx cy)
    as [[_ Hall]|(pre' & tid' & t' & post' & Heq & Hr & Hd' & Hpre' & Hpost')].
  - apply Forall_app in Hall as [_ Hall]. inversion Hall; subst. simpl in *. lia.
  - rewrite Hr. f_equal.
    assert (Hlen : length pre = length pre').
    { destruct (Nat.lt_trichotomy (length pre) (length pre')) as [Hlt|[Heq'|Hgt]];
        [|exact Heq'|]; exfalso.
      - assert (H1 : (pre' ++ (tid', t') :: post') !! length pre = Some (tid, t)).
        { rewrite <- Heq. rewrite lookup_app_r by lia.
          replace (length pre - length pre') with 0 by lia.
          rewrite Nat.sub_diag. reflexivity. }
        rewrite lookup_app_l in H1 by exact Hlt.
        rewrite Forall_lookup in Hpre'. specialize (Hpre' _ _ H1). simpl in Hpre'.
        assert (H2 : (pre ++ (tid, t) :: post) !! length pre' = Some (tid', t')).
        { rewrite Heq. rewrite lookup_app_r by lia.
          rewrite Nat.sub_diag. reflexivity. }
        rewrite lookup_app_r in H2 by lia.
        destruct (length pre' - length pre) as [|k] eqn:Hk; [lia|].
        simpl in H2. rewrite Forall_lookup in Hpost. specialize (Hpost _ _ H2).
        simpl in Hpost. lia.
      - assert (H1 : (pre ++ (tid, t) :: post) !! length pre' = Some (tid', t')).
        { rewrite Heq. rewrite lookup_app_r by lia.
          rewrite Nat.sub_diag. reflexivity. }
        rewrite lookup_app_l in H1 by exact Hgt.
        rewrite Forall_lookup in Hpre. specialize (Hpre _ _ H1). simpl in Hpre.
        assert (H2 : (pre' ++ (tid', t') :: post') !! length pre = Some (tid, t)).
        { rewrite <- Heq. rewrite lookup_app_r by lia.
          rewrite Nat.sub_diag. reflexivity. }
        rewrite lookup_app_r in H2 by lia.
        destruct (length pre - length pre') as [|k] eqn:Hk; [lia|].
        simpl in H2. rewrite Forall_lookup in Hpost'. specialize (Hpost' _ _ H2).
        simpl in Hpost'. lia. }
    assert (H1 : (pre' ++ (tid', t') :: post') !! length pre = Some (tid, t)).
    { rewrite <- Heq. rewrite lookup_app_r by lia.
      rewrite Nat.sub_diag. reflexivity. }
    rewrite Hlen in H1. rewrite lookup_app_r in H1 by lia.
    rewrite Nat.sub_diag in H1. simpl in H1. congruence.
Qed.

Lemma dict_get_set_eq k v objs : dict_get k (dict_set k v objs) = Some v.
Proof.
  induction objs as [|[k' v'] rest IH]; simpl.
  - rewrite Z.eqb_refl. reflexivity.
  - destruct (Z.eqb_spec k k') as [->|Hne]; simpl.
    + rewrite Z.eqb_refl. reflexivity.
    + destruct (Z.eqb_spec k k'); [congruence|exact IH].
Qed.

Lemma dict_get_set_ne k k' v objs :
  k' <> k -> dict_get k' (dict_set k v objs) = dict_get k' objs.
Proof.
  intros Hne. induction objs as [|[k0 v0] rest IH]; simpl.
  - destruct (Z.eqb_spec k' k); [congruence|reflexivity].
  - destruct (Z.eqb_spec k k0) as [->|Hk]; simpl.
    + destruct (Z.eqb_spec k' k0); [congruence|reflexivity].
    + rewrite IH. reflexivity.
Qed.

Lemma dict_set_keys_present k v objs :
  In k (map fst objs) -> map fst (dict_set k v objs) = map fst objs.
Proof.
  induction objs as [|[k' v'] rest IH]; simpl; [tauto|].
  intros Hin. destruct (Z.eqb_spec k k') as [->|Hne]; simpl; [reflexivity|].
  f_equal. apply IH. destruct Hin as [Heq|Hin]; [congruence|exact Hin].
Qed.

Lemma dict_set_keys_absent k v objs :
  ~ In k (map fst objs) -> map fst (dict_set k v objs) = map fst objs ++ [k].
Proof.
  induction objs as [|[k' v'] rest IH]; simpl; [reflexivity|].
  intros Hin. destruct (Z.eqb_spec k k') as [->|Hne]; simpl; [tauto|].
  f_equal. apply IH. tauto.
Qed.

(** Where the written item ends up: behind items that were there before it. *)
Lemma dict_set_split (P : Z * Tracked -> Prop) k v pre rest :
  Forall P pre ->
  (rest = [] \/ exists t post, rest = (k, t) :: post) ->
  exists pre' post',
    dict_set k v (pre ++ rest) = pre' ++ (k, v) :: post' /\ Forall P pre'.
Proof.
  induction pre as [|[k' v'] pre IH]; intros Hpre Hrest; simpl.
  - destruct Hrest as [->|(t & post & ->)]; simpl.
    + exists [], []. split; [reflexivity|constructor].
    + rewrite Z.eqb_refl. exists [], post. split; [reflexivity|constructor].
  - inversion Hpre as [|e pre0 He Hpre']; subst.
    destruct (Z.eqb_spec k k') as [->|Hne].
    + exists [], (pre ++ rest). split; [reflexivity|constructor].
    + destruct (IH Hpre' Hrest) as (pre' & post' & Heq & HP).
      exists ((k', v') :: pre'), post'. rewrite Heq.
      split; [reflexivity|]. constructor; assumption.
Qed.

(** X1.  A box whose centroid is 100 units or more from every tracked
    centroid gets the counter's value as a new id and the counter grows by
    one; otherwise it gets the id of the nearest tracked centroid, the
    first such in insertion order, and the counter and the set of ids are
    unchanged.  In both cases the id's entry afterwards holds the new
    centroid and the call's clock reading, and no other entry is
    touched. *)
Theorem assign_tracking_id_nearest (self : Tracker) (now : float)
    (bbox : Z * Z * Z * Z) :
  let c := centroid_of bbox in
  let objs := tracked_objects self in
  let self' := fst (assign_tracking_id self now bbox) in
  let id := snd (assign_tracking_id self now bbox) in
  (Forall (fun e => (10000 <= dist2 e.2 (fst c) (snd c))%Z) objs ->
     id = tracking_id_counter self /\
     tracking_id_counter self' = (tracking_id_counter self + 1)%Z) /\
  (Exists (fun e => (dist2 e.2 (fst c) (snd c) < 10000)%Z) objs ->
     exists pre t post,
       objs = pre ++ (id, t) :: post /\
       (dist2 t (fst c) (snd c) < 10000)%Z /\
       Forall (fun e => (dist2 t (fst c) (snd c) < dist2 e.2 (fst c) (snd c))%Z) pre /\
       Forall (fun e => (dist2 t (fst c) (snd c) <= dist2 e.2 (fst c) (snd c))%Z) post /\
       tracking_id_counter self' = tracking_id_counter self /\
       map fst (tracked_objects self') = map fst objs) /\
  dict_get id (tracked_objects self') = Some {| centroid := c; last_seen := now |} /\
  (forall k, k <> id -> dict_get k (tracked_objects self') = dict_get k objs).
Proof.
  intros c objs self' id. subst self' id. unfold assign_tracking_id. fold c. fold objs.
  destruct (closest_spec objs (fst c) (snd c))
    as [[Hr Hfar]|(pre & tid & t & post & Heq & Hr & Hd & Hpre & Hpost)];
    rewrite Hr; simpl.
  - split; [auto|]. split.
    + intros Hex. apply Exists_exists in Hex as (e & He & Hlt).
      rewrite Forall_forall in Hfar. specialize (Hfar e He). simpl in *. lia.
    + split; [apply dict_get_set_eq|]. intros k Hk. apply dict_get_set_ne. exact Hk.
  - split.
    + intros Hfar. rewrite Heq in Hfar. apply Forall_app in Hfar as [_ Hfar].
      inversion Hfar; subst. simpl in *. lia.
    + split.
      * intros _. exists pre, t, post. repeat split; try assumption.
        apply dict_set_keys_present. rewrite Heq, map_app. apply in_or_app.
        right. left. reflexivity.
      * split; [apply dict_get_set_eq|]. intros k Hk. apply dict_get_set_ne. exact Hk.
Qed.

Lemma assign_tracking_id_ids (self : Tracker) (now : float) (bbox : Z * Z * Z * Z) :
  (0 <= tracking_id_counter self)%Z ->
  map fst (tracked_objects self) = seqZ 0 (tracking_id_counter self) ->
  let self' := fst (assign_tracking_id self now bbox) in
  let id := snd (assign_tracking_id self now bbox) in
  (tracking_id_counter self <= tracking_id_counter self'
     <= tracking_id_counter self + 1)%Z /\
  map fst (tracked_objects self') = seqZ 0 (tracking_id_counter self') /\
  (0 <= id < tracking_id_counter self')%Z.
Proof.
  intros Hc Hkeys self' id. subst self' id. unfold assign_tracking_id.
  destruct (closest_spec (tracked_objects self) (fst (centroid_of bbox))
              (snd (centroid_of bbox)))
    as [[Hr _]|(pre & tid & t & post & Heq & Hr & _)]; rewrite Hr; simpl.
  - split; [lia|]. split; [|lia].
    rewrite dict_set_keys_absent.
    + rewrite Hkeys. rewrite seqZ_app by lia. simpl.
      replace (0 + tracking_id_counter self)%Z with (tracking_id_counter self) by lia.
      reflexivity.
    + rewrite Hkeys. intros Hin. apply list_elem_of_In, elem_of_seqZ in Hin. lia.
  - assert (Hin : In tid (map fst (tracked_objects self))).
    { rewrite Heq, map_app. apply in_or_app. right. left. reflexivity. }
    split; [lia|]. split.
    + rewrite dict_set_keys_present by exact Hin. exact Hkeys.
    + rewrite Hkeys in Hin. apply list_elem_of_In, elem_of_seqZ in Hin. lia.
Qed.

(** X2.  From a new tracker, after any sequence of boxes: the ids in use are
    exactly 0, 1, ..., counter - 1, in the order they were created; no
    entry is ever removed and no id reused for a new object; every id
    returned is one of them; and there are at most as many ids as
    boxes. *)
Theorem assign_all_ids (boxes : list (float * (Z * Z * Z * Z))) :
  let self' := fst (assign_all Tracker_init boxes) in
  let ids := snd (assign_all Tracker_init boxes) in
  map fst (tracked_objects self') = seqZ 0 (tracking_id_counter self') /\
  (0 <= tracking_id_counter self' <= Z.of_nat (length boxes))%Z /\
  length (tracked_objects self') = Z.to_nat (tracking_id_counter self') /\
  length ids = length boxes /\
  Forall (fun i => (0 <= i < tracking_id_counter self')%Z) ids.
Proof.
  assert (Hgen : forall boxes self,
    (0 <= tracking_id_counter self)%Z ->
    map fst (tracked_objects self) = seqZ 0 (tracking_id_counter self) ->
    let self' := fst (assign_all self boxes) in
    let ids := snd (assign_all self boxes) in
    map fst (tracked_objects self') = seqZ 0 (tracking_id_counter self') /\
    (tracking_id_counter self <= tracking_id_counter self'
       <= tracking_id_counter self + Z.of_nat (length boxes))%Z /\
    length ids = length boxes /\
    Forall (fun i => (0 <= i < tracking_id_counter self')%Z) ids).
  { clear boxes. induction boxes as [|[now bbox] rest IH]; intros self Hc Hk; simpl.
    - split; [exact Hk|]. split; [lia|]. split; [reflexivity|constructor].
    - destruct (assign_tracking_id_ids self now bbox Hc Hk) as (H1 & H2 & H3).
      destruct (assign_tracking_id self now bbox) as [s1 i]. simpl in H1, H2, H3.
      destruct (IH s1 ltac:(lia) H2) as (H4 & H5 & H6 & H7).
      destruct (assign_all s1 rest) as [s2 ids]. simpl in *.
      split; [exact H4|]. split; [lia|]. split; [lia|].
      constructor; [lia|exact H7]. }
  intros self' ids.
  destruct (Hgen boxes Tracker_init ltac:(simpl; lia) eq_refl) as (H1 & H2 & H3 & H4).
  fold self' in H1, H2, H4. fold ids in H3, H4. simpl in H2.
  split; [exact H1|]. split; [lia|]. split; [|split; assumption].
  rewrite <- (length_map fst), H1, length_seqZ. reflexivity.
Qed.

(** X3.  A box with the same centroid as the box before it gets the same
    id, and that second call creates nothing. *)
Theorem assign_tracking_id_stable (self : Tracker) (t1 t2 : float)
    (b1 b2 : Z * Z * Z * Z) :
  centroid_of b2 = centroid_of b1 ->
  let s1 := fst (assign_tracking_id self t1 b1) in
  let s2 := fst (assign_tracking_id s1 t2 b2) in
  snd (assign_tracking_id s1 t2 b2) = snd (assign_tracking_id self t1 b1) /\
  tracking_id_counter s2 = tracking_id_counter s1 /\
  map fst (tracked_objects s2) = map fst (tracked_objects s1).
Proof.
  intros Hcent s1 s2.
  set (c := centroid_of b1) in *.
  set (P := fun e : Z * Tracked => (0 < dist2 e.2 (fst c) (snd c))%Z).
  assert (Hsplit : exists pre' post',
            tracked_objects s1 =
              pre' ++ (snd (assign_tracking_id self t1 b1),
                       {| centroid := c; last_seen := t1 |}) :: post' /\
            Forall P pre').
  { subst s1. unfold assign_tracking_id. fold c.
    destruct (closest_spec (tracked_objects self) (fst c) (snd c))
      as [[Hr Hfar]|(pre & tid & t & post & Heq & Hr & Hd & Hpre & Hpost)];
      rewrite Hr; simpl.
    - assert (HP : Forall P (tracked_objects self)).
      { eapply Forall_impl; [exact Hfar|]. intros e He. unfold P.
        cbv beta in *. lia. }
      pose proof (dict_set_split P (tracking_id_counter self)
                    {| centroid := c; last_seen := t1 |}
                    (tracked_objects self) [] HP (or_introl eq_refl)) as Hs.
      rewrite app_nil_r in Hs. exact Hs.
    - rewrite Heq. apply dict_set_split; [|right; eauto].
      eapply Forall_impl; [exact Hpre|]. intros e He. unfold P.
      pose proof (dist2_nonneg t (fst c) (snd c)). cbv beta in *. lia. }
  destruct Hsplit as (pre' & post' & Heq1 & Hpre').
  assert (Hzero : dist2 {| centroid := c; last_seen := t1 |} (fst c) (snd c) = 0%Z).
  { unfold dist2. simpl. rewrite !Z.sub_diag. reflexivity. }
  assert (Hr2 : closest (tracked_objects s1) (fst c) (snd c) None None =
                Some (snd (assign_tracking_id self t1 b1))).
  { rewrite Heq1. apply closest_complete.
    - rewrite Hzero. lia.
    - rewrite Hzero. exact Hpre'.
    - rewrite Hzero. apply Forall_forall. intros e _. apply dist2_nonneg. }
  set (id := snd (assign_tracking_id self t1 b1)) in *.
  subst s2. unfold assign_tracking_id. rewrite Hcent. fold c.
  rewrite Hr2. simpl.
  split; [reflexivity|]. split; [reflexivity|].
  apply dict_set_keys_present. rewrite Heq1, map_app. apply in_or_app.
  right. left. reflexivity.
Qed.

End TrackingFacts.

(** ** The adapters over a stream of samples *)

Section AdapterStreams.
Context {RT : Runtime}.

Lemma process_rssi_all_lookup (samples : list (float * Z)) :
  forall (self : ESP8266RSSIModule) (k : nat) now x,
  samples !! k = Some (now, x) ->
  snd (process_rssi_all self samples) !! k =
  Some (snd (process_rssi (fst (process_rssi_all self (take k samples))) now x)).
Proof.
  induction samples as [|[t y] rest IH]; intros self k now x Hk.
  - discriminate.
  - destruct k as [|k]; simpl in Hk |- *.
    + injection Hk as -> ->.
      destruct (process_rssi self now x) as [s1 r1].
      destruct (process_rssi_all s1 rest) as [s2 rs]. reflexivity.
    + destruct (process_rssi self t y) as [s1 r1].
      specialize (IH s1 k now x Hk).
      destruct (process_rssi_all s1 rest) as [s2 rs].
      destruct (process_rssi_all s1 (take k rest)) as [s3 rs3].
      simpl in *. exact IH.
Qed.

(** X4.  The calls of a new coarse-signal adapter, in closed form: the
    outcome of call number k (from 0) is made from the last
    [min (k + 1) window_size] samples up to it and from nothing else.
    While that is fewer than five samples, so for the first four calls,
    and for every call when [window_size] is below five, the call returns
    the warm-up event, or raises when the sample has no float: such an
    adapter never reports motion.  From five samples on it returns the
    event made from the variance of those samples, with the confidence
    capped at 1.0, or raises when [np.var] of them or [float] of the
    sample does. *)
Theorem process_rssi_stream (cfg : RssiConfig) (samples : list (float * Z))
    (k : nat) (now : float) (x : Z) :
  (0 <= rssi_window_size cfg)%Z ->
  samples !! k = Some (now, x) ->
  let capacity := Z.to_nat (rssi_window_size cfg) in
  let window := drop (S k - capacity) (take (S k) (map snd samples)) in
  let threshold := variance_threshold cfg in
  let outcomes :=
    snd (process_rssi_all {| rssi_config := cfg; rssi_window := [] |} samples) in
  length window = Nat.min (S k) capacity /\
  exists r,
    outcomes !! k = Some r /\
    ((length window < 5)%nat ->
       (forall raw, float_of_int x = Some raw ->
          r = Some (set_rssi (Some raw) None
                      (new_result now WIFI_RSSI false (of_Q 0)))) /\
       (float_of_int x = None -> r = None)) /\
    ((5 <= length window)%nat ->
       (forall variance raw,
          np_var_int window = Some variance -> float_of_int x = Some raw ->
          exists e, r = Some e /\
            motion_detected e = f_gt variance threshold /\
            confidence e =
              (if f_gt (f_div variance (of_Q 20)) (of_Q 1) then of_Q 1
               else f_div variance (of_Q 20)) /\
            f_gt (confidence e) (of_Q 1) = false /\
            activity e =
              (if f_gt variance threshold then "WALKING" else "STILL")%string /\
            rssi e = Some raw /\ rssi_variance e = Some variance /\
            timestamp e = now /\ source e = WIFI_RSSI) /\
       (np_var_int window = None \/ float_of_int x = None -> r = None)) /\
    ((k < 4)%nat \/ (rssi_window_size cfg < 5)%Z ->
       forall e, r = Some e ->
         motion_detected e = false /\ confidence e = of_Q 0 /\
         rssi_variance e = None /\ activity e = "UNKNOWN"%string).
Proof.
  intros Hcap Hk capacity window threshold outcomes.
  assert (Hval : map snd samples !! k = Some x).
  { rewrite list_lookup_fmap, Hk. reflexivity. }
  assert (Hlen : length window = Nat.min (S k) capacity).
  { subst window. rewrite length_drop, length_take.
    apply lookup_lt_Some in Hval. lia. }
  set (fresh_module := {| rssi_config := cfg; rssi_window := [] |}).
  set (mk := fst (process_rssi_all fresh_module (take k samples))).
  assert (Hcfg : rssi_config mk = cfg).
  { subst mk. rewrite process_rssi_all_config. reflexivity. }
  assert (Hwin : window_push (rssi_window_size (rssi_config mk)) (rssi_window mk) x
                 = window).
  { subst mk. rewrite process_rssi_all_config, process_rssi_all_window.
    simpl rssi_config. simpl rssi_window.
    rewrite <- window_push_all_snoc.
    rewrite window_push_all_drop by (simpl; lia).
    simpl app.
    assert (Htake : take (S k) (map snd samples) = map snd (take k samples) ++ [x]).
    { rewrite (take_S_r (map snd samples) k x Hval).
      f_equal. symmetry. apply fmap_take. }
    subst window. rewrite Htake. rewrite length_app, length_map, length_take.
    simpl. apply lookup_lt_Some in Hk.
    replace (k `min` length samples + 1) with (S k) by lia. reflexivity. }
  assert (Hout : outcomes !! k = Some (snd (process_rssi mk now x))).
  { subst outcomes.
    pose proof (process_rssi_all_lookup samples fresh_module k now x Hk) as Hl.
    fold mk in Hl. exact Hl. }
  split; [exact Hlen|]. exists (snd (process_rssi mk now x)).
  split; [exact Hout|]. split; [|split].
  - intros Hlt. rewrite process_rssi_warmup by (rewrite Hwin; exact Hlt). split.
    + intros raw ->. reflexivity.
    + intros ->. reflexivity.
  - intros Hge. pose proof (process_rssi_ready mk now x) as Hr. cbv zeta in Hr.
    rewrite Hwin, Hcfg in Hr. rewrite Hr by exact Hge. fold threshold. split.
    + intros variance raw -> ->. simpl.
      eexists. split; [reflexivity|]. simpl.
      split; [reflexivity|]. split; [apply py_min_eq|].
      split; [apply py_min_bound|]. repeat split.
    + intros [-> | Hraw]; [reflexivity|].
      destruct (np_var_int window); simpl; [|reflexivity].
      rewrite Hraw. reflexivity.
  - intros Hsmall e He.
    assert (Hlt : (length window < 5)%nat) by (subst capacity; lia).
    rewrite process_rssi_warmup in He by (rewrite Hwin; exact Hlt).
    destruct (float_of_int x); simpl in He; [|discriminate].
    injection He as <-. repeat split.
Qed.

(** X5.  On a runtime where [0.0 > 1.0] is false, no event of the
    coarse-signal or of the fine-signal adapter has a confidence above
    1.0. *)
Theorem adapter_confidence_at_most_one :
  f_gt (of_Q 0) (of_Q 1) = false ->
  (forall (m : ESP8266RSSIModule) now (x : Z) e,
      snd (process_rssi m now x) = Some e ->
      f_gt (confidence e) (of_Q 1) = false) /\
  (forall (m : ESP32CSIModule) now (v : list float),
      f_gt (confidence (snd (process_csi m now v))) (of_Q 1) = false).
Proof.
  intros H01. split.
  - intros m now x e He.
    destruct (process_rssi_Some m now x e He)
      as (raw & _ & _ & _ & _ & _ & _ & [(_ & _ & -> & _)|(_ & v & _ & _ & _ & -> & _)]).
    + exact H01.
    + apply py_min_bound.
  - intros m now v. unfold process_csi. simpl. apply py_min_bound.
Qed.

(** X6.  On a runtime where [0 > 10.0] is false, the raw-packet adapter
    reports motion only when its window holds at least six samples after
    the push; with [packet_window] below six it never does, and always
    returns its event.  A packet without an rssi entry is pushed as
    -100. *)
Theorem process_packet_needs_six (self : WiFiMonitorModule) (now : float)
    (data_rssi : option Z) :
  f_gt (of_Q 0) (of_Q 10) = false ->
  let self' := fst (process_packet self now data_rssi) in
  let r := snd (process_packet self now data_rssi) in
  packets self' =
    window_push (packet_window self) (packets self) (default (-100)%Z data_rssi) /\
  (forall e, r = Some e -> motion_detected e = true ->
     (6 <= length (packets self'))%nat) /\
  ((0 <= packet_window self < 6)%Z ->
   (Z.of_nat (length (packets self)) <= packet_window self)%Z ->
   r = Some (new_result now WIFI_MONITOR false (of_Q (1 # 2))) /\
   (Z.of_nat (length (packets self')) <= packet_window self')%Z).
Proof.
  intros H010 self' r. subst self' r. unfold process_packet. simpl.
  set (w := window_push (packet_window self) (packets self)
              (default (-100)%Z data_rssi)).
  split; [reflexivity|]. split.
  - intros e He Hm. destruct (Nat.ltb_spec 5 (length w)) as [Hlt|Hge]; [lia|].
    simpl in He. injection He as <-. simpl in Hm. congruence.
  - intros Hcap Hlen.
    assert (Hw : (Z.of_nat (length w) <= packet_window self)%Z).
    { subst w. apply window_push_length; lia. }
    split; [|exact Hw].
    destruct (Nat.ltb_spec 5 (length w)) as [Hlt|Hge]; [lia|].
    simpl. rewrite H010. reflexivity.
Qed.

End AdapterStreams.

(** ** What fusion leaves alone *)

Section FusionFrame.
Context {RT : Runtime}.
Implicit Types (self : SensorFusionEngine) (h : store) (now : float)
  (d : DetectionResult) (l : positive).

(** An event without the three fields [fuse] assigns. *)
Definition evidence (d : DetectionResult) : DetectionResult :=
  set_source CAMERA (set_out_of_frame false (set_handoff_active false d)).

(** How the store may differ after fusion cycles: an object that was there
    differs at most in the three fields, and not at all if it reports no
    motion; an object that was not there is a LOST event as constructed. *)
Definition fused_from (h h' : store) : Prop :=
  (forall l d, h !! l = Some d ->
     exists d', h' !! l = Some d' /\ evidence d' = evidence d /\
                (motion_detected d = false -> d' = d)) /\
  (forall l d', h !! l = None -> h' !! l = Some d' ->
     exists t, d' = new_result t LOST false (of_Q 0)).

Lemma fused_from_refl h : fused_from h h.
Proof.
  split.
  - intros l d Hl. exists d. auto.
  - intros l d' H1 H2. congruence.
Qed.

Lemma fused_from_trans h1 h2 h3 :
  fused_from h1 h2 -> fused_from h2 h3 -> fused_from h1 h3.
Proof.
  intros [A1 B1] [A2 B2]. split.
  - intros l d Hl. destruct (A1 l d Hl) as (d2 & Hl2 & He2 & Hm2).
    destruct (A2 l d2 Hl2) as (d3 & Hl3 & He3 & Hm3).
    exists d3. split; [exact Hl3|]. split; [congruence|].
    intros Hm. specialize (Hm2 Hm). subst d2. auto.
  - intros l d3 Hl1 Hl3. destruct (h2 !! l) as [d2|] eqn:Hl2.
    + destruct (B1 l d2 Hl1 Hl2) as [t ->].
      destruct (A2 l _ Hl2) as (d3' & Hl3' & _ & Hm3).
      rewrite Hl3 in Hl3'. injection Hl3' as <-.
      exists t. apply Hm3. reflexivity.
    + eapply B2; eassumption.
Qed.

Lemma fused_from_insert h l d d' :
  h !! l = Some d -> evidence d' = evidence d -> motion_detected d = true ->
  fused_from h (<[l := d']> h).
Proof.
  intros Hl He Hm. split.
  - intros l0 d0 Hl0. destruct (decide (l0 = l)) as [->|Hne].
    + rewrite lookup_insert_eq. rewrite Hl in Hl0. injection Hl0 as <-.
      exists d'. split; [reflexivity|]. split; [exact He|]. congruence.
    + rewrite lookup_insert_ne by congruence. exists d0. auto.
  - intros l0 d0 Hn Hs. destruct (decide (l0 = l)) as [->|Hne]; [congruence|].
    rewrite lookup_insert_ne in Hs by congruence. congruence.
Qed.

Lemma fuse_default_fused_from self now cam wifi h r self' h' :
  fuse_default self now cam wifi h = (r, self', h') -> fused_from h h'.
Proof.
  unfold fuse_default, alloc. intros Hf.
  destruct cam as [c|]; [|destruct wifi as [w|]]; inversion Hf; subst;
    try apply fused_from_refl.
  split.
  - intros l d Hl. rewrite lookup_insert_ne.
    + exists d. auto.
    + intros Heq. rewrite <- Heq, fresh_not_allocated in Hl. discriminate.
  - intros l d' Hn Hs. destruct (decide (l = fresh (dom h))) as [->|Hne].
    + rewrite lookup_insert_eq in Hs. injection Hs as <-. eauto.
    + rewrite lookup_insert_ne in Hs by congruence. congruence.
Qed.

Lemma fuse_fused_from self now cam wifi h r self' h' :
  fuse self now cam wifi h = Some (r, self', h') ->
  fused_from h h' /\ fusion_config self' = fusion_config self.
Proof.
  unfold fuse. intros Hf.
  assert (Hdef : forall s0, fusion_config s0 = fusion_config self ->
                 Some (fuse_default s0 now cam wifi h) = Some (r, self', h') ->
                 fused_from h h' /\ fusion_config self' = fusion_config self).
  { intros s0 Hc H0. injection H0 as H0.
    split; [eapply fuse_default_fused_from; exact H0|].
    unfold fuse_default, alloc in H0.
    destruct cam; [|destruct wifi]; inversion H0; subst; exact Hc. }
  destruct cam as [c|]; [|refine (Hdef _ _ Hf); reflexivity].
  destruct (h !! c) as [V|] eqn:Hc; simpl in Hf; [|discriminate].
  destruct (motion_detected V) eqn:Hm.
  { injection Hf as <- <- <-. split; [|reflexivity].
    apply (fused_from_insert h c V); [exact Hc|reflexivity|exact Hm]. }
  destruct (f_gt _ _); [|refine (Hdef _ _ Hf); reflexivity].
  destruct wifi as [w|]; [|refine (Hdef _ _ Hf); reflexivity].
  destruct (h !! w) as [W|] eqn:Hw; simpl in Hf; [|discriminate].
  destruct (motion_detected W) eqn:HmW; [|refine (Hdef _ _ Hf); reflexivity].
  injection Hf as <- <- <-. split; [|reflexivity].
  apply (fused_from_insert h w W); [exact Hw|reflexivity|exact HmW].
Qed.

Lemma fuse_result_live self now cam wifi h r self' h' :
  allocated h (now, cam, wifi) ->
  fuse self now cam wifi h = Some (r, self', h') ->
  is_Some (h' !! r).
Proof.
  intros [Hcam Hwifi] Hf. simpl in Hcam, Hwifi. unfold fuse in Hf.
  assert (Hdef : forall s0,
                 Some (fuse_default s0 now cam wifi h) = Some (r, self', h') ->
                 is_Some (h' !! r)).
  { intros s0 H0. injection H0 as H0. unfold fuse_default, alloc in H0.
    destruct cam as [c|]; [|destruct wifi as [w|]]; inversion H0; subst.
    - apply Hcam. reflexivity.
    - apply Hwifi. reflexivity.
    - rewrite lookup_insert_eq. eauto. }
  destruct cam as [c|]; [|apply (Hdef self Hf)].
  destruct (h !! c) as [V|] eqn:Hc; simpl in Hf; [|discriminate].
  destruct (motion_detected V).
  { injection Hf as <- <- <-. rewrite lookup_insert_eq. eauto. }
  destruct (f_gt _ _); [|refine (Hdef _ Hf)].
  destruct wifi as [w|]; [|refine (Hdef _ Hf)].
  destruct (h !! w) as [W|] eqn:Hw; simpl in Hf; [|discriminate].
  destruct (motion_detected W); [|refine (Hdef _ Hf)].
  injection Hf as <- <- <-. rewrite lookup_insert_eq. eauto.
Qed.

(** X7.  A run of fusion cycles over live references completes, and
    afterwards: every object that was in the store is still there and
    differs at most in [source], [out_of_frame] and [handoff_active] (its
    timestamp, motion flag, confidence, detections and signal data are as
    they were); an object that reports no motion is not written at all;
    every object created by the run is a LOST event with no motion and
    confidence 0.0; every reference returned points to an object; and the
    engine's configuration is unchanged. *)
Theorem run_fusion_frame (cycles : list cycle) : forall self h,
  Forall (allocated h) cycles ->
  exists rs self' h',
    run_fusion self h cycles = Some (rs, self', h') /\
    fused_from h h' /\
    Forall (fun r => is_Some (h' !! r)) rs /\
    length rs = length cycles /\
    fusion_config self' = fusion_config self.
Proof.
  induction cycles as [|[[now cam] wifi] cycles IH]; intros self h Hall.
  - exists [], self, h. simpl. split; [reflexivity|].
    split; [apply fused_from_refl|]. split; [constructor|]. split; reflexivity.
  - inversion Hall as [|cyc rest Hcyc Hrest]; subst.
    destruct (fuse_total self now cam wifi h Hcyc) as [[[r1 s1] h1] Hf].
    destruct (fuse_fused_from _ _ _ _ _ _ _ _ Hf) as [Hff Hc1].
    pose proof (fuse_result_live _ _ _ _ _ _ _ _ Hcyc Hf) as Hlive.
    destruct (IH s1 h1) as (rs & s2 & h2 & Hr & Hff2 & Hrs & Hlen & Hc2).
    { eapply Forall_impl; [exact Hrest|]. intros cyc Hc.
      eapply fuse_allocated; eassumption. }
    exists (r1 :: rs), s2, h2. simpl. rewrite Hf. simpl. rewrite Hr. simpl.
    split; [reflexivity|]. split; [eapply fused_from_trans; eassumption|].
    split.
    + constructor; [|exact Hrs].
      destruct Hlive as [d1 Hd1]. destruct Hff2 as [A2 _].
      destruct (A2 r1 d1 Hd1) as (d2 & Hd2 & _). eauto.
    + split; [lia|congruence].
Qed.

(** Cycles without a vision event: the engine is not touched and no object
    is written. *)
Lemma run_fusion_blind (gap : list (float * option positive)) : forall self h,
  exists rs h',
    run_fusion self h (map (fun g => (g.1, None, g.2)) gap) = Some (rs, self, h') /\
    forall l d, h !! l = Some d -> h' !! l = Some d.
Proof.
  induction gap as [|[t w] gap IH]; intros self h.
  - exists [], h. split; [reflexivity|auto].
  - cbn [map run_fusion fst snd].
    change (fuse self t None w h) with (Some (fuse_default self t None w h)).
    destruct (fuse_default self t None w h) as [[r1 s1] h1] eqn:Hd.
    cbn [mbind option_bind].
    assert (Hs : s1 = self).
    { unfold fuse_default, alloc in Hd. destruct w; inversion Hd; reflexivity. }
    subst s1. destruct (IH self h1) as (rs & h2 & Hr & Hk).
    exists (r1 :: rs), h2. rewrite Hr. simpl. split; [reflexivity|].
    intros l d Hl. apply Hk. eapply fuse_default_kept; eassumption.
Qed.

(** X8.  The handoff countdown starts afresh after every reacquisition.
    After a cycle whose vision event reports motion, and any number of
    cycles without a vision event, the next cycle whose vision event
    reports no motion, at clock reading [t], stores [t] as
    [handoff_start]: the elapsed time it compares is [(t - t) * 1000], and
    when that does not exceed the delay it returns the vision reference,
    whatever the WiFi event says and however long the subject was absent
    before the reacquisition. *)
Theorem handoff_timer_restarts self h t1 c1 (wifi1 : option positive) V1
    (gap : list (float * option positive)) t c (wifi : option positive) V :
  h !! c1 = Some V1 -> motion_detected V1 = true ->
  h !! c = Some V -> motion_detected V = false ->
  f_gt (elapsed_ms t t) (handoff_delay_ms (fusion_config self)) = false ->
  exists rs self' h',
    run_fusion self h
      ((t1, Some c1, wifi1) :: map (fun g => (g.1, None, g.2)) gap ++
       [(t, Some c, wifi)]) = Some (rs, self', h') /\
    handoff_start self' = Some t /\
    last rs = Some c /\
    h' !! c = Some V.
Proof.
  intros Hc1 Hm1 Hc Hm Hd.
  assert (Hne : c <> c1) by (intros ->; congruence).
  cbn [run_fusion]. rewrite (fuse_vision self t1 c1 wifi1 h V1 Hc1 Hm1).
  cbn [mbind option_bind].
  set (s1 := set_handoff_start None self).
  set (h1 := <[c1 := set_source FUSION V1]> h).
  assert (Hc' : h1 !! c = Some V) by (subst h1; rewrite lookup_insert_ne; auto).
  destruct (run_fusion_blind gap s1 h1) as (rs & h2 & Hr & Hk).
  assert (Hrun : forall (cycles rest : list (float * option positive * option positive))
                        s0 h0 rs0 s0' h0',
            run_fusion s0 h0 cycles = Some (rs0, s0', h0') ->
            run_fusion s0 h0 (cycles ++ rest) =
            '(rs1, s1', h1') ← run_fusion s0' h0' rest;
            Some (rs0 ++ rs1, s1', h1')).
  { clear. induction cycles as [|[[now cam] wifi] cycles IH];
      intros rest s0 h0 rs0 s0' h0' Hr; simpl in *.
    - injection Hr as <- <- <-.
      destruct (run_fusion s0 h0 rest) as [[[a b] c]|]; reflexivity.
    - destruct (fuse s0 now cam wifi h0) as [[[r1 s1] h1]|]; simpl in *;
        [|discriminate].
      destruct (run_fusion s1 h1 cycles) as [[[rs2 s2] h2]|] eqn:Hr2; simpl in *;
        [|discriminate].
      injection Hr as <- <- <-. rewrite (IH rest s1 h1 rs2 s2 h2 Hr2).
      destruct (run_fusion s2 h2 rest) as [[[a b] c]|]; reflexivity. }
  rewrite (Hrun _ [(t, Some c, wifi)] _ _ _ _ _ Hr).
  cbn [run_fusion].
  assert (Hstart : start_at s1 t = t) by reflexivity.
  rewrite (fuse_wait s1 t c wifi h2 V (Hk c V Hc') Hm)
    by (rewrite Hstart; exact Hd).
  cbn [mbind option_bind]. rewrite Hstart.
  eexists _, _, _. split; [reflexivity|].
  split; [reflexivity|]. split; [|apply Hk; exact Hc'].
  rewrite app_comm_cons. apply last_snoc.
Qed.

End FusionFrame.

(** ** Invariants of the server loop *)

Section ServerShape.
Context {RT : Runtime}.
Implicit Types (s : Server) (b : Broadcast).

(** Two states that differ in the registry only. *)
Definition same_but_clients (s s' : Server) : Prop :=
  CONFIG s' = CONFIG s /\ ml_engine s' = ml_engine s /\
  latest_detection s' = latest_detection s /\ objects s' = objects s /\
  tasks s' = tasks s /\ broadcasts s' = broadcasts s.

(** Two states that differ in the registry and in the suspended
    broadcasts only. *)
Definition same_but_hub (s s' : Server) : Prop :=
  CONFIG s' = CONFIG s /\ ml_engine s' = ml_engine s /\
  latest_detection s' = latest_detection s /\ objects s' = objects s /\
  tasks s' = tasks s.

(** The frame of a stored object, written to some client. *)
Definition sends_object (s : Server) (result : option positive) (o : Obs) : Prop :=
  exists c l r, o = Sent c (DetectionFrame (serialize_detection_result r)) /\
                result = Some l /\ objects s !! l = Some r.

(** A broadcast whose message is the frame of a stored object. *)
Definition carries_object (s : Server) (result : option positive) b : Prop :=
  exists l r, b_message b = serialize_detection_result r /\
              result = Some l /\ objects s !! l = Some r.

Lemma broadcast_turn_shape ok b s :
  same_but_clients s (broadcast_turn ok b s).1.1 /\
  Forall (fun o => exists c, o = Sent c (DetectionFrame (b_message b)))
         (broadcast_turn ok b s).1.2 /\
  (forall b1, (broadcast_turn ok b s).2 = Some b1 ->
     b_message b1 = b_message b /\ b_inline b1 = b_inline b).
Proof.
  unfold broadcast_turn.
  destruct (websocket_clients s !! b_position b) as [c|]; simpl.
  - split; [repeat split|]. split.
    + destruct ok; repeat constructor. eauto.
    + intros b1 H. injection H as <-. split; reflexivity.
  - split; [repeat split|]. split; [constructor|]. discriminate.
Qed.

Lemma broadcast_detection_shape inline ok (result : option positive) s :
  let s' := fst (broadcast_detection inline ok result s) in
  same_but_hub (set_latest result s) s' /\
  (exists extra, broadcasts s' = broadcasts s ++ extra /\
                 Forall (carries_object s result) extra) /\
  Forall (sends_object s result) (snd (broadcast_detection inline ok result s)).
Proof.
  assert (Hnone : forall s0 : Server,
    same_but_hub s0 s0 /\
    (exists extra, broadcasts s0 = broadcasts s0 ++ extra /\
                   Forall (carries_object s result) extra) /\
    Forall (sends_object s result) []).
  { intros s0. split; [repeat split|]. split; [|constructor].
    exists []. rewrite app_nil_r. split; [reflexivity|constructor]. }
  unfold broadcast_detection.
  destruct result as [l|]; simpl; [|apply (Hnone (set_latest None s))].
  destruct (objects s !! l) as [r|] eqn:Hl; simpl;
    [|apply (Hnone (set_latest (Some l) s))].
  match goal with
  | |- context [broadcast_turn ok ?b ?st] =>
      destruct (broadcast_turn_shape ok b st) as (Hs & Ho & Hb);
      destruct (broadcast_turn ok b st) as [[s1 o1] b1]
  end.
  simpl in *. destruct Hs as (A & B & C & D & E & F).
  split; [repeat split; assumption|]. split.
  - exists (option_list b1). rewrite F. split; [reflexivity|].
    destruct b1 as [b1|]; simpl; [|constructor].
    constructor; [|constructor]. destruct (Hb b1 eq_refl) as [Hm _].
    exists l, r. rewrite Hm. auto.
  - eapply Forall_impl; [exact Ho|]. intros o [c ->]. exists c, l, r. auto.
Qed.

Lemma broadcast_resume_shape i ok s :
  let s' := fst (broadcast_resume i ok s) in
  same_but_hub s s' /\
  Forall (fun b' => exists b, b ∈ broadcasts s /\ b_message b' = b_message b)
         (broadcasts s') /\
  Forall (fun o => exists c b, b ∈ broadcasts s /\
                               o = Sent c (DetectionFrame (b_message b)))
         (snd (broadcast_resume i ok s)).
Proof.
  assert (Hold : Forall (fun b' => exists b0, b0 ∈ broadcasts s /\
                                              b_message b' = b_message b0)
                        (broadcasts s)).
  { apply Forall_forall. intros b0 H0. exists b0. auto. }
  unfold broadcast_resume. destruct (broadcasts s !! i) as [b|] eqn:Hi; simpl.
  2: { split; [repeat split|]. split; [exact Hold|constructor]. }
  destruct (broadcast_turn_shape ok b s) as (Hs & Ho & Hb).
  destruct (broadcast_turn ok b s) as [[s1 o1] b1]. simpl in *.
  destruct Hs as (A & B & C & D & E & F).
  assert (Hin : b ∈ broadcasts s) by (eapply list_elem_of_lookup_2; exact Hi).
  split; [repeat split; assumption|]. split.
  - rewrite F. destruct b1 as [b1|].
    + apply Forall_insert; [exact Hold|]. exists b. split; [exact Hin|].
      apply Hb. reflexivity.
    + apply Forall_delete. exact Hold.
  - eapply Forall_impl; [exact Ho|]. intros o [c ->]. exists c, b. auto.
Qed.

Lemma websocket_disconnect_shape s w :
  same_but_clients s (websocket_disconnect s w).
Proof.
  unfold websocket_disconnect. destruct (py_remove _ _); repeat split.
Qed.

(** The camera loop body, when it has a frame: one object is created for
    it, re-tagged or not, and its broadcast starts. *)
Lemma camera_processing_step_shape s now r ok e :
  ml_engine s = Some e -> camera e = true ->
  let l := fresh (dom (objects s)) in
  exists d e' s1,
    (d = r \/ d = set_source FUSION r) /\
    esp8266 e' = esp8266 e /\ esp32 e' = esp32 e /\
    CONFIG s1 = CONFIG s /\ websocket_clients s1 = websocket_clients s /\
    ml_engine s1 = Some e' /\ latest_detection s1 = Some l /\
    objects s1 = <[l := d]> (objects s) /\ tasks s1 = tasks s /\
    broadcasts s1 = broadcasts s /\
    same_but_hub s1 (fst (camera_processing_step s now (Some r) ok)) /\
    (exists extra,
        broadcasts (fst (camera_processing_step s now (Some r) ok)) =
          broadcasts s ++ extra /\
        Forall (carries_object s1 (Some l)) extra) /\
    Forall (fun o => sends_object s1 (Some l) o \/ exists l', o = Fused l')
           (snd (camera_processing_step s now (Some r) ok)).
Proof.
  intros He Hc l. unfold camera_processing_step. rewrite He, Hc. cbn [alloc]. fold l.
  assert (Hl : (<[l := r]> (objects s)) !! l = Some r) by apply lookup_insert_eq.
  assert (Hplain : forall s0 : Server,
    CONFIG s0 = CONFIG s -> websocket_clients s0 = websocket_clients s ->
    forall d e', (d = r \/ d = set_source FUSION r) ->
    esp8266 e' = esp8266 e -> esp32 e' = esp32 e ->
    ml_engine s0 = Some e' -> latest_detection s0 = Some l ->
    objects s0 = <[l := d]> (objects s) -> tasks s0 = tasks s ->
    broadcasts s0 = broadcasts s ->
    forall pre : list Obs, Forall (fun o => exists l', o = Fused l') pre ->
    exists d e' s1,
      (d = r \/ d = set_source FUSION r) /\
      esp8266 e' = esp8266 e /\ esp32 e' = esp32 e /\
      CONFIG s1 = CONFIG s /\ websocket_clients s1 = websocket_clients s /\
      ml_engine s1 = Some e' /\ latest_detection s1 = Some l /\
      objects s1 = <[l := d]> (objects s) /\ tasks s1 = tasks s /\
      broadcasts s1 = broadcasts s /\
      same_but_hub s1 (fst (broadcast_detection true ok (Some l) s0)) /\
      (exists extra,
          broadcasts (fst (broadcast_detection true ok (Some l) s0)) =
            broadcasts s ++ extra /\
          Forall (carries_object s1 (Some l)) extra) /\
      Forall (fun o => sends_object s1 (Some l) o \/ exists l', o = Fused l')
             (pre ++ snd (broadcast_detection true ok (Some l) s0))).
  { intros s0 H1 H2 d e' Hd H3 H4 H5 H6 H7 H8 H9 pre Hpre.
    exists d, e', s0. repeat (split; [assumption|]).
    destruct (broadcast_detection_shape true ok (Some l) s0) as (Hs & Hx & Hf).
    split; [|split].
    - destruct Hs as (A & B & C & D & E). simpl in *.
      repeat split; congruence.
    - destruct Hx as (extra & Hx1 & Hx2). exists extra. rewrite Hx1, H9. auto.
    - apply Forall_app. split.
      + eapply Forall_impl; [exact Hpre|]. intros o Ho. right. exact Ho.
      + eapply Forall_impl; [exact Hf|]. intros o Ho. left. exact Ho. }
  destruct (hardware_mode (CONFIG s)) eqn:Hmode;
    try (match goal with
         | |- context [broadcast_detection true ok (Some l) ?s0] =>
             destruct (Hplain s0 eq_refl eq_refl r e (or_introl eq_refl)
                         eq_refl eq_refl He eq_refl eq_refl eq_refl eq_refl []
                         (List.Forall_nil _))
               as (d & e' & s1 & H)
         end; exists d, e', s1; exact H).
  unfold get_fused_result. destruct (fusion e) as [f|] eqn:Hf.
  - destruct (motion_detected r) eqn:Hm.
    + rewrite (fuse_vision f now l None _ r Hl Hm). cbn [mbind option_bind].
      match goal with
      | |- context [broadcast_detection true ok (Some l) ?s0] =>
          destruct (Hplain s0 eq_refl eq_refl (set_source FUSION r)
                      (set_fusion (Some (set_handoff_start None f)) e)
                      (or_intror eq_refl) eq_refl eq_refl eq_refl eq_refl
                      ltac:(simpl; apply insert_insert_eq) eq_refl eq_refl
                      [Fused l] ltac:(repeat constructor; eauto))
            as (d & e' & s1 & H);
          destruct (broadcast_detection true ok (Some l) s0) as [s2 o2]
      end.
      exists d, e', s1. exact H.
    + rewrite (fuse_no_wifi f now l _ r Hl Hm). cbn [mbind option_bind].
      match goal with
      | |- context [broadcast_detection true ok (Some l) ?s0] =>
          destruct (Hplain s0 eq_refl eq_refl r
                      (set_fusion (Some (set_handoff_start (Some (start_at f now)) f)) e)
                      (or_introl eq_refl) eq_refl eq_refl eq_refl eq_refl
                      eq_refl eq_refl eq_refl [Fused l]
                      ltac:(repeat constructor; eauto))
            as (d & e' & s1 & H);
          destruct (broadcast_detection true ok (Some l) s0) as [s2 o2]
      end.
      exists d, e', s1. exact H.
  - match goal with
    | |- context [broadcast_detection true ok (Some l) ?s0] =>
        destruct (Hplain s0 eq_refl eq_refl r e (or_introl eq_refl)
                    eq_refl eq_refl eq_refl eq_refl eq_refl eq_refl eq_refl []
                    (List.Forall_nil _))
          as (d & e' & s1 & H);
        destruct (broadcast_detection true ok (Some l) s0) as [s2 o2]
    end.
    exists d, e', s1. exact H.
Qed.

End ServerShape.

Section ServerInvariant.
Context {RT : Runtime}.
Variable P : DetectionResult -> Prop.
Hypothesis P_rssi : forall (m : ESP8266RSSIModule) now (x : Z) e,
  snd (process_rssi m now x) = Some e -> P e.
Hypothesis P_csi : forall (m : ESP32CSIModule) now (v : list float),
  P (snd (process_csi m now v)).
Hypothesis P_fusion : forall d, P d -> P (set_source FUSION d).

(** The camera's events satisfy [P]. *)
Definition event_ok (e : Event) : Prop :=
  match e with
  | CameraTick _ (Some r) _ => P r
  | _ => True
  end.

(** A detection frame is the frame of an event that satisfies [P]. *)
Definition obs_ok (o : Obs) : Prop :=
  match o with
  | Sent _ (DetectionFrame f) =>
      exists r, P r /\ f = serialize_detection_result r
  | _ => True
  end.

(** The message of a suspended broadcast is the frame of an event that
    satisfies [P]. *)
Definition message_ok (b : Broadcast) : Prop :=
  exists r, P r /\ b_message b = serialize_detection_result r.

(** Every object satisfies [P]; [latest_detection] and every scheduled
    broadcast hold a reference to an object; the engine has a module for
    every listener that is started; every suspended broadcast carries the
    frame of an event that satisfies [P]. *)
Definition server_inv (s : Server) : Prop :=
  map_Forall (fun _ d => P d) (objects s) /\
  (forall l, latest_detection s = Some l -> is_Some (objects s !! l)) /\
  Forall (fun t => exists l, t = Some l /\ is_Some (objects s !! l)) (tasks s) /\
  (forall e, ml_engine s = Some e ->
     (esp8266_enabled (CONFIG s) = true -> is_Some (esp8266 e)) /\
     (esp32_enabled (CONFIG s) = true -> is_Some (esp32 e))) /\
  Forall message_ok (broadcasts s).

Lemma server_inv_hub s s' :
  same_but_hub s s' -> Forall message_ok (broadcasts s') ->
  server_inv s -> server_inv s'.
Proof.
  intros (A & B & C & D & E) Hb (I1 & I2 & I3 & I4 & I5).
  unfold server_inv. rewrite A, B, C, D, E. auto.
Qed.

Lemma server_inv_clients s s' :
  same_but_clients s s' -> server_inv s -> server_inv s'.
Proof.
  intros (A & B & C & D & E & F) Hinv.
  apply (server_inv_hub s s'); [repeat split; assumption| |exact Hinv].
  rewrite F. apply Hinv.
Qed.

Lemma server_inv_startup config engine_ok : server_inv (startup config engine_ok).
Proof.
  unfold server_inv, startup. simpl. split; [apply map_Forall_empty|].
  split; [discriminate|]. split; [constructor|]. split; [|constructor].
  intros e He. destruct engine_ok; [|discriminate]. injection He as <-.
  unfold MLEngine_init. simpl. split; intros ->; eauto.
Qed.

Lemma carries_object_ok s (result : option positive) b :
  server_inv s -> carries_object s result b -> message_ok b.
Proof.
  intros (I1 & _) (l & r & Hm & _ & Hl). exists r. split; [|exact Hm].
  apply (I1 l r Hl).
Qed.

(** The engine replaced by one that has the same modules present. *)
Lemma server_inv_engine s e e' :
  server_inv s -> ml_engine s = Some e ->
  (is_Some (esp8266 e) -> is_Some (esp8266 e')) ->
  (is_Some (esp32 e) -> is_Some (esp32 e')) ->
  server_inv (set_engine (Some e') s).
Proof.
  intros (I1 & I2 & I3 & I4 & I5) He H8 H32.
  unfold server_inv. simpl. repeat (split; [assumption|]). split; [|exact I5].
  intros e0 He0. injection He0 as <-. destruct (I4 e He) as [J1 J2].
  split; intros Hen; auto.
Qed.

(** A new object at a fresh location, with the engine replaced by one that
    has the same modules present. *)
Lemma server_inv_alloc s s' d e e' (extra : list (option positive)) :
  server_inv s -> P d ->
  ml_engine s = Some e ->
  (is_Some (esp8266 e) -> is_Some (esp8266 e')) ->
  (is_Some (esp32 e) -> is_Some (esp32 e')) ->
  let l := fresh (dom (objects s)) in
  CONFIG s' = CONFIG s -> ml_engine s' = Some e' ->
  objects s' = <[l := d]> (objects s) ->
  (latest_detection s' = latest_detection s \/ latest_detection s' = Some l) ->
  tasks s' = tasks s ++ extra ->
  Forall (fun t => t = Some l) extra ->
  broadcasts s' = broadcasts s ->
  server_inv s'.
Proof using Type.
  intros (I1 & I2 & I3 & I4 & I5) Hd He H8 H32 l Hc He' Ho Hl Ht Hextra Hb.
  assert (Hlive : forall x, is_Some (objects s !! x) -> is_Some (objects s' !! x)).
  { intros x Hx. rewrite Ho. apply lookup_insert_is_Some'. right. exact Hx. }
  assert (Hnew : is_Some (objects s' !! l)).
  { rewrite Ho, lookup_insert_eq. eauto. }
  unfold server_inv. split; [|split; [|split; [|split]]].
  - rewrite Ho. apply map_Forall_insert_2; assumption.
  - intros x Hx. destruct Hl as [Hl|Hl]; rewrite Hl in Hx.
    + apply Hlive, I2, Hx.
    + injection Hx as <-. exact Hnew.
  - rewrite Ht. apply Forall_app. split.
    + eapply Forall_impl; [exact I3|]. intros t (x & -> & Hx). eauto.
    + eapply Forall_impl; [exact Hextra|]. intros t ->. eauto.
  - intros e0 He0. rewrite He' in He0. injection He0 as <-. rewrite Hc.
    destruct (I4 e He) as [J1 J2]. split; intros Hen; auto.
  - rewrite Hb. exact I5.
Qed.

Lemma esp8266_datagram_received_inv s now data :
  esp8266_enabled (CONFIG s) = true ->
  server_inv s -> server_inv (esp8266_datagram_received s now data).
Proof using P_rssi.
  intros Hen Hinv. unfold esp8266_datagram_received.
  destruct (decode data) as [text|]; [|exact Hinv].
  destruct (startswith _ _); [|exact Hinv].
  destruct (py_int _) as [n|]; [|exact Hinv].
  destruct (ml_engine s) as [e|] eqn:He; [|exact Hinv].
  unfold process_esp8266_rssi.
  destruct (proj1 (proj1 (proj2 (proj2 (proj2 Hinv))) e He) Hen) as [m Hm].
  rewrite Hm.
  pose proof (P_rssi m now n) as HP.
  destruct (process_rssi m now n) as [m' [r|]]; simpl in HP;
    cbn [fmap option_fmap option_map].
  - cbn [alloc_result alloc objects set_engine].
    eapply (server_inv_alloc s _ r e (set_esp8266 (Some m') e)
              [Some (fresh (dom (objects s)))]);
      try reflexivity; try assumption.
    + apply HP. reflexivity.
    + simpl. eauto.
    + simpl. auto.
    + left. reflexivity.
    + repeat constructor.
  - apply (server_inv_engine s e); [exact Hinv|exact He| |]; simpl; eauto.
Qed.

Lemma esp32_datagram_received_inv s now data :
  esp32_enabled (CONFIG s) = true ->
  server_inv s -> server_inv (esp32_datagram_received s now data).
Proof using P_csi.
  intros Hen Hinv. unfold esp32_datagram_received.
  destruct (decode data) as [text|]; [|exact Hinv].
  destruct (_ <=? _)%nat; [|exact Hinv].
  destruct (floats_of _) as [v|]; [|exact Hinv].
  destruct (ml_engine s) as [e|] eqn:He; [|exact Hinv].
  unfold process_esp32_csi.
  destruct (proj2 (proj1 (proj2 (proj2 (proj2 Hinv))) e He) Hen) as [m Hm].
  rewrite Hm.
  pose proof (P_csi m now v) as HP.
  destruct (process_csi m now v) as [m' r]. simpl in HP.
  cbn [alloc_result alloc objects set_engine].
  eapply (server_inv_alloc s _ r e (set_esp32 (Some m') e)
            [Some (fresh (dom (objects s)))]);
    try reflexivity; try assumption.
  - simpl. auto.
  - simpl. eauto.
  - left. reflexivity.
  - repeat constructor.
Qed.

Lemma sends_object_ok s (result : option positive) (o : Obs) :
  server_inv s -> sends_object s result o -> obs_ok o.
Proof.
  intros (I1 & _) (c & l & r & -> & _ & Hl). simpl.
  exists r. split; [|reflexivity]. apply (I1 l r Hl).
Qed.

(** The start of a broadcast of a stored event. *)
Lemma broadcast_detection_inv inline ok (l : positive) s :
  server_inv s -> is_Some (objects s !! l) ->
  server_inv (fst (broadcast_detection inline ok (Some l) s)) /\
  Forall obs_ok (snd (broadcast_detection inline ok (Some l) s)) /\
  latest_detection (fst (broadcast_detection inline ok (Some l) s)) = Some l.
Proof.
  intros Hinv Hl.
  assert (Hinv1 : server_inv (set_latest (Some l) s)).
  { destruct Hinv as (I1 & I2 & I3 & I4 & I5). unfold server_inv. simpl.
    split; [exact I1|]. split; [|auto].
    intros x Hx. injection Hx as <-. exact Hl. }
  destruct (broadcast_detection_shape inline ok (Some l) s)
    as (Hs & (extra & Hx1 & Hx2) & Hf).
  split; [|split].
  - apply (server_inv_hub (set_latest (Some l) s)); [exact Hs| |exact Hinv1].
    rewrite Hx1. apply Forall_app. split; [apply Hinv|].
    eapply Forall_impl; [exact Hx2|]. intros b Hb.
    eapply carries_object_ok; eassumption.
  - eapply Forall_impl; [exact Hf|]. intros o Ho.
    eapply sends_object_ok; eassumption.
  - destruct Hs as (_ & _ & C & _). rewrite C. reflexivity.
Qed.

Lemma broadcast_resume_inv i ok s :
  server_inv s ->
  server_inv (fst (broadcast_resume i ok s)) /\
  Forall obs_ok (snd (broadcast_resume i ok s)) /\
  latest_detection (fst (broadcast_resume i ok s)) = latest_detection s.
Proof.
  intros Hinv. destruct (broadcast_resume_shape i ok s) as (Hs & Hb & Ho).
  assert (I5 : Forall message_ok (broadcasts s)) by apply Hinv.
  rewrite Forall_forall in I5.
  split; [|split].
  - apply (server_inv_hub s); [exact Hs| |exact Hinv].
    eapply Forall_impl; [exact Hb|]. intros b' (b & Hin & Hm).
    destruct (I5 b Hin) as (r & HP & Hr). exists r. split; [exact HP|].
    congruence.
  - eapply Forall_impl; [exact Ho|]. intros o (c & b & Hin & ->).
    destruct (I5 b Hin) as (r & HP & Hr). simpl. exists r. auto.
  - destruct Hs as (_ & _ & C & _). exact C.
Qed.

Lemma step_inv s e :
  server_inv s -> event_ok e ->
  server_inv (fst (step s e)) /\
  Forall obs_ok (snd (step s e)) /\
  (is_Some (latest_detection s) -> is_Some (latest_detection (fst (step s e)))).
Proof using P_rssi P_csi P_fusion.
  intros Hinv Hev.
  destruct e as [now data|now data|ok|i ok|now frame ok|w out|w data out|w];
    cbn [step].
  - destruct (esp8266_enabled (CONFIG s)) eqn:Hen; simpl;
      [|split; [exact Hinv|split; [constructor|auto]]].
    split; [apply esp8266_datagram_received_inv; assumption|].
    split; [constructor|].
    unfold esp8266_datagram_received.
    destruct (decode data); [|auto].
    destruct (startswith _ _); [|auto]. destruct (py_int _); [|auto].
    destruct (ml_engine s); [|auto].
    destruct (process_esp8266_rssi _ _ _) as [e' [[r|]|]]; simpl; auto.
  - destruct (esp32_enabled (CONFIG s)) eqn:Hen; simpl;
      [|split; [exact Hinv|split; [constructor|auto]]].
    split; [apply esp32_datagram_received_inv; assumption|].
    split; [constructor|].
    unfold esp32_datagram_received.
    destruct (decode data); [|auto].
    destruct (_ <=? _)%nat; [|auto]. destruct (floats_of _); [|auto].
    destruct (ml_engine s); [|auto].
    destruct (process_esp32_csi _ _ _) as [e' [r|]]; simpl; auto.
  - destruct (tasks s) as [|result rest] eqn:Ht; simpl;
      [split; [exact Hinv|split; [constructor|auto]]|].
    destruct Hinv as (I1 & I2 & I3 & I4 & I5). rewrite Ht in I3.
    inversion I3 as [|t ts (l & -> & Hl) Hrest]; subst.
    destruct (broadcast_detection_inv false ok l (set_tasks rest s))
      as (H1 & H2 & H3).
    { unfold server_inv. simpl. auto. }
    { exact Hl. }
    split; [exact H1|]. split; [exact H2|]. intros _. rewrite H3. eauto.
  - destruct (broadcast_resume_inv i ok s Hinv) as (H1 & H2 & H3).
    split; [exact H1|]. split; [exact H2|]. rewrite H3. auto.
  - destruct (camera_enabled (CONFIG s) && negb (existsb b_inline (broadcasts s)));
      simpl; [|split; [exact Hinv|split; [constructor|auto]]].
    destruct (ml_engine s) as [eng|] eqn:He;
      [|unfold camera_processing_step; rewrite He; simpl;
        split; [exact Hinv|split; [constructor|auto]]].
    destruct (camera eng) eqn:Hc;
      [|unfold camera_processing_step; rewrite He, Hc; simpl;
        split; [exact Hinv|split; [constructor|auto]]].
    destruct frame as [r|];
      [|unfold camera_processing_step; rewrite He, Hc; simpl;
        split; [exact Hinv|split; [constructor|auto]]].
    simpl in Hev.
    destruct (camera_processing_step_shape s now r ok eng He Hc)
      as (d & e' & s1 & Hd & H8 & H32 & A & B & C & D & E & F & G & Hs & Hx & Hf).
    assert (HPd : P d) by (destruct Hd as [->| ->]; auto).
    assert (Hinv1 : server_inv s1).
    { eapply (server_inv_alloc s s1 d eng e' []); try eassumption.
      - rewrite H8. auto.
      - rewrite H32. auto.
      - right. exact D.
      - rewrite app_nil_r. exact F.
      - constructor. }
    split; [|split].
    + apply (server_inv_hub s1); [exact Hs| |exact Hinv1].
      destruct Hx as (extra & Hx1 & Hx2). rewrite Hx1.
      apply Forall_app. split; [apply Hinv|].
      eapply Forall_impl; [exact Hx2|]. intros b Hb.
      eapply carries_object_ok; eassumption.
    + eapply Forall_impl; [exact Hf|]. intros o [Ho|[l' ->]]; [|exact I].
      eapply sends_object_ok; eassumption.
    + intros _. destruct Hs as (_ & _ & C' & _). rewrite C', D. eauto.
  - unfold websocket_connect. destruct out; simpl;
      (split; [eapply server_inv_clients; [|exact Hinv]; repeat split|]);
      (split; [repeat constructor|auto]).
  - unfold websocket_receive_text. destruct (String.eqb _ _); simpl;
      [|split; [exact Hinv|split; [constructor|auto]]].
    destruct (latest_detection s) as [l|] eqn:Hl; simpl;
      [|split; [exact Hinv|split; [constructor|rewrite Hl; auto]]].
    destruct (objects s !! l) as [r|] eqn:Hr; simpl;
      [|split; [exact Hinv|split; [constructor|rewrite Hl; auto]]].
    destruct out; simpl.
    + split; [exact Hinv|]. split; [|rewrite Hl; auto].
      constructor; [|constructor]. exists r. split; [|reflexivity].
      destruct Hinv as (I1 & _). apply (I1 l r Hr).
    + pose proof (websocket_disconnect_shape s w) as Hs.
      split; [eapply server_inv_clients; eassumption|].
      split; [constructor|]. destruct Hs as (_ & _ & C & _). rewrite C, Hl. auto.
    + split; [exact Hinv|]. split; [constructor|rewrite Hl; auto].
  - simpl. pose proof (websocket_disconnect_shape s w) as Hs.
    split; [eapply server_inv_clients; eassumption|].
    split; [constructor|]. destruct Hs as (_ & _ & C & _). rewrite C. auto.
Qed.

Lemma run_inv (es : list Event) : forall s,
  server_inv s -> Forall event_ok es ->
  server_inv (fst (run s es)) /\
  Forall obs_ok (snd (run s es)) /\
  (is_Some (latest_detection s) -> is_Some (latest_detection (fst (run s es)))).
Proof using P_rssi P_csi P_fusion.
  induction es as [|e es IH]; intros s Hinv Hes; simpl.
  - split; [exact Hinv|]. split; [constructor|auto].
  - inversion Hes as [|e0 es0 He Hrest]; subst.
    destruct (step_inv s e Hinv He) as (H1 & H2 & H3).
    destruct (step s e) as [s1 o1]. simpl in H1, H2, H3.
    destruct (IH s1 H1 Hrest) as (H4 & H5 & H6).
    destruct (run s1 es) as [s2 o2]. simpl in *.
    split; [exact H4|]. split; [apply Forall_app; split; assumption|auto].
Qed.

End ServerInvariant.

Section ServerFacts.
Context {RT : Runtime}.

(** An event as the adapters and the detector construct it: the two
    fusion flags unset, and not tagged LOST or WIFI_MONITOR. *)
Definition plain (d : DetectionResult) : Prop :=
  handoff_active d = false /\ out_of_frame d = false /\
  source d <> LOST /\ source d <> WIFI_MONITOR.

(** A detection frame without the handoff flags and not from a LOST or
    raw-packet event. *)
Definition plain_frame (o : Obs) : Prop :=
  match o with
  | Sent _ (DetectionFrame f) =>
      j_handoff_active f = false /\ j_out_of_frame f = false /\
      j_source f <> "lost"%string /\ j_source f <> "wifi_monitor"%string
  | _ => True
  end.

Lemma process_rssi_plain (m : ESP8266RSSIModule) now (x : Z) e :
  snd (process_rssi m now x) = Some e -> plain e.
Proof.
  intros He.
  destruct (process_rssi_Some m now x e He)
    as (raw & _ & _ & _ & Hs & Ho & Hh & _).
  unfold plain. rewrite Hs, Ho, Hh. repeat split; discriminate.
Qed.

Lemma process_csi_plain (m : ESP32CSIModule) now (v : list float) :
  plain (snd (process_csi m now v)).
Proof. unfold process_csi, plain. simpl. repeat split; discriminate. Qed.

Lemma set_source_plain d : plain d -> plain (set_source FUSION d).
Proof. unfold plain. simpl. intros (A & B & _). repeat split; auto; discriminate. Qed.

(** X9.  In the server the handoff and the LOST fallback never happen.
    From startup, over any sequence of datagrams, camera frames, starts
    and resumptions of broadcasts and websocket traffic, in any order,
    with the camera's events carrying the default flags, every detection frame written to a client has
    [handoff_active] and [out_of_frame] false and a source other than
    "lost" and "wifi_monitor", and so has every stored event:
    [camera_processing_loop] passes [fuse] no WiFi event, because nothing
    assigns [_last_wifi_result], and always a vision event. *)
Theorem server_never_hands_off (config : Config) (engine_ok : bool)
    (es : list Event) :
  Forall (event_ok plain) es ->
  Forall plain_frame (snd (run (startup config engine_ok) es)) /\
  map_Forall (fun _ d => plain d)
    (objects (fst (run (startup config engine_ok) es))).
Proof.
  intros Hes.
  destruct (run_inv plain process_rssi_plain process_csi_plain set_source_plain
              es (startup config engine_ok)
              (server_inv_startup plain config engine_ok) Hes)
    as ((I1 & _) & Hobs & _).
  split; [|exact I1].
  eapply Forall_impl; [exact Hobs|]. intros o Ho.
  destruct o as [w [| f]|]; simpl in *; try exact I.
  destruct Ho as (r & (A & B & C & D) & ->). simpl.
  split; [exact A|]. split; [exact B|].
  split; destruct (source r); simpl; congruence.
Qed.

Lemma run_app (es1 es2 : list Event) : forall s : Server,
  run s (es1 ++ es2) =
  (fst (run (fst (run s es1)) es2),
   snd (run s es1) ++ snd (run (fst (run s es1)) es2)).
Proof.
  induction es1 as [|e es1 IH]; intros s; simpl.
  - destruct (run s es2). reflexivity.
  - destruct (step s e) as [s1 o1]. rewrite IH.
    destruct (run s1 es1) as [s2 o2]. simpl.
    destruct (run s2 es2) as [s3 o3]. simpl. rewrite app_assoc. reflexivity.
Qed.

(** X10.  From startup, whatever arrives and however the broadcasts
    interleave: every scheduled broadcast holds
    a reference to a stored event, never [None]; [latest_detection], once
    set, is never unset again and always points to a stored event; so from
    the first broadcast on, a [get_latest] whose write goes through is
    answered with exactly one detection frame. *)
Theorem latest_detection_persists (config : Config) (engine_ok : bool)
    (es1 es2 : list Event) :
  let s1 := fst (run (startup config engine_ok) es1) in
  let s2 := fst (run (startup config engine_ok) (es1 ++ es2)) in
  Forall (fun t => exists l, t = Some l /\ is_Some (objects s2 !! l)) (tasks s2) /\
  (forall l, latest_detection s2 = Some l -> is_Some (objects s2 !! l)) /\
  (is_Some (latest_detection s1) ->
   is_Some (latest_detection s2) /\
   forall w, exists r,
     snd (websocket_receive_text s2 w "get_latest" Written) =
     [Sent w (DetectionFrame (serialize_detection_result r))]).
Proof.
  intros s1 s2.
  set (Q := fun _ : DetectionResult => True).
  assert (Hev : forall es, Forall (event_ok Q) es).
  { intros es. apply Forall_forall. intros e _.
    destruct e as [| | | |now [r|] ok| | |]; exact I. }
  assert (Hinv : forall es, server_inv Q (fst (run (startup config engine_ok) es))).
  { intros es.
    apply (run_inv Q (fun _ _ _ _ _ => I) (fun _ _ _ => I) (fun _ _ => I) es _
             (server_inv_startup Q config engine_ok) (Hev es)). }
  destruct (Hinv (es1 ++ es2)) as (_ & I2 & I3 & _ & _). fold s2 in I2, I3.
  split; [exact I3|]. split; [exact I2|].
  intros Hset.
  assert (Hset2 : is_Some (latest_detection s2)).
  { subst s2. rewrite run_app. simpl.
    apply (run_inv Q (fun _ _ _ _ _ => I) (fun _ _ _ => I) (fun _ _ => I) es2 _
             (Hinv es1) (Hev es2)). exact Hset. }
  split; [exact Hset2|]. intros w.
  destruct Hset2 as [l Hl]. destruct (I2 l Hl) as [r Hr].
  exists r. unfold websocket_receive_text. simpl. rewrite Hl. simpl. rewrite Hr.
  reflexivity.
Qed.

End ServerFacts.

(** ** The registry of websockets *)

Section Registry.
Context {RT : Runtime}.
Implicit Types (s : Server) (clients dead : list nat).

(** The websockets accepted during a sequence of events, in order. *)
Fixpoint connections (es : list Event) : list nat :=
  match es with
  | [] => []
  | WsConnect w _ :: es => w :: connections es
  | _ :: es => connections es
  end.

Lemma py_remove_sublist (x : nat) clients clients' :
  py_remove x clients = Some clients' -> clients' `sublist_of` clients.
Proof.
  revert clients'. induction clients as [|y l IH]; intros l' H; simpl in H.
  - discriminate.
  - destruct (Nat.eqb x y).
    + injection H as <-. apply sublist_cons. reflexivity.
    + destruct (py_remove x l) as [l0|]; simpl in H; [|discriminate].
      injection H as <-. apply sublist_skip. apply IH. reflexivity.
Qed.

Lemma remove_dead_sublist dead : forall clients,
  remove_dead dead clients `sublist_of` clients.
Proof.
  induction dead as [|d dead IH]; intros clients; simpl.
  - reflexivity.
  - destruct (py_remove d clients) as [l|] eqn:Hr; [|reflexivity].
    etransitivity; [apply IH|]. eapply py_remove_sublist. exact Hr.
Qed.

Lemma broadcast_turn_clients ok b s :
  websocket_clients (broadcast_turn ok b s).1.1 `sublist_of` websocket_clients s.
Proof.
  unfold broadcast_turn. destruct (websocket_clients s !! b_position b); simpl.
  - reflexivity.
  - apply remove_dead_sublist.
Qed.

Lemma broadcast_detection_clients inline ok (result : option positive) s :
  websocket_clients (fst (broadcast_detection inline ok result s))
    `sublist_of` websocket_clients s.
Proof.
  unfold broadcast_detection.
  destruct (result ≫= _) as [r|]; simpl; [|reflexivity].
  match goal with
  | |- context [broadcast_turn ok ?b0 ?st] =>
      pose proof (broadcast_turn_clients ok b0 st) as H;
      destruct (broadcast_turn ok b0 st) as [[s1 o1] b1]
  end.
  exact H.
Qed.

Lemma broadcast_resume_clients i ok s :
  websocket_clients (fst (broadcast_resume i ok s))
    `sublist_of` websocket_clients s.
Proof.
  unfold broadcast_resume. destruct (broadcasts s !! i) as [b|]; [|reflexivity].
  pose proof (broadcast_turn_clients ok b s) as H.
  destruct (broadcast_turn ok b s) as [[s1 o1] b1]. exact H.
Qed.

Lemma websocket_disconnect_clients s w :
  websocket_clients (websocket_disconnect s w) `sublist_of` websocket_clients s.
Proof.
  unfold websocket_disconnect. destruct (py_remove _ _) as [l|] eqn:Hr; simpl.
  - eapply py_remove_sublist. exact Hr.
  - reflexivity.
Qed.

Lemma esp8266_datagram_received_clients s now data :
  websocket_clients (esp8266_datagram_received s now data) = websocket_clients s.
Proof.
  unfold esp8266_datagram_received.
  destruct (decode data); [|reflexivity].
  destruct (startswith _ _); [|reflexivity]. destruct (py_int _); [|reflexivity].
  destruct (ml_engine s); [|reflexivity].
  destruct (process_esp8266_rssi _ _ _) as [e' [[r|]|]]; reflexivity.
Qed.

Lemma esp32_datagram_received_clients s now data :
  websocket_clients (esp32_datagram_received s now data) = websocket_clients s.
Proof.
  unfold esp32_datagram_received.
  destruct (decode data); [|reflexivity].
  destruct (_ <=? _)%nat; [|reflexivity]. destruct (floats_of _); [|reflexivity].
  destruct (ml_engine s); [|reflexivity].
  destruct (process_esp32_csi _ _ _) as [e' [r|]]; reflexivity.
Qed.

Lemma camera_processing_step_clients s now frame ok :
  websocket_clients (fst (camera_processing_step s now frame ok))
    `sublist_of` websocket_clients s.
Proof.
  unfold camera_processing_step.
  destruct (ml_engine s) as [e|]; [|reflexivity].
  destruct (camera e); [|reflexivity].
  destruct frame as [r|]; [|reflexivity].
  cbn [alloc].
  destruct (hardware_mode (CONFIG s));
    try (match goal with
         | |- context [broadcast_detection true ok ?res ?s0] =>
             apply (broadcast_detection_clients true ok res s0)
         end).
  destruct (get_fused_result _ _ _ _ _) as [[[[res fd] e'] h]|]; [|reflexivity].
  match goal with
  | |- context [broadcast_detection true ok ?res ?s0] =>
      pose proof (broadcast_detection_clients true ok res s0) as Hb;
      destruct (broadcast_detection true ok res s0) as [s2 o2]
  end.
  exact Hb.
Qed.

Lemma step_clients s e :
  match e with
  | WsConnect w _ =>
      websocket_clients (fst (step s e)) = websocket_clients s ++ [w]
  | _ => websocket_clients (fst (step s e)) `sublist_of` websocket_clients s
  end.
Proof.
  destruct e as [now data|now data|ok|i ok|now frame ok|w out|w data out|w];
    cbn [step].
  - destruct (esp8266_enabled _); simpl; [|reflexivity].
    rewrite esp8266_datagram_received_clients. reflexivity.
  - destruct (esp32_enabled _); simpl; [|reflexivity].
    rewrite esp32_datagram_received_clients. reflexivity.
  - destruct (tasks s) as [|result rest]; [reflexivity|].
    apply (broadcast_detection_clients false ok result (set_tasks rest s)).
  - apply broadcast_resume_clients.
  - destruct (_ && _); [|reflexivity].
    apply camera_processing_step_clients.
  - unfold websocket_connect. destruct out; reflexivity.
  - unfold websocket_receive_text. destruct (String.eqb _ _); [|reflexivity].
    destruct (latest_detection s ≫= _); [|reflexivity].
    destruct out; simpl; try reflexivity. apply websocket_disconnect_clients.
  - simpl. apply websocket_disconnect_clients.
Qed.

(** X11.  The registry never holds a websocket twice.  When the
    websockets accepted during a run are distinct from each other and from
    those already registered, as distinct connection objects are, the
    registry afterwards has no repeated entry, and holds only websockets
    that were registered before or accepted during the run, in that
    order, however the broadcasts of the run interleave. *)
Theorem registry_no_duplicates (es : list Event) : forall s : Server,
  List.NoDup (websocket_clients s ++ connections es) ->
  List.NoDup (websocket_clients (fst (run s es))) /\
  websocket_clients (fst (run s es))
    `sublist_of` (websocket_clients s ++ connections es).
Proof.
  induction es as [|e es IH]; intros s Hnd; simpl.
  - rewrite app_nil_r in *. split; [exact Hnd|reflexivity].
  - pose proof (step_clients s e) as Hstep.
    destruct (step s e) as [s1 o1]. simpl in Hstep.
    assert (Hsub : (websocket_clients s1 ++ connections es)
                     `sublist_of` (websocket_clients s ++ connections (e :: es))).
    { destruct e; simpl; try (apply sublist_app; [exact Hstep|reflexivity]).
      rewrite Hstep, <- app_assoc. reflexivity. }
    destruct (IH s1) as [H1 H2].
    { apply NoDup_ListNoDup in Hnd. apply NoDup_ListNoDup.
      eapply sublist_NoDup; eassumption. }
    destruct (run s1 es) as [s2 o2]. simpl in *.
    split; [exact H1|]. etransitivity; [exact H2|exact Hsub].
Qed.

End Registry.

(** ** Broadcasts that do not overlap *)

Section Sequential.
Context {RT : Runtime}.
Implicit Types (s : Server) (clients dead : list nat) (ok : nat -> bool).

(** The events of one broadcast task that nothing interrupts: its start,
    which makes the first write, one resumption for each further write,
    and the resumption that ends the loop.  [oks] are the outcomes of the
    writes, in registry order; [i] is the number of broadcasts suspended
    when the task starts. *)
Definition uninterrupted (i : nat) (oks : list bool) : list Event :=
  match oks with
  | [] => [RunTask true]
  | o :: oks => RunTask o :: map (Resume i) oks ++ [Resume i true]
  end.

(** The oldest task runs to its end with nothing in between; [ok c] is
    the outcome of its write to client [c]. *)
Definition publish ok s : Server * list Obs :=
  run s (uninterrupted (length (broadcasts s)) (map ok (websocket_clients s))).

(** Successive publishes, each with its own write outcomes; the event
    published with them is named beside them. *)
Fixpoint publish_all s (ps : list ((nat -> bool) * positive)) : Server * list Obs :=
  match ps with
  | [] => (s, [])
  | p :: ps =>
      let '(s, o) := publish p.1 s in
      let '(s, os) := publish_all s ps in
      (s, o ++ os)
  end.

(** The events published before the first publish at which the write to
    [w] fails. *)
Fixpoint until_failure (w : nat) (ps : list ((nat -> bool) * positive)) : list positive :=
  match ps with
  | [] => []
  | p :: ps => if p.1 w then p.2 :: until_failure w ps else []
  end.

(** The frame of the object at a location. *)
Definition frame_at (h : gmap positive DetectionResult) (l : positive) : list Frame :=
  match h !! l with
  | Some r => [DetectionFrame (serialize_detection_result r)]
  | None => []
  end.

(** Removing the clients whose write failed leaves the others, in their
    order. *)
Lemma remove_dead_filter ok clients : forall pre,
  Forall (fun c => ok c = true) pre ->
  remove_dead (List.filter (fun c => negb (ok c)) clients) (pre ++ clients) =
  pre ++ List.filter ok clients.
Proof.
  induction clients as [|c clients IH]; intros pre Hpre; simpl.
  - reflexivity.
  - destruct (ok c) eqn:Hc; simpl.
    + specialize (IH (pre ++ [c])). rewrite <- !app_assoc in IH. simpl in IH.
      apply IH. apply Forall_app. split; [exact Hpre|]. constructor; [exact Hc|constructor].
    + rewrite py_remove_skip.
      * apply IH. exact Hpre.
      * intros Hin. rewrite Forall_forall in Hpre.
        apply list_elem_of_In in Hin. specialize (Hpre c Hin). congruence.
Qed.

(** The delivery loop from the client at index [k] on, resumed without
    anything in between. *)
Lemma resume_to_end ok (m : DetectionDict) clients (bs : list Broadcast) :
  forall (rem : list nat) (k : nat) dead s,
    websocket_clients s = clients -> drop k clients = rem ->
    broadcasts s =
      bs ++ [{| b_inline := false; b_message := m; b_position := k;
                b_dead := dead |}] ->
    run s (map (Resume (length bs)) (map ok rem) ++ [Resume (length bs) true]) =
    (set_clients
       (remove_dead (dead ++ List.filter (fun c => negb (ok c)) rem) clients)
       (set_broadcasts bs s),
     map (fun c => Sent c (DetectionFrame m)) (List.filter ok rem)).
Proof.
  induction rem as [|c rem IH]; intros k dead s Hc Hrem Hb.
  - cbn [map app run step]. unfold broadcast_resume. rewrite Hb.
    rewrite list_lookup_middle by reflexivity.
    unfold broadcast_turn. cbn [b_position b_dead].
    rewrite Hc, (lookup_ge_None_2 clients k) by (apply drop_nil_inv; exact Hrem).
    cbn [websocket_clients set_clients broadcasts].
    rewrite Hb, delete_middle, !app_nil_r. reflexivity.
  - assert (Hk : clients !! k = Some c).
    { pose proof (lookup_drop clients k 0) as H. rewrite Hrem in H.
      rewrite Nat.add_0_r in H. symmetry. exact H. }
    assert (Hrem' : drop (S k) clients = rem).
    { rewrite (drop_S clients c k Hk) in Hrem. congruence. }
    cbn [map app run step]. unfold broadcast_resume. rewrite Hb.
    rewrite list_lookup_middle by reflexivity.
    unfold broadcast_turn. cbn [b_position b_dead b_inline b_message].
    rewrite Hc, Hk. cbn [broadcasts].
    rewrite Hb, insert_app_r_alt, Nat.sub_diag by lia. cbn [insert list_insert].
    match goal with
    | |- context [run ?t _] =>
        rewrite (IH (S k) (if ok c then dead else dead ++ [c]) t Hc Hrem' eq_refl)
    end.
    cbn [List.filter]. destruct (ok c); cbn [negb map app].
    + reflexivity.
    + rewrite <- app_assoc. reflexivity.
Qed.

(** A publish that nothing interrupts writes the event's frame to every
    client whose write succeeds, in registry order, and leaves exactly
    those clients registered. *)
Lemma publish_eq ok s (l : positive) r rest :
  tasks s = Some l :: rest -> objects s !! l = Some r ->
  publish ok s =
  (set_clients (List.filter ok (websocket_clients s))
     (set_latest (Some l) (set_tasks rest s)),
   map (fun c => Sent c (DetectionFrame (serialize_detection_result r)))
       (List.filter ok (websocket_clients s))).
Proof.
  intros Ht Hl. unfold publish.
  destruct (websocket_clients s) as [|c0 cs] eqn:Hcs.
  - cbn [map uninterrupted run step]. rewrite Ht.
    unfold broadcast_detection. cbn [set_latest objects set_tasks mbind option_bind].
    rewrite Hl. unfold broadcast_turn.
    cbn [b_position b_dead websocket_clients set_latest set_tasks]. rewrite Hcs.
    cbn [lookup list_lookup remove_dead option_list option_rect List.filter
         map app broadcasts set_clients].
    rewrite app_nil_r. destruct s; simpl in *; subst. reflexivity.
  - cbn [map uninterrupted]. cbn [run step]. rewrite Ht.
    unfold broadcast_detection. cbn [set_latest objects set_tasks mbind option_bind].
    rewrite Hl. unfold broadcast_turn.
    cbn [b_position b_dead b_inline b_message websocket_clients set_latest
         set_tasks]. rewrite Hcs.
    cbn [lookup list_lookup option_list option_rect broadcasts].
    match goal with
    | |- context [run ?t _] =>
        rewrite (resume_to_end ok (serialize_detection_result r) (c0 :: cs)
                   (broadcasts s) cs 1 (if ok c0 then [] else [c0]) t
                   Hcs eq_refl eq_refl)
    end.
    pose proof (remove_dead_filter ok (c0 :: cs) [] (List.Forall_nil _)) as Hrm.
    cbn [app List.filter] in Hrm |- *.
    destruct (ok c0); cbn [negb app map] in Hrm |- *; rewrite Hrm;
      destruct s; simpl in *; subst; reflexivity.
Qed.

Lemma deliveries_absent w (f : Frame) clients :
  ~ In w clients ->
  deliveries w (map (fun c => Sent c f) clients) = [].
Proof.
  induction clients as [|c clients IH]; intros Hw; simpl; [reflexivity|].
  destruct (Nat.eqb_spec w c) as [->|Hne].
  - exfalso. apply Hw. left. reflexivity.
  - apply IH. intros Hin. apply Hw. right. exact Hin.
Qed.

Lemma deliveries_once w (f : Frame) clients :
  List.NoDup clients -> In w clients ->
  deliveries w (map (fun c => Sent c f) clients) = [f].
Proof.
  induction 1 as [|c clients Hc Hnd IH]; intros Hw; simpl; [destruct Hw|].
  destruct (Nat.eqb_spec w c) as [->|Hne].
  - rewrite deliveries_absent by exact Hc. reflexivity.
  - apply IH. destruct Hw as [Heq|Hin]; [congruence|exact Hin].
Qed.

(** The tasks of a state are the events to publish, in order, followed by
    others, and the events are stored. *)
Definition queued s (ps : list ((nat -> bool) * positive)) (rest : list (option positive)) : Prop :=
  tasks s = map (fun p => Some p.2) ps ++ rest /\
  Forall (fun p => is_Some (objects s !! p.2)) ps.

Lemma publish_queued s p ps rest :
  queued s (p :: ps) rest ->
  exists r,
    objects s !! p.2 = Some r /\
    publish p.1 s =
      (set_clients (List.filter p.1 (websocket_clients s))
         (set_latest (Some p.2)
            (set_tasks (map (fun p => Some p.2) ps ++ rest) s)),
       map (fun c => Sent c (DetectionFrame (serialize_detection_result r)))
           (List.filter p.1 (websocket_clients s))) /\
    queued (fst (publish p.1 s)) ps rest.
Proof.
  intros [Ht Ho]. inversion Ho as [|p0 ps0 [r Hr] Hrest]; subst.
  exists r. split; [exact Hr|].
  pose proof (publish_eq p.1 s p.2 r _ Ht Hr) as Heq.
  split; [exact Heq|]. rewrite Heq. split; [reflexivity|exact Hrest].
Qed.

Lemma publish_all_absent ps : forall s w rest,
  queued s ps rest ->
  ~ In w (websocket_clients s) ->
  deliveries w (snd (publish_all s ps)) = [] /\
  ~ In w (websocket_clients (fst (publish_all s ps))).
Proof.
  induction ps as [|p ps IH]; intros s w rest Hq Hw; simpl;
    [split; [reflexivity|exact Hw]|].
  destruct (publish_queued s p ps rest Hq) as (r & Hr & Heq & Hq1).
  rewrite Heq in Hq1 |- *. simpl in Hq1.
  set (s1 := set_clients _ _) in *.
  assert (Hw1 : ~ In w (websocket_clients s1)).
  { subst s1. simpl. rewrite filter_In. tauto. }
  destruct (IH s1 w rest Hq1 Hw1) as [Hd Hn].
  destruct (publish_all s1 ps) as [s2 os]. simpl in *.
  rewrite deliveries_app, Hd, app_nil_r.
  split; [|exact Hn]. apply deliveries_absent. rewrite filter_In. tauto.
Qed.

Lemma publish_all_state ps : forall s rest,
  queued s ps rest ->
  websocket_clients (fst (publish_all s ps)) =
    List.filter (fun c => forallb (fun p => p.1 c) ps) (websocket_clients s) /\
  objects (fst (publish_all s ps)) = objects s /\
  tasks (fst (publish_all s ps)) = rest /\
  broadcasts (fst (publish_all s ps)) = broadcasts s.
Proof.
  induction ps as [|p ps IH]; intros s rest Hq; simpl.
  - destruct Hq as [Ht _]. simpl in Ht.
    split; [|repeat split; exact Ht].
    induction (websocket_clients s) as [|c cl IHc]; simpl;
      [reflexivity|]. rewrite <- IHc. reflexivity.
  - destruct (publish_queued s p ps rest Hq) as (r & Hr & Heq & Hq1).
    rewrite Heq in Hq1 |- *. simpl in Hq1.
    set (s1 := set_clients _ _) in *.
    destruct (IH s1 rest Hq1) as (Hc & Ho & Ht & Hb).
    destruct (publish_all s1 ps) as [s2 os]. simpl in *.
    rewrite Hc, Ho, Ht, Hb. split; [|repeat split].
    clear. induction (websocket_clients s) as [|c cl IHc]; simpl; [reflexivity|].
    destruct (p.1 c); simpl; [|exact IHc].
    destruct (forallb _ ps); rewrite IHc; reflexivity.
Qed.

Lemma publish_all_deliveries ps : forall s w rest,
  queued s ps rest ->
  List.NoDup (websocket_clients s) ->
  In w (websocket_clients s) ->
  deliveries w (snd (publish_all s ps)) =
  flat_map (frame_at (objects s)) (until_failure w ps).
Proof.
  induction ps as [|p ps IH]; intros s w rest Hq Hnd Hw; simpl; [reflexivity|].
  destruct (publish_queued s p ps rest Hq) as (r & Hr & Heq & Hq1).
  rewrite Heq in Hq1 |- *. simpl in Hq1.
  set (s1 := set_clients _ _) in *.
  assert (Hnd1 : List.NoDup (websocket_clients s1))
    by (subst s1; simpl; apply List.NoDup_filter; exact Hnd).
  destruct (p.1 w) eqn:Hok.
  - assert (Hw1 : In w (websocket_clients s1))
      by (subst s1; simpl; apply filter_In; split; assumption).
    specialize (IH s1 w rest Hq1 Hnd1 Hw1).
    destruct (publish_all s1 ps) as [s2 os]. simpl in *.
    rewrite deliveries_app, IH.
    rewrite deliveries_once by
      (try apply List.NoDup_filter; try apply filter_In; auto).
    unfold frame_at at 2. rewrite Hr. reflexivity.
  - assert (Hw1 : ~ In w (websocket_clients s1)).
    { subst s1. simpl. rewrite filter_In. intros [_ H]. congruence. }
    destruct (publish_all_absent ps s1 w rest Hq1 Hw1) as [Hd _].
    destruct (publish_all s1 ps) as [s2 os]. simpl in *.
    rewrite deliveries_app, Hd, app_nil_r.
    apply deliveries_absent. rewrite filter_In. intros [_ H]. congruence.
Qed.

Lemma until_failure_all w ps :
  forallb (fun p => p.1 w) ps = true -> until_failure w ps = map snd ps.
Proof.
  induction ps as [|[ok l] ps IH]; simpl; [reflexivity|].
  intros H. apply andb_true_iff in H as [H1 H2]. rewrite H1, IH by exact H2.
  reflexivity.
Qed.

(** Successive publishes are a run of the server. *)
Lemma publish_all_run ps : forall s,
  exists es,
    publish_all s ps = run s es /\
    Forall (fun e => match e with RunTask _ | Resume _ _ => True | _ => False end) es.
Proof.
  induction ps as [|p ps IH]; intros s; simpl.
  - exists []. split; [reflexivity|constructor].
  - unfold publish at 1.
    set (es1 := uninterrupted _ _).
    destruct (IH (fst (run s es1))) as (es2 & Heq & Hes2).
    exists (es1 ++ es2). split.
    + rewrite run_app. destruct (run s es1) as [s1 o1]. simpl in *.
      rewrite Heq. destruct (run s1 es2). reflexivity.
    + apply Forall_app. split; [|exact Hes2].
      subst es1. unfold uninterrupted.
      destruct (map p.1 (websocket_clients s)) as [|o oks];
        [repeat constructor|].
      constructor; [exact I|]. apply Forall_app. split; [|repeat constructor].
      apply Forall_forall. intros e He.
      apply list_elem_of_In, in_map_iff in He as (x & <- & _). exact I.
Qed.

(** X18.  Publishes that do not overlap deliver as a hub should.  When
    each broadcast task runs to its end before anything else happens,
    over any sequence of events published to a registry without repeated
    entries, a client receives the frames of the events published before
    its first failed write, each once and in publication order, and
    nothing afterwards; a client whose writes all succeed receives every
    event and stays registered; a client with a failed write is no longer
    registered; the clients that remain keep their order.  These publishes
    are a run of the server, made of task starts and resumptions only. *)
Theorem sequential_publishes_deliver s (ps : list ((nat -> bool) * positive))
    (rest : list (option positive)) (w : nat) :
  List.NoDup (websocket_clients s) ->
  In w (websocket_clients s) ->
  tasks s = map (fun p => Some p.2) ps ++ rest ->
  Forall (fun p => is_Some (objects s !! p.2)) ps ->
  let s' := fst (publish_all s ps) in
  let obs := snd (publish_all s ps) in
  (exists es,
      publish_all s ps = run s es /\
      Forall (fun e => match e with RunTask _ | Resume _ _ => True | _ => False end)
             es) /\
  deliveries w obs = flat_map (frame_at (objects s)) (until_failure w ps) /\
  websocket_clients s' =
    List.filter (fun c => forallb (fun p => p.1 c) ps) (websocket_clients s) /\
  (forallb (fun p => p.1 w) ps = true ->
     until_failure w ps = map snd ps /\ In w (websocket_clients s')) /\
  (forallb (fun p => p.1 w) ps = false -> ~ In w (websocket_clients s')) /\
  tasks s' = rest /\ broadcasts s' = broadcasts s.
Proof.
  intros Hnd Hw Ht Ho s' obs.
  assert (Hq : queued s ps rest) by (split; assumption).
  destruct (publish_all_state ps s rest Hq) as (Hclients & _ & Htasks & Hb).
  split; [apply publish_all_run|].
  split; [eapply publish_all_deliveries; eassumption|].
  split; [exact Hclients|]. split; [|split; [|split; assumption]].
  - intros Hall. split; [apply until_failure_all; exact Hall|].
    subst s'. rewrite Hclients. apply filter_In. split; assumption.
  - intros Hfail. subst s'. rewrite Hclients, filter_In. intros [_ H]. congruence.
Qed.

End Sequential.

(** ** What the datagram handlers accept *)

(** Every character of the string passes the test. *)
Fixpoint string_forall (p : ascii -> bool) (s : string) : bool :=
  match s with
  | EmptyString => true
  | String c s' => p c && string_forall p s'
  end.

Definition is_ascii (c : ascii) : bool := (nat_of_ascii c <? 128)%nat.

(** An ASCII character that is not white space. *)
Definition solid (c : ascii) : bool := is_ascii c && negb (is_space c).

Definition not_colon (c : ascii) : bool := negb (Ascii.eqb c ":").

Section StripFacts.

Lemma append_cons (x : ascii) (a b : string) :
  (String x a ++ b = String x (a ++ b))%string.
Proof. reflexivity. Qed.

Lemma append_empty (b : string) : (EmptyString ++ b = b)%string.
Proof. reflexivity. Qed.

Lemma string_app_assoc (a b c : string) :
  ((a ++ b) ++ c = a ++ (b ++ c))%string.
Proof.
  induction a as [|x a IH]; [reflexivity|].
  rewrite !append_cons. f_equal. exact IH.
Qed.

Lemma string_rev_acc (s acc : string) :
  string_rev s acc = (string_rev s EmptyString ++ acc)%string.
Proof.
  revert acc. induction s as [|c s IH]; intros acc; simpl.
  - reflexivity.
  - rewrite (IH (String c acc)), (IH (String c EmptyString)).
    rewrite string_app_assoc. reflexivity.
Qed.

Lemma string_rev_snoc (a : string) (c : ascii) :
  string_rev (a ++ String c EmptyString) EmptyString =
  String c (string_rev a EmptyString).
Proof.
  assert (H : forall acc,
    string_rev (a ++ String c EmptyString) acc = String c (string_rev a acc)).
  { induction a as [|x a IH]; intros acc; [reflexivity|].
    rewrite append_cons. simpl. apply IH. }
  apply H.
Qed.

Lemma string_rev_rev (s : string) : forall acc,
  string_rev (string_rev s acc) EmptyString =
  (string_rev acc EmptyString ++ s)%string.
Proof.
  induction s as [|c s IH]; intros acc; simpl.
  - clear. induction (string_rev acc EmptyString) as [|x a IH]; [reflexivity|].
    rewrite append_cons. f_equal. exact IH.
  - rewrite IH. simpl. rewrite (string_rev_acc acc (String c EmptyString)).
    rewrite string_app_assoc. reflexivity.
Qed.

Lemma string_rev_forall (p : ascii -> bool) (s : string) : forall acc,
  string_forall p s = true -> string_forall p acc = true ->
  string_forall p (string_rev s acc) = true.
Proof.
  induction s as [|c s IH]; intros acc Hs Hacc; simpl in *; [exact Hacc|].
  apply andb_true_iff in Hs as [Hc Hs]. apply IH; [exact Hs|].
  simpl. rewrite Hc. exact Hacc.
Qed.

(** A byte below 128 is not part of a longer character. *)
Lemma ascii_in_range (c : ascii) (lo hi : nat) :
  is_ascii c = true -> (128 <= lo)%nat -> in_range lo hi c = false.
Proof.
  unfold is_ascii, in_range. intros Hc Hlo. apply Nat.ltb_lt in Hc.
  destruct (Nat.leb_spec lo (nat_of_ascii c)); [lia|reflexivity].
Qed.

Lemma ascii_is_space2 (c x : ascii) :
  is_ascii c = true -> is_space2 c x = false /\ is_space2 x c = false.
Proof.
  intros Hc. unfold is_space2.
  rewrite !(ascii_in_range c) by (exact Hc || lia).
  split; [reflexivity|]. apply andb_false_r.
Qed.

Lemma ascii_is_space3 (c x y : ascii) :
  is_ascii c = true -> is_space3 c x y = false /\ is_space3 x y c = false.
Proof.
  intros Hc. unfold is_space3.
  rewrite !(ascii_in_range c) by (exact Hc || lia).
  split; [reflexivity|]. simpl. rewrite !andb_false_r. reflexivity.
Qed.

(** A first character that is not white space ends the stripping. *)
Lemma lstrip_by_head p2 p3 (c : ascii) (s : string) :
  is_space c = false -> (forall b, p2 c b = false) ->
  (forall b d, p3 c b d = false) ->
  lstrip_by p2 p3 (String c s) = String c s.
Proof.
  intros Hc H2 H3. simpl. rewrite Hc.
  destruct s as [|b s2]; [reflexivity|]. rewrite H2.
  destruct s2 as [|d s3]; [reflexivity|]. rewrite H3. reflexivity.
Qed.

(** A last character that is not white space is kept. *)
Lemma lstrip_by_snoc p2 p3 (c : ascii) :
  is_space c = false -> (forall x, p2 x c = false) ->
  (forall x y, p3 x y c = false) ->
  forall a, exists a',
    lstrip_by p2 p3 (a ++ String c EmptyString) = (a' ++ String c EmptyString)%string.
Proof.
  intros Hc H2 H3.
  assert (Hbase : lstrip_by p2 p3 (String c EmptyString) = String c EmptyString).
  { simpl. rewrite Hc. reflexivity. }
  assert (H : forall n a, (String.length a <= n)%nat -> exists a',
    lstrip_by p2 p3 (a ++ String c EmptyString) = (a' ++ String c EmptyString)%string).
  { induction n as [|n IH]; intros a Hn.
    - destruct a; [|simpl in Hn; lia]. exists EmptyString. exact Hbase.
    - destruct a as [|x a]; [exists EmptyString; exact Hbase|].
      simpl in Hn. rewrite append_cons. cbn [lstrip_by].
      destruct (is_space x); [apply IH; lia|].
      destruct a as [|y a].
      + rewrite append_empty, H2. exists (String x EmptyString). reflexivity.
      + simpl in Hn. rewrite append_cons.
        destruct (p2 x y); [apply IH; lia|].
        destruct a as [|z a].
        * rewrite append_empty, H3.
          exists (String x (String y EmptyString)). reflexivity.
        * simpl in Hn. rewrite append_cons.
          destruct (p3 x y z); [apply IH; lia|].
          exists (String x (String y (String z a))). reflexivity. }
  intros a. apply (H (String.length a)). lia.
Qed.

(** [strip] keeps a first character that is ASCII and not white space. *)
Lemma strip_first (c : ascii) (rest : string) :
  is_ascii c = true -> is_space c = false ->
  exists rest', strip (String c rest) = String c rest'.
Proof.
  intros Ha Hc. unfold strip, lstrip.
  rewrite lstrip_by_head;
    [|exact Hc|intros b; apply (ascii_is_space2 c b Ha)
     |intros b d; apply (ascii_is_space3 c b d Ha)].
  unfold rstrip. simpl string_rev at 2.
  rewrite (string_rev_acc rest (String c EmptyString)).
  destruct (lstrip_by_snoc (fun b a => is_space2 a b)
              (fun d b a => is_space3 a b d) c Hc
              (fun x => proj1 (ascii_is_space2 c x Ha))
              (fun x y => proj1 (ascii_is_space3 c y x Ha))
              (string_rev rest EmptyString)) as [a' ->].
  rewrite string_rev_snoc. eauto.
Qed.

(** [strip] leaves a text of ASCII characters without white space as it
    is, and such a text decodes to itself. *)
Lemma strip_solid (s : string) :
  string_forall solid s = true -> strip s = s.
Proof.
  intros Hs.
  assert (Hhead : forall p2 p3 t,
    (forall c x, is_ascii c = true -> p2 c x = false) ->
    (forall c x y, is_ascii c = true -> p3 c x y = false) ->
    string_forall solid t = true -> lstrip_by p2 p3 t = t).
  { intros p2 p3 [|c t] H2 H3 Ht; [reflexivity|]. simpl in Ht.
    apply andb_true_iff in Ht as [Hc _]. unfold solid in Hc.
    apply andb_true_iff in Hc as [Ha Hsp]. apply negb_true_iff in Hsp.
    apply lstrip_by_head; [exact Hsp|intros b; apply H2, Ha
                          |intros b d; apply H3, Ha]. }
  unfold strip, lstrip. rewrite Hhead;
    [|intros c x Ha; apply (ascii_is_space2 c x Ha)
     |intros c x y Ha; apply (ascii_is_space3 c x y Ha)|exact Hs].
  unfold rstrip. rewrite Hhead;
    [|intros c x Ha; apply (ascii_is_space2 c x Ha)
     |intros c x y Ha; apply (ascii_is_space3 c y x Ha)
     |apply string_rev_forall; [exact Hs|reflexivity]].
  rewrite string_rev_rev. reflexivity.
Qed.

Lemma valid_utf8_ascii (s : string) :
  string_forall is_ascii s = true -> valid_utf8 s = true.
Proof.
  induction s as [|c s IH]; [reflexivity|]. simpl. intros H.
  apply andb_true_iff in H as [Hc Hs]. unfold is_ascii in Hc.
  apply Nat.ltb_lt in Hc. unfold in_range.
  destruct (Nat.leb_spec (nat_of_ascii c) 127); [|lia].
  simpl. apply IH, Hs.
Qed.

Lemma string_forall_impl (p q : ascii -> bool) (s : string) :
  (forall c, p c = true -> q c = true) ->
  string_forall p s = true -> string_forall q s = true.
Proof.
  intros Hpq. induction s as [|c s IH]; [reflexivity|]. simpl. intros H.
  apply andb_true_iff in H as [Hc Hs]. rewrite (Hpq c Hc), (IH Hs). reflexivity.
Qed.

Lemma decode_solid (s : string) :
  string_forall solid s = true -> decode s = Some s.
Proof.
  intros Hs. unfold decode. rewrite valid_utf8_ascii; [reflexivity|].
  apply (string_forall_impl solid); [|exact Hs].
  intros c Hc. apply andb_true_iff in Hc as [Ha _]. exact Ha.
Qed.

Lemma split_not_colon (s : string) :
  string_forall not_colon s = true -> split ":" s = [s].
Proof.
  induction s as [|c s IH]; simpl; [reflexivity|].
  unfold not_colon at 1. intros H. apply andb_true_iff in H as [Hc Hs].
  destruct (Ascii.eqb c ":"); [discriminate|]. rewrite (IH Hs). reflexivity.
Qed.

End StripFacts.

Section Datagrams.
Context {RT : Runtime}.
Implicit Types (s : Server).

Lemma floats_of_length (xs : list string) (vs : list float) :
  floats_of xs = Some vs -> length vs = length xs.
Proof.
  revert vs. induction xs as [|x xs IH]; intros vs H; simpl in H.
  - injection H as <-. reflexivity.
  - destruct (py_float x) as [v|]; simpl in H; [|discriminate].
    destruct (floats_of xs) as [vs'|]; simpl in H; [|discriminate].
    injection H as <-. simpl. f_equal. apply IH. reflexivity.
Qed.

Lemma slice_1_65_length (parts : list string) :
  length (slice_1_65 parts) = Nat.min 64 (length parts - 1).
Proof. unfold slice_1_65. rewrite length_take, length_drop. reflexivity. Qed.

Lemma esp8266_datagram_received_accept s (now : float) (data text : string)
    (n : Z) e m :
  decode data = Some text ->
  startswith (strip text) "RSS:" = true ->
  py_int (nth 1 (split ":" (strip text)) EmptyString) = Some n ->
  ml_engine s = Some e -> esp8266 e = Some m ->
  let s' := esp8266_datagram_received s now data in
  let l := fresh (dom (objects s)) in
  ml_engine s' = Some (set_esp8266 (Some (fst (process_rssi m now n))) e) /\
  (forall r, snd (process_rssi m now n) = Some r ->
     objects s' = <[l := r]> (objects s) /\ tasks s' = tasks s ++ [Some l]) /\
  (snd (process_rssi m now n) = None ->
     objects s' = objects s /\ tasks s' = tasks s).
Proof.
  intros Hdec H1 H2 H3 H4 s' l. subst s'. unfold esp8266_datagram_received.
  rewrite Hdec, H1, H2, H3. unfold process_esp8266_rssi. rewrite H4.
  destruct (process_rssi m now n) as [m' [r|]]; simpl.
  - split; [reflexivity|]. split; [|discriminate].
    intros r0 Hr. injection Hr as <-. auto.
  - split; [reflexivity|]. split; [discriminate|auto].
Qed.

(** What the handler never touches. *)
Lemma esp8266_datagram_received_frame s (now : float) (data : string) :
  let s' := esp8266_datagram_received s now data in
  CONFIG s' = CONFIG s /\ websocket_clients s' = websocket_clients s /\
  latest_detection s' = latest_detection s /\ broadcasts s' = broadcasts s /\
  (tasks s' = tasks s \/ exists t, tasks s' = tasks s ++ [t]).
Proof.
  unfold esp8266_datagram_received.
  destruct (decode data); [|simpl; auto 6].
  destruct (startswith _ _); [|simpl; auto 6].
  destruct (py_int _); [|simpl; auto 6].
  destruct (ml_engine s); [|simpl; auto 6].
  destruct (process_esp8266_rssi _ _ _) as [e' [[r|]|]]; simpl;
    repeat split; eauto.
Qed.

(** X12.  The coarse-signal handler does nothing when the datagram is not
    well-formed UTF-8 (the decoding raises), when the decoded and stripped
    text does not start with "RSS:", when the text between the first and
    the second colon is not an integer for [int()], and when there is no
    engine.  Otherwise it pushes that integer into the adapter's window;
    when the adapter returns an event, it stores the event and schedules
    one broadcast of it, and when the adapter raises, nothing else
    happens.  A broadcast is scheduled in exactly these cases.  The
    handler touches neither the registry nor [latest_detection]; in
    particular it does nothing for a datagram whose first byte is ASCII,
    not white space and not "R", such as the raw-packet monitor's
    "WIFI:..." messages. *)
Theorem esp8266_datagram_received_effect s (now : float) (data : string) :
  let s' := esp8266_datagram_received s now data in
  let l := fresh (dom (objects s)) in
  (decode data = None -> s' = s) /\
  (forall text,
      decode data = Some text ->
      let message := strip text in
      let payload := nth 1 (split ":" message) EmptyString in
      (startswith message "RSS:" = false \/ py_int payload = None \/
       ml_engine s = None -> s' = s) /\
      (forall n e m,
          startswith message "RSS:" = true -> py_int payload = Some n ->
          ml_engine s = Some e -> esp8266 e = Some m ->
          ml_engine s' =
            Some (set_esp8266 (Some (fst (process_rssi m now n))) e) /\
          (forall r, snd (process_rssi m now n) = Some r ->
             objects s' = <[l := r]> (objects s) /\
             tasks s' = tasks s ++ [Some l]) /\
          (snd (process_rssi m now n) = None ->
             objects s' = objects s /\ tasks s' = tasks s))) /\
  (tasks s' <> tasks s <->
   exists text n e,
     decode data = Some text /\
     startswith (strip text) "RSS:" = true /\
     py_int (nth 1 (split ":" (strip text)) EmptyString) = Some n /\
     ml_engine s = Some e /\
     (forall m, esp8266 e = Some m -> is_Some (snd (process_rssi m now n)))) /\
  CONFIG s' = CONFIG s /\
  websocket_clients s' = websocket_clients s /\
  latest_detection s' = latest_detection s /\
  broadcasts s' = broadcasts s /\
  (forall c rest,
      data = String c rest -> is_ascii c = true -> is_space c = false ->
      c <> "R"%char -> s' = s).
Proof.
  intros s' l.
  assert (Hraise : decode data = None -> s' = s).
  { intros H. subst s'. unfold esp8266_datagram_received. rewrite H. reflexivity. }
  assert (Hdrop : forall text, decode data = Some text ->
            startswith (strip text) "RSS:" = false \/
            py_int (nth 1 (split ":" (strip text)) EmptyString) = None \/
            ml_engine s = None -> s' = s).
  { intros text Hdec H. subst s'. unfold esp8266_datagram_received. rewrite Hdec.
    destruct (startswith (strip text) "RSS:"); [|reflexivity].
    destruct (py_int _); [|reflexivity].
    destruct (ml_engine s); [|reflexivity].
    destruct H as [H|[H|H]]; discriminate. }
  assert (Hgrow : forall (t : list (option positive)) x, t ++ [x] <> t).
  { intros t x H. apply (f_equal (@length _)) in H. rewrite length_app in H.
    simpl in H. lia. }
  split; [exact Hraise|]. split; [|split].
  - intros text Hdec message payload. split; [apply Hdrop; exact Hdec|].
    intros n e m H1 H2 H3 H4.
    apply (esp8266_datagram_received_accept s now data text n e m);
      assumption.
  - split.
    + intros Hne.
      destruct (decode data) as [text|] eqn:Hdec;
        [|exfalso; apply Hne; f_equal; apply Hraise; reflexivity].
      destruct (startswith (strip text) "RSS:") eqn:H1;
        [|exfalso; apply Hne; f_equal; apply (Hdrop text); auto].
      destruct (py_int (nth 1 (split ":" (strip text)) EmptyString))
        as [n|] eqn:H2;
        [|exfalso; apply Hne; f_equal; apply (Hdrop text); auto].
      destruct (ml_engine s) as [e|] eqn:H3;
        [|exfalso; apply Hne; f_equal; apply (Hdrop text); auto].
      exists text, n, e. repeat (split; [assumption || reflexivity|]).
      intros m Hm.
      destruct (esp8266_datagram_received_accept s now data text n e m
                  Hdec H1 H2 H3 Hm) as (_ & _ & Hnone).
      destruct (snd (process_rssi m now n)) as [r|]; [eauto|].
      destruct (Hnone eq_refl) as [_ Ht]. fold s' in Ht. congruence.
    + intros (text & n & e & Hdec & H1 & H2 & H3 & Hsome).
      destruct (esp8266 e) as [m|] eqn:Hm.
      * destruct (esp8266_datagram_received_accept s now data text n e m
                    Hdec H1 H2 H3 Hm) as (_ & Hret & _).
        destruct (Hsome m eq_refl) as [r Hr].
        destruct (Hret r Hr) as [_ Ht]. fold s' in Ht. rewrite Ht.
        apply Hgrow.
      * subst s'. unfold esp8266_datagram_received.
        rewrite Hdec, H1, H2, H3. unfold process_esp8266_rssi. rewrite Hm.
        simpl. apply Hgrow.
  - destruct (esp8266_datagram_received_frame s now data)
      as (A & B & C & D & _). fold s' in A, B, C, D.
    repeat (split; [assumption|]).
    intros c rest -> Ha Hc HR.
    destruct (decode (String c rest)) as [text|] eqn:Hdec;
      [|apply Hraise; reflexivity].
    apply (Hdrop text eq_refl). left.
    assert (text = String c rest) as ->.
    { unfold decode in Hdec. destruct (valid_utf8 _); congruence. }
    destruct (strip_first c rest Ha Hc) as [rest' ->].
    unfold startswith.
    change (String.prefix "RSS:" (String c rest'))
      with (if Ascii.ascii_dec "R" c then String.prefix "SS:" rest' else false).
    destruct (Ascii.ascii_dec "R" c) as [Heq|Hne]; [congruence|reflexivity].
Qed.

Lemma esp32_datagram_received_accept s (now : float) (data text : string)
    v e m :
  decode data = Some text ->
  let parts := split "," (strip text) in
  (64 <= length parts)%nat -> floats_of (slice_1_65 parts) = Some v ->
  ml_engine s = Some e -> esp32 e = Some m ->
  let s' := esp32_datagram_received s now data in
  ml_engine s' = Some (set_esp32 (Some (fst (process_csi m now v))) e) /\
  csi_data (snd (process_csi m now v)) = Some v /\
  objects s' =
    <[fresh (dom (objects s)) := snd (process_csi m now v)]> (objects s) /\
  tasks s' = tasks s ++ [Some (fresh (dom (objects s)))].
Proof.
  intros Hdec parts H1 H2 H3 H4 s'. subst s'. unfold esp32_datagram_received.
  rewrite Hdec. fold parts.
  destruct (Nat.leb_spec 64 (length parts)); [|lia]. rewrite H2, H3.
  unfold process_esp32_csi. rewrite H4. simpl. auto.
Qed.

(** X13.  The fine-signal handler changes the server exactly when the
    datagram is well-formed UTF-8, the decoded and stripped text has at
    least 64 comma-separated fields, each of the fields 2 to 65 that exist
    is a number for [float()], and the engine exists.  The vector it then
    hands to the adapter has 63 entries when there are exactly 64 fields
    and 64 entries otherwise.  Among well-formed datagrams the outcome
    depends on the field-count test and on the fields 2 to 65 only: the
    timestamp field is never parsed, and fields past the 65th are
    ignored. *)
Theorem esp32_datagram_received_effect s (now : float) (data : string) :
  let s' := esp32_datagram_received s now data in
  (s' = s <->
   decode data = None \/
   exists text,
     decode data = Some text /\
     ((length (split "," (strip text)) < 64)%nat \/
      floats_of (slice_1_65 (split "," (strip text))) = None \/
      ml_engine s = None)) /\
  (forall text v e m,
      decode data = Some text ->
      let parts := split "," (strip text) in
      (64 <= length parts)%nat -> floats_of (slice_1_65 parts) = Some v ->
      ml_engine s = Some e -> esp32 e = Some m ->
      length v = (if (length parts =? 64)%nat then 63 else 64)%nat /\
      ml_engine s' = Some (set_esp32 (Some (fst (process_csi m now v))) e) /\
      csi_data (snd (process_csi m now v)) = Some v /\
      objects s' =
        <[fresh (dom (objects s)) := snd (process_csi m now v)]> (objects s) /\
      tasks s' = tasks s ++ [Some (fresh (dom (objects s)))]) /\
  (forall text data' text',
      decode data = Some text -> decode data' = Some text' ->
      let parts := split "," (strip text) in
      let parts' := split "," (strip text') in
      (64 <=? length parts')%nat = (64 <=? length parts)%nat ->
      slice_1_65 parts' = slice_1_65 parts ->
      esp32_datagram_received s now data' = s').
Proof.
  intros s'.
  assert (Hgrow : forall text v e, decode data = Some text ->
            (64 <= length (split "," (strip text)))%nat ->
            floats_of (slice_1_65 (split "," (strip text))) = Some v ->
            ml_engine s = Some e ->
            length (tasks s') = S (length (tasks s))).
  { intros text v e Hdec H1 H2 H3. subst s'. unfold esp32_datagram_received.
    rewrite Hdec.
    destruct (Nat.leb_spec 64 (length (split "," (strip text)))); [|lia].
    rewrite H2, H3.
    destruct (process_esp32_csi e now v) as [e' [r|]]; simpl;
      rewrite length_app; simpl; lia. }
  split; [|split].
  - split.
    + intros Heq. destruct (decode data) as [text|] eqn:Hdec; [|auto].
      right. exists text. split; [reflexivity|].
      destruct (Nat.leb_spec 64 (length (split "," (strip text)))) as [H1|H1];
        [|auto].
      destruct (floats_of (slice_1_65 (split "," (strip text)))) as [v|] eqn:H2;
        [|auto].
      destruct (ml_engine s) as [e|] eqn:H3; [|auto].
      pose proof (Hgrow text v e eq_refl H1 H2 eq_refl) as Hlen.
      rewrite Heq in Hlen. lia.
    + intros H. subst s'. unfold esp32_datagram_received.
      destruct H as [->|(text & -> & H)]; [reflexivity|].
      destruct (Nat.leb_spec 64 (length (split "," (strip text)))) as [H1|H1];
        [|reflexivity].
      destruct (floats_of (slice_1_65 (split "," (strip text)))); [|reflexivity].
      destruct (ml_engine s); [|reflexivity].
      destruct H as [H|[H|H]]; [lia|discriminate|discriminate].
  - intros text v e m Hdec parts H1 H2 H3 H4. split.
    + rewrite (floats_of_length _ _ H2), slice_1_65_length.
      destruct (Nat.eqb_spec (length parts) 64); lia.
    + apply (esp32_datagram_received_accept s now data text v e m Hdec H1 H2 H3 H4).
  - intros text data' text' Hdec Hdec' parts parts' Hlen Hslice. subst s'.
    unfold esp32_datagram_received. rewrite Hdec, Hdec'.
    fold parts' parts. rewrite Hlen, Hslice. reflexivity.
Qed.

End Datagrams.

(** ** What a frame tells about the event *)

Section Frames.
Context {RT : Runtime}.

(** An event with its absent lists read as empty ones, as
    [result.bboxes or []] reads them. *)
Definition with_empty_lists (d : DetectionResult) : DetectionResult :=
  mkDetectionResult (timestamp d) (source d) (motion_detected d) (confidence d)
    (Some (default [] (bboxes d))) (Some (default [] (class_ids d)))
    (Some (default [] (class_names d))) (Some (default [] (tracking_ids d)))
    (Some (default [] (poses d))) (rssi d) (rssi_variance d)
    (Some (default [] (csi_data d))) (activity d) (activity_confidence d)
    (out_of_frame d) (handoff_active d).

Lemma source_value_inj (a b : TrackingSource) :
  source_value a = source_value b -> a = b.
Proof. destruct a, b; simpl; intros H; try reflexivity; discriminate H. Qed.

(** X14.  The frame of an event loses one thing only: whether a list was
    absent or empty.  Two events have the same frame exactly when they
    agree on every field once absent lists are read as empty; an event
    and its reading with empty lists have the same frame. *)
Theorem serialize_detection_result_faithful (d1 d2 : DetectionResult) :
  (serialize_detection_result d1 = serialize_detection_result d2 <->
   with_empty_lists d1 = with_empty_lists d2) /\
  serialize_detection_result (with_empty_lists d1) = serialize_detection_result d1.
Proof.
  split; [|reflexivity].
  destruct d1, d2. unfold serialize_detection_result, with_empty_lists. simpl.
  split; intros H; injection H; intros; subst.
  - repeat match goal with
           | H : source_value _ = source_value _ |- _ =>
               apply source_value_inj in H; subst
           | H : default [] _ = default [] _ |- _ => rewrite H; clear H
           end.
    reflexivity.
  - repeat match goal with
           | H : default [] _ = default [] _ |- _ => rewrite H; clear H
           end.
    reflexivity.
Qed.

End Frames.

(** ** The training-data collector ([backend/collect_csi_data.py], lines 18-99)

    The collector listens on the fine-signal port with its own handler.
    [start_time] is assigned before the listener is created. *)

Section Collector.
Context {RT : Runtime}.

Record CsiSample := {
  sample_timestamp : float;
  sample_label : string;
  sample_csi : list float
}.

Record CSIDataCollector := {
  collector_label : string;
  samples : list CsiSample;
  start_time : float
}.

Definition add_sample (self : CSIDataCollector) (now : float)
    (csi : list float) : CSIDataCollector :=
  {| collector_label := collector_label self;
     samples := samples self ++
       [{| sample_timestamp := f_sub now (start_time self);
           sample_label := collector_label self;
           sample_csi := csi |}];
     start_time := start_time self |}.

(** [UDPProtocol.datagram_received]: the decoding stands before the
    [try], and every exception raised inside it is swallowed. *)
Definition collector_datagram_received (self : CSIDataCollector)
    (now : float) (data : string) : CSIDataCollector :=
  match decode data with
  | Some text =>
      let message := strip text in
      let parts := split "," message in
      if (65 <=? length parts)%nat then
        match py_float (nth 0 parts EmptyString) with
        | Some timestamp =>
            match floats_of (slice_1_65 parts) with
            | Some csi_data => add_sample self now csi_data
            | None => self
            end
        | None => self
        end
      else self
  | None => self
  end.

Definition collector_run (self : CSIDataCollector)
    (datagrams : list (float * string)) : CSIDataCollector :=
  fold_left (fun c d => collector_datagram_received c d.1 d.2) datagrams self.

Lemma collector_datagram_received_cases (self : CSIDataCollector) now data :
  collector_datagram_received self now data = self \/
  exists text t v,
    decode data = Some text /\
    (65 <= length (split "," (strip text)))%nat /\
    py_float (nth 0 (split "," (strip text)) EmptyString) = Some t /\
    floats_of (slice_1_65 (split "," (strip text))) = Some v /\
    length v = 64 /\
    collector_datagram_received self now data = add_sample self now v.
Proof.
  unfold collector_datagram_received.
  destruct (decode data) as [text|]; [|left; reflexivity].
  destruct (Nat.leb_spec 65 (length (split "," (strip text)))) as [Hlen|Hlen];
    [|left; reflexivity].
  destruct (py_float _) as [t|] eqn:Ht; [|left; reflexivity].
  destruct (floats_of _) as [v|] eqn:Hv; [|left; reflexivity].
  right. exists text, t, v. repeat split; try assumption.
  rewrite (floats_of_length _ _ Hv), slice_1_65_length. lia.
Qed.

(** X15.  The collector only ever stores vectors of 64 amplitudes.  Over
    any sequence of datagrams the samples stored before stay as they are,
    at most one sample is added per datagram, every added sample has
    exactly 64 values and the collector's label; a datagram is stored only
    if it is well-formed UTF-8 and has at least 65 fields with a numeric
    timestamp and numeric fields 2 to 65, and then the server's
    fine-signal handler accepts it too, with the same vector. *)
Theorem collector_stores_64 (self : CSIDataCollector)
    (datagrams : list (float * string)) :
  let self' := collector_run self datagrams in
  (exists added,
      samples self' = samples self ++ added /\
      (length added <= length datagrams)%nat /\
      Forall (fun x => length (sample_csi x) = 64 /\
                       sample_label x = collector_label self) added) /\
  collector_label self' = collector_label self /\
  start_time self' = start_time self /\
  (forall now data,
      collector_datagram_received self now data <> self ->
      exists text v, decode data = Some text /\ length v = 64 /\
        floats_of (slice_1_65 (split "," (strip text))) = Some v /\
        (64 <= length (split "," (strip text)))%nat /\
        forall (s : Server) e m t,
          ml_engine s = Some e -> esp32 e = Some m ->
          ml_engine (esp32_datagram_received s t data) =
          Some (set_esp32 (Some (fst (process_csi m t v))) e)).
Proof.
  assert (Hcons : forall c now data rest,
            collector_run c ((now, data) :: rest) =
            collector_run (collector_datagram_received c now data) rest)
    by reflexivity.
  intros self'. split; [|split; [|split]].
  - subst self'. revert self.
    induction datagrams as [|[now data] rest IH]; intros self.
    + exists []. rewrite app_nil_r. split; [reflexivity|].
      split; [simpl; lia|constructor].
    + rewrite Hcons.
      destruct (collector_datagram_received_cases self now data)
        as [Heq|(text & t & v & _ & _ & _ & _ & Hlen & Heq)]; rewrite Heq.
      * destruct (IH self) as (added & H1 & H2 & H3).
        exists added. split; [exact H1|]. split; [simpl; lia|exact H3].
      * destruct (IH (add_sample self now v)) as (added & H1 & H2 & H3).
        exists ({| sample_timestamp := f_sub now (start_time self);
                   sample_label := collector_label self;
                   sample_csi := v |} :: added).
        split; [rewrite H1; simpl; rewrite <- app_assoc; reflexivity|].
        split; [simpl; lia|]. constructor; [split; [exact Hlen|reflexivity]|exact H3].
  - subst self'. revert self.
    induction datagrams as [|[now data] rest IH]; intros self; [reflexivity|].
    rewrite Hcons, IH.
    destruct (collector_datagram_received_cases self now data)
      as [Heq|(text & t & v & _ & _ & _ & _ & _ & Heq)]; rewrite Heq;
      reflexivity.
  - subst self'. revert self.
    induction datagrams as [|[now data] rest IH]; intros self; [reflexivity|].
    rewrite Hcons, IH.
    destruct (collector_datagram_received_cases self now data)
      as [Heq|(text & t & v & _ & _ & _ & _ & _ & Heq)]; rewrite Heq;
      reflexivity.
  - intros now data Hne.
    destruct (collector_datagram_received_cases self now data)
      as [Heq|(text & t & v & Hdec & Hlen & _ & Hv & Hl & _)]; [congruence|].
    exists text, v. split; [exact Hdec|]. split; [exact Hl|].
    split; [exact Hv|]. split; [lia|].
    intros s e m t0 He Hm.
    apply (esp32_datagram_received_accept s t0 data text v e m);
      try assumption. lia.
Qed.

End Collector.

(** ** The simulator's messages ([scripts/simulate_esp.py], line 26)

    The simulator sends [f"RSS:{int(rssi)}"]: the decimal form of a
    Python integer after the tag. *)

(** [str(n)] for an [int]. *)
Definition py_str_int (n : Z) : string := NilZero.string_of_int (Z.to_int n).

Definition rss_message (n : Z) : string := ("RSS:" ++ py_str_int n)%string.

Section SimulatorFacts.

Lemma string_forall_uint (p : ascii -> bool) (d : Decimal.uint) :
  p "0"%char = true -> p "1"%char = true -> p "2"%char = true ->
  p "3"%char = true -> p "4"%char = true -> p "5"%char = true ->
  p "6"%char = true -> p "7"%char = true -> p "8"%char = true ->
  p "9"%char = true ->
  string_forall p (NilEmpty.string_of_uint d) = true.
Proof.
  intros H0 H1 H2 H3 H4 H5 H6 H7 H8 H9.
  induction d; simpl; rewrite ?H0, ?H1, ?H2, ?H3, ?H4, ?H5, ?H6, ?H7, ?H8, ?H9;
    auto.
Qed.

Lemma string_forall_py_str_int (p : ascii -> bool) (n : Z) :
  p "-"%char = true ->
  p "0"%char = true -> p "1"%char = true -> p "2"%char = true ->
  p "3"%char = true -> p "4"%char = true -> p "5"%char = true ->
  p "6"%char = true -> p "7"%char = true -> p "8"%char = true ->
  p "9"%char = true ->
  string_forall p (py_str_int n) = true.
Proof.
  intros Hm H0 H1 H2 H3 H4 H5 H6 H7 H8 H9.
  assert (Hu : forall d, string_forall p (NilZero.string_of_uint d) = true).
  { intros d. unfold NilZero.string_of_uint.
    destruct d; try (apply string_forall_uint; assumption).
    simpl. rewrite H0. reflexivity. }
  unfold py_str_int, NilZero.string_of_int.
  destruct (Z.to_int n) as [d|d]; [apply Hu|].
  simpl. rewrite Hm. apply Hu.
Qed.

Lemma rss_message_parts (n : Z) :
  decode (rss_message n) = Some (rss_message n) /\
  strip (rss_message n) = rss_message n /\
  startswith (rss_message n) "RSS:" = true /\
  nth 1 (split ":" (rss_message n)) EmptyString = py_str_int n.
Proof.
  assert (Hsolid : string_forall solid (rss_message n) = true).
  { unfold rss_message.
    change (string_forall solid (py_str_int n) = true).
    apply string_forall_py_str_int; reflexivity. }
  split; [apply decode_solid, Hsolid|].
  split; [apply strip_solid, Hsolid|]. split.
  - unfold startswith, rss_message. apply String.prefix_correct.
    simpl. destruct (py_str_int n); reflexivity.
  - unfold rss_message.
    change (nth 1 ("RSS"%string :: split ":" (py_str_int n)) EmptyString
            = py_str_int n).
    rewrite split_not_colon by (apply string_forall_py_str_int; reflexivity).
    reflexivity.
Qed.

End SimulatorFacts.

Section Simulator.
Context {RT : Runtime}.

(** X16.  Every message the simulator can send is decoded to the integer
    it encodes.  For an integer [n] that [int()] reads back from its own
    decimal form, the handler reads "RSS:" followed by that form as [n]
    and pushes [n] into the coarse-signal window.  When the adapter
    returns an event, the event carries [float(n)] as its raw value, is
    stored and has its broadcast scheduled; when the adapter raises, as it
    does for an [n] that has no float, no event is stored and no
    broadcast is scheduled. *)
Theorem rss_message_round_trip (s : Server) (now : float) (n : Z)
    (e : MLEngine) (m : ESP8266RSSIModule) :
  py_int (py_str_int n) = Some n ->
  ml_engine s = Some e -> esp8266 e = Some m ->
  let s' := esp8266_datagram_received s now (rss_message n) in
  let l := fresh (dom (objects s)) in
  decode (rss_message n) = Some (rss_message n) /\
  nth 1 (split ":" (strip (rss_message n))) EmptyString = py_str_int n /\
  ml_engine s' = Some (set_esp8266 (Some (fst (process_rssi m now n))) e) /\
  rssi_window (fst (process_rssi m now n)) =
    window_push (rssi_window_size (rssi_config m)) (rssi_window m) n /\
  (forall r, snd (process_rssi m now n) = Some r ->
     objects s' !! l = Some r /\
     rssi r = float_of_int n /\
     tasks s' = tasks s ++ [Some l]) /\
  (snd (process_rssi m now n) = None ->
     objects s' = objects s /\ tasks s' = tasks s) /\
  (float_of_int n = None -> snd (process_rssi m now n) = None).
Proof.
  intros Hint He Hm s' l.
  destruct (rss_message_parts n) as (Hdec & Hstrip & Hstart & Hnth).
  assert (Hstart' : startswith (strip (rss_message n)) "RSS:" = true)
    by (rewrite Hstrip; exact Hstart).
  assert (Hint' : py_int (nth 1 (split ":" (strip (rss_message n))) EmptyString)
                  = Some n) by (rewrite Hstrip, Hnth; exact Hint).
  destruct (esp8266_datagram_received_accept s now (rss_message n)
              (rss_message n) n e m Hdec Hstart' Hint' He Hm)
    as (Heng & Hret & Hraise).
  split; [exact Hdec|]. split; [rewrite Hstrip; exact Hnth|].
  split; [exact Heng|]. split; [apply process_rssi_window|].
  split; [|split; [exact Hraise|]].
  - intros r Hr. destruct (Hret r Hr) as [Ho Ht].
    split; [fold s' in Ho; rewrite Ho; apply lookup_insert_eq|].
    split; [|exact Ht].
    destruct (process_rssi_Some m now n r Hr) as (raw & Hraw & Hrssi & _).
    rewrite Hrssi, Hraw. reflexivity.
  - intros Hnone.
    destruct (snd (process_rssi m now n)) as [r|] eqn:Hr; [|reflexivity].
    destruct (process_rssi_Some m now n r Hr) as (raw & Hraw & _).
    congruence.
Qed.

Lemma py_remove_last (w : nat) (clients : list nat) :
  ~ In w clients -> py_remove w (clients ++ [w]) = Some clients.
Proof.
  intros Hw. rewrite (py_remove_skip w clients [] Hw), app_nil_r. reflexivity.
Qed.

Lemma py_remove_absent (w : nat) (clients : list nat) :
  ~ In w clients -> py_remove w clients = None.
Proof.
  induction clients as [|c l IH]; simpl; [reflexivity|]. intros Hw.
  destruct (Nat.eqb_spec w c) as [->|Hne]; [tauto|].
  rewrite IH by tauto. reflexivity.
Qed.

Lemma py_remove_present (w : nat) (clients : list nat) :
  List.NoDup clients -> In w clients ->
  py_remove w clients = Some (List.filter (fun c => negb (Nat.eqb c w)) clients).
Proof.
  induction 1 as [|c l Hc Hnd IH]; simpl; [tauto|]. intros Hw.
  destruct (Nat.eqb_spec w c) as [->|Hne].
  - rewrite Nat.eqb_refl. simpl. f_equal. symmetry.
    apply forallb_filter_id. apply forallb_forall. intros x Hx.
    destruct (Nat.eqb_spec x c) as [->|]; [tauto|reflexivity].
  - destruct (Nat.eqb_spec c w); [congruence|]. simpl.
    rewrite IH by (destruct Hw; [congruence|assumption]). reflexivity.
Qed.

(** X17.  Accepting a websocket and then handling its disconnect leaves
    the server as it was.  In a registry without repeated entries a
    disconnect removes that websocket and keeps the others in their
    order; a second disconnect of the same websocket, or the disconnect of
    one that a broadcast has already removed, changes nothing. *)
Theorem websocket_connect_disconnect (s : Server) (w : nat)
    (outcome : WriteOutcome) :
  List.NoDup (websocket_clients s) ->
  (~ In w (websocket_clients s) ->
   websocket_disconnect (fst (websocket_connect s w outcome)) w = s /\
   websocket_disconnect s w = s) /\
  websocket_clients (websocket_disconnect s w) =
    List.filter (fun c => negb (Nat.eqb c w)) (websocket_clients s) /\
  websocket_disconnect (websocket_disconnect s w) w = websocket_disconnect s w.
Proof.
  intros Hnd.
  assert (Hfilter : websocket_clients (websocket_disconnect s w) =
                    List.filter (fun c => negb (Nat.eqb c w)) (websocket_clients s)).
  { unfold websocket_disconnect.
    destruct (in_dec Nat.eq_dec w (websocket_clients s)) as [Hin|Hout].
    - rewrite (py_remove_present w _ Hnd Hin). reflexivity.
    - rewrite (py_remove_absent w _ Hout). symmetry.
      apply forallb_filter_id. apply forallb_forall. intros x Hx.
      destruct (Nat.eqb_spec x w) as [->|]; [tauto|reflexivity]. }
  split; [|split; [exact Hfilter|]].
  - intros Hout. split.
    + unfold websocket_connect, websocket_disconnect.
      destruct outcome; simpl; rewrite (py_remove_last w _ Hout);
        destruct s; reflexivity.
    + unfold websocket_disconnect. rewrite (py_remove_absent w _ Hout). reflexivity.
  - unfold websocket_disconnect at 1.
    rewrite py_remove_absent; [reflexivity|].
    rewrite Hfilter, filter_In. intros [_ H]. rewrite Nat.eqb_refl in H. discriminate.
Qed.

End Simulator.

(** * Concrete runs for the further properties *)

(** A store with a vision event that has a detection beside the two of
    [h_still]. *)
Definition h_mixed : gmap positive (@DetectionResult QRuntime) :=
  <[3%positive := V_motion]> h_still.

(** A raw-packet module of window 5 holding five packets. *)
Definition monitor5 : WiFiMonitorModule :=
  {| packet_window := 5; packets := [-60; -61; -60; -30; -90]%Z |}.

(** One client connects, a coarse-signal datagram arrives and its
    broadcast starts; the camera loop publishes an empty frame while that
    broadcast is suspended, and both broadcasts are resumed to their
    end. *)
Definition session0 : list (@Event QRuntime) :=
  [WsConnect 1 Written; UdpESP8266 T0 "RSS:-50"; RunTask true;
   CameraTick T0 (Some V_still) true; Resume 0 true; Resume 0 true].

Lemma assign_tracking_id_stable_witness :
  let b1 := (10, 20, 110, 220)%Z in
  let b2 := (20, 40, 100, 200)%Z in
  let s1 := fst (assign_tracking_id (RT := QRuntime) Tracker_init T0 b1) in
  snd (assign_tracking_id s1 (qf 1700000001) b2) =
    snd (assign_tracking_id (RT := QRuntime) Tracker_init T0 b1) /\
  tracking_id_counter (fst (assign_tracking_id s1 (qf 1700000001) b2)) =
    tracking_id_counter s1 /\
  map fst (tracked_objects (fst (assign_tracking_id s1 (qf 1700000001) b2))) =
    map fst (tracked_objects s1).
Proof.
  intros b1 b2 s1.
  exact (assign_tracking_id_stable (RT := QRuntime) Tracker_init T0
           (qf 1700000001) b1 b2 eq_refl).
Defined.

Lemma process_rssi_stream_witness :
  let samples := [(T0, -50); (T0, -51); (T0, -49)]%Z in
  snd (process_rssi_all
         {| rssi_config := detection_rssi cfg0; rssi_window := [] |} samples)
    !! 2%nat =
  Some (Some (warm_up T0 (-49))).
Proof.
  intros samples.
  assert (H0 : (0 <= rssi_window_size (detection_rssi cfg0))%Z)
    by (simpl; lia).
  destruct (process_rssi_stream (RT := QRuntime) (detection_rssi cfg0)
              samples 2 T0 (-49)%Z H0 eq_refl)
    as (_ & r & Hr & Hwarm & _).
  rewrite Hr. f_equal.
  apply (proj1 (Hwarm ltac:(vm_compute; lia)) (qf (-49))).
  vm_compute. reflexivity.
Defined.

Lemma adapter_confidence_at_most_one_witness :
  confidence (warm_up T0 (-20)) = qf 0 /\
  f_gt (confidence (warm_up T0 (-20))) (qf 1) = false.
Proof.
  split; [reflexivity|].
  apply (proj1 (adapter_confidence_at_most_one (RT := QRuntime) eq_refl)
           {| rssi_config := detection_rssi cfg0; rssi_window := [] |}
           T0 (-20)%Z).
  reflexivity.
Defined.

Lemma process_packet_needs_six_witness :
  packets (fst (process_packet (RT := QRuntime) monitor5 T0 (Some (-20)%Z))) =
    [-61; -60; -30; -90; -20]%Z /\
  snd (process_packet (RT := QRuntime) monitor5 T0 (Some (-20)%Z)) =
    Some (new_result T0 WIFI_MONITOR false (qf (1 # 2))).
Proof.
  destruct (process_packet_needs_six (RT := QRuntime) monitor5 T0
              (Some (-20)%Z) eq_refl) as (Hp & _ & Hq).
  split; [exact Hp|].
  assert (H1 : (0 <= packet_window monitor5 < 6)%Z) by (simpl; lia).
  assert (H2 : (Z.of_nat (length (packets monitor5)) <= packet_window monitor5)%Z)
    by (simpl; lia).
  exact (proj1 (Hq H1 H2)).
Defined.

Lemma run_fusion_frame_witness :
  exists rs self' h',
    run_fusion engine_idle h_still (map vision_cycle waiting_cycles) =
      Some (rs, self', h') /\
    fused_from h_still h' /\
    Forall (fun r => is_Some (h' !! r)) rs /\
    length rs = 2%nat /\
    fusion_config self' = fusion_config engine_idle.
Proof.
  apply (run_fusion_frame (RT := QRuntime) (map vision_cycle waiting_cycles)
           engine_idle h_still).
  repeat constructor; intros x Hx; injection Hx as <-; eexists; reflexivity.
Defined.

Lemma handoff_timer_restarts_witness :
  exists rs self' h',
    run_fusion engine_pending h_mixed
      [(T0, Some 3%positive, None); (qf 1700000001, None, Some 2%positive);
       (qf 1700000002, Some 1%positive, Some 2%positive)] =
      Some (rs, self', h') /\
    handoff_start self' = Some (qf 1700000002) /\
    last rs = Some 1%positive /\
    h' !! 1%positive = Some V_still.
Proof.
  apply (handoff_timer_restarts (RT := QRuntime) engine_pending h_mixed T0
           3%positive None V_motion [(qf 1700000001, Some 2%positive)]
           (qf 1700000002) 1%positive (Some 2%positive) V_still);
    reflexivity.
Defined.

Lemma server_never_hands_off_witness :
  Forall plain_frame (snd (run (startup cfg0 true) session0)).
Proof.
  apply (server_never_hands_off (RT := QRuntime) cfg0 true session0).
  repeat constructor; discriminate.
Defined.

Lemma registry_no_duplicates_witness :
  List.NoDup
    (websocket_clients
       (fst (run hub0 [WsConnect 4 Written; WsDisconnect 2]))).
Proof.
  apply (registry_no_duplicates (RT := QRuntime)
           [WsConnect 4 Written; WsDisconnect 2] hub0).
  repeat constructor; simpl; intuition lia.
Defined.

Lemma rss_message_round_trip_witness :
  let s' := esp8266_datagram_received (startup cfg0 true) T0 (rss_message (-57)) in
  rss_message (-57) = "RSS:-57"%string /\
  objects s' !! 1%positive = Some (warm_up T0 (-57)) /\
  rssi (warm_up T0 (-57)) = Some (qf (-57)) /\
  tasks s' = [Some 1%positive].
Proof.
  intros s'.
  destruct (rss_message_round_trip (RT := QRuntime) (startup cfg0 true) T0
              (-57)%Z (MLEngine_init cfg0)
              {| rssi_config := detection_rssi cfg0; rssi_window := [] |}
              eq_refl eq_refl eq_refl) as (_ & _ & _ & _ & Hret & _).
  destruct (Hret (warm_up T0 (-57)) eq_refl)
    as (Ho & Hr & Ht).
  split; [reflexivity|]. split; [exact Ho|]. split; [exact Hr|exact Ht].
Defined.

Lemma websocket_connect_disconnect_witness :
  websocket_disconnect (fst (websocket_connect hub0 4 Written)) 4 = hub0.
Proof.
  assert (Hnd : List.NoDup (websocket_clients hub0)).
  { repeat constructor; simpl; intuition lia. }
  assert (Hout : ~ In 4 (websocket_clients hub0)).
  { simpl. intuition lia. }
  exact (proj1 (proj1 (websocket_connect_disconnect (RT := QRuntime) hub0 4
                         Written Hnd) Hout)).
Defined.

(** The registry of [hub0] with its two events queued for broadcast, and
    the write outcomes of two publishes: the write to client 2 fails
    during the first. *)
Definition hub_queued : @Server QRuntime :=
  set_tasks [Some 1%positive; Some 2%positive] hub0.

Definition publishes0 : list ((nat -> bool) * positive) :=
  [(fun c => negb (Nat.eqb c 2), 1%positive); (fun _ => true, 2%positive)].

Lemma sequential_publishes_deliver_witness :
  deliveries 3 (snd (publish_all hub_queued publishes0)) =
    [DetectionFrame (serialize_detection_result V_still);
     DetectionFrame (serialize_detection_result W_motion)] /\
  deliveries 2 (snd (publish_all hub_queued publishes0)) = [] /\
  websocket_clients (fst (publish_all hub_queued publishes0)) = [1; 3].
Proof.
  assert (Hnd : List.NoDup (websocket_clients hub_queued)).
  { repeat constructor; simpl; intuition lia. }
  assert (Hps : Forall (fun p => is_Some (objects hub_queued !! p.2)) publishes0).
  { repeat constructor; eexists; reflexivity. }
  assert (H3 : In 3 (websocket_clients hub_queued)) by (simpl; tauto).
  assert (H2 : In 2 (websocket_clients hub_queued)) by (simpl; tauto).
  destruct (sequential_publishes_deliver (RT := QRuntime) hub_queued publishes0
              [] 3 Hnd H3 eq_refl Hps) as (_ & Hd3 & Hc & _).
  destruct (sequential_publishes_deliver (RT := QRuntime) hub_queued publishes0
              [] 2 Hnd H2 eq_refl Hps) as (_ & Hd2 & _).
  split; [exact Hd3|]. split; [exact Hd2|exact Hc].
Defined.
